(** * Fusion v15: agent registry, dispatch and routing

    A shallow embedding of the routing core of the Fusion repository
    (core/agent_loader.py, core/dispatcher.py, core/orchestrator.py,
    prompt_orchestrator.py and the request handlers of fusion_api.py),
    followed by the properties of the specification that it settles.

    Python values are modelled by the inductive type [pyval]; code that
    raises, prints or invokes a handler runs in the monad [M], whose
    result is either a value or an exception and whose trace records, in
    order, every line printed or logged and every entry into handler code. *)

From Stdlib Require Import ZArith Ascii String List Bool Lia DecimalString.
From Stdlib Require Import Floats.SpecFloat.
From stdpp Require Import base strings list.

Open Scope Z_scope.

(** ** Strings as the Python runtime treats them *)

Module PyStr.

(** [needle in hay] on two [str] objects: substring search. *)
Fixpoint contains (needle hay : string) : bool :=
  String.prefix needle hay ||
  match hay with
  | EmptyString => false
  | String _ rest => contains needle rest
  end.

Definition is_upper (c : ascii) : bool :=
  (65 <=? Z.of_nat (nat_of_ascii c)) && (Z.of_nat (nat_of_ascii c) <=? 90).

Definition is_lower (c : ascii) : bool :=
  (97 <=? Z.of_nat (nat_of_ascii c)) && (Z.of_nat (nat_of_ascii c) <=? 122).

Definition lower_char (c : ascii) : ascii :=
  if is_upper c then ascii_of_nat (nat_of_ascii c + 32) else c.

Definition upper_char (c : ascii) : ascii :=
  if is_lower c then ascii_of_nat (nat_of_ascii c - 32) else c.

Fixpoint map_chars (f : ascii -> ascii) (s : string) : string :=
  match s with
  | EmptyString => EmptyString
  | String c rest => String (f c) (map_chars f rest)
  end.

(** [str.lower()] on ASCII text: the letters A-Z are mapped to a-z, every
    other byte is kept. Python lower-cases non-ASCII code points too;
    those are left as they are here, so the function agrees with the
    runtime on every ASCII string. *)
Definition lower (s : string) : string := map_chars lower_char s.

(** [str.capitalize()] on ASCII text: first character upper-cased, the
    rest lower-cased; bytes outside A-Z and a-z are kept, where Python
    also changes the case of non-ASCII letters. *)
Definition capitalize (s : string) : string :=
  match s with
  | EmptyString => EmptyString
  | String c rest => String (upper_char c) (lower rest)
  end.

(** [str.title()] on ASCII text: a letter that follows a non-letter is
    upper-cased, every other letter is lower-cased. Only A-Z and a-z count
    as letters here; Python takes non-ASCII letters for cased too, so the
    function agrees with the runtime on ASCII strings and not beyond. *)
Fixpoint title_go (prev_cased : bool) (s : string) : string :=
  match s with
  | EmptyString => EmptyString
  | String c rest =>
      let cased := is_upper c || is_lower c in
      String (if prev_cased then lower_char c else upper_char c)
             (title_go cased rest)
  end.

Definition title (s : string) : string := title_go false s.

(** [s.split(sep)] for a one-character separator. *)
Fixpoint split_go (sep : ascii) (cur : string) (s : string) : list string :=
  match s with
  | EmptyString => [String.rev cur]
  | String c rest =>
      if Ascii.eqb c sep then String.rev cur :: split_go sep EmptyString rest
      else split_go sep (String c cur) rest
  end.

Definition split (sep : ascii) (s : string) : list string :=
  split_go sep EmptyString s.

(** [sep.join(parts)]. *)
Fixpoint join (sep : string) (parts : list string) : string :=
  match parts with
  | [] => ""
  | [p] => p
  | p :: rest => p +:+ sep +:+ join sep rest
  end.

Definition dquote : ascii := "034"%char.
Definition squote : ascii := "039"%char.
Definition backslash : ascii := "092"%char.

Definition hex_digit (n : nat) : ascii :=
  match String.get n "0123456789abcdef" with
  | Some c => c
  | None => "0"%char
  end.

(** One character of [repr(s)] when the enclosing quote is [q]. *)
Definition repr_char (q c : ascii) : string :=
  let n := nat_of_ascii c in
  if Ascii.eqb c backslash then String backslash (String backslash "")
  else if Ascii.eqb c q then String backslash (String q "")
  else if Ascii.eqb c "009"%char then String backslash "t"
  else if Ascii.eqb c "010"%char then String backslash "n"
  else if Ascii.eqb c "013"%char then String backslash "r"
  else if (n <? 32)%nat || (n =? 127)%nat then
    String backslash
      (String "x" (String (hex_digit (n / 16)) (String (hex_digit (n mod 16)) "")))
  else String c "".

Fixpoint repr_body (q : ascii) (s : string) : string :=
  match s with
  | EmptyString => ""
  | String c rest => repr_char q c +:+ repr_body q rest
  end.

(** [repr(s)] of a [str]: single quotes, unless the text holds a single
    quote and no double quote; backslash, the quote and control
    characters escaped. Bytes above 127 (the UTF-8 encoding of printable
    non-ASCII text) are kept. *)
Definition repr (s : string) : string :=
  let q := if contains (String squote "") s && negb (contains (String dquote "") s)
           then dquote else squote in
  String q (repr_body q s) +:+ String q "".

(** [s[:n]]. *)
Definition take (n : nat) (s : string) : string := String.substring 0 n s.

End PyStr.

(** ** Dictionaries

    A Python [dict] with [str] keys keeps its keys in insertion order, and
    that order shows in messages and in the order of log lines, so a dict is
    an association list; a well-formed one has no key twice ([wf]). *)

Module PyDict.

Section Ops.
Context {V : Type}.

(** [d.get(key)]. *)
Fixpoint get (key : string) (d : list (string * V)) : option V :=
  match d with
  | [] => None
  | (k, v) :: rest => if String.eqb k key then Some v else get key rest
  end.

(** [key in d]. *)
Definition mem (key : string) (d : list (string * V)) : bool :=
  match get key d with Some _ => true | None => false end.

(** [d[key] = v]: an existing key keeps its place, a new one goes last. *)
Fixpoint set (key : string) (v : V) (d : list (string * V)) : list (string * V) :=
  match d with
  | [] => [(key, v)]
  | (k, v') :: rest =>
      if String.eqb k key then (k, v) :: rest else (k, v') :: set key v rest
  end.

(** [d.update(other)]. *)
Definition update (d other : list (string * V)) : list (string * V) :=
  fold_left (fun acc kv => set (fst kv) (snd kv) acc) other d.

(** [list(d.keys())]. *)
Definition keys (d : list (string * V)) : list string := List.map fst d.

Definition wf (d : list (string * V)) : Prop := List.NoDup (keys d).
End Ops.

End PyDict.

(** ** Python values *)

(** The values handlers and JSON payloads are made of. [VObj] stands for any
    other object, given by what [str()] and [repr()] make of it. *)
#[local] Unset Elimination Schemes.
Inductive pyval :=
  | VNone
  | VBool (b : bool)
  | VInt (n : Z)
  | VFloat (f : spec_float)
  | VStr (s : string)
  | VList (items : list pyval)
  | VDict (entries : list (string * pyval))
  | VObj (str_text repr_text : string).

#[local] Set Elimination Schemes.

Section Rendering.

(** The runtime's rendering of a float (shortest decimal that reads back)
    is taken as given. *)
Variable float_repr : spec_float -> string.

Definition int_repr (n : Z) : string := NilZero.string_of_int (Z.to_int n).

Fixpoint py_repr (v : pyval) : string :=
  match v with
  | VNone => "None"
  | VBool b => if b then "True" else "False"
  | VInt n => int_repr n
  | VFloat f => float_repr f
  | VStr s => PyStr.repr s
  | VList items => "[" +:+ PyStr.join ", " (List.map py_repr items) +:+ "]"
  | VDict entries =>
      "{" +:+ PyStr.join ", "
                (List.map (fun kv => PyStr.repr (fst kv) +:+ ": " +:+ py_repr (snd kv))
                          entries) +:+ "}"
  | VObj _ r => r
  end.

(** [str(v)]. *)
Definition py_str (v : pyval) : string :=
  match v with
  | VStr s => s
  | VObj s _ => s
  | _ => py_repr v
  end.

(** [repr] of a list of [str], as an f-string renders [list(d.keys())]. *)
Definition repr_str_list (names : list string) : string :=
  py_repr (VList (List.map VStr names)).

End Rendering.

(** ** Exceptions *)

(** The exception classes the code raises or names in an [except] clause;
    every one of them derives from [Exception]. *)
Inductive exn_class :=
  | ValueError | TypeError | KeyError | AttributeError
  | ImportError | ModuleNotFoundError
  | OSError | FileNotFoundError
  | JSONDecodeError | RuntimeError
  | TimeoutException | ConnectError
  | OtherException (name : string).

#[global] Instance exn_class_eq_dec : EqDecision exn_class.
Proof. solve_decision. Defined.

(** An exception object: a class and what [str(e)] gives, or FastAPI's
    [HTTPException(status_code, detail)]. *)
Inductive py_exn :=
  | Exn (cls : exn_class) (text : string)
  | HTTPException (status_code : Z) (detail : string).

(** [issubclass(c, base)] on the classes above. *)
Definition subclass (c base : exn_class) : bool :=
  bool_decide (c = base) ||
  match c, base with
  | ModuleNotFoundError, ImportError => true
  | FileNotFoundError, OSError => true
  | JSONDecodeError, ValueError => true
  | _, _ => false
  end.

(** [isinstance(e, base)]. *)
Definition isinstance (e : py_exn) (base : exn_class) : bool :=
  match e with
  | Exn c _ => subclass c base
  | HTTPException _ _ => false
  end.

(** [str(e)]; an [HTTPException] renders as its status and detail. *)
Definition exn_str (e : py_exn) : string :=
  match e with
  | Exn _ text => text
  | HTTPException sc detail => int_repr sc +:+ ": " +:+ detail
  end.

(** ** Effects: results, traces and the monad [M] *)

Inductive result (A : Type) :=
  | Return (a : A)
  | Raise (e : py_exn).
Arguments Return {A} a.
Arguments Raise {A} e.

(** Which of a handle's three entry points is called. *)
Inductive capability := CapRunAsync | CapRun | CapCall.

(** What a run leaves behind, in order. [EInvoke] marks the moment handler
    code is entered; [EFanOut] the moment the fan-out coordinator is. *)
Inductive event :=
  | EPrint (line : string)
  | ELogError (logger line : string)
  | EInvoke (agent : string) (cap : capability) (input : pyval)
  | EFanOut (input : string) (agents : list string)
  | EMkdir (path : string)
  | EMemoryAppend (agent input : string) (output : pyval)
  | ETelemetry (agent input : string) (output : pyval) (fallback : option string).

Definition M (A : Type) : Type := list event * result A.

Definition ret {A} (a : A) : M A := ([], Return a).

Definition bind {A B} (m : M A) (k : A -> M B) : M B :=
  match m with
  | (t, Return a) => let '(t', r) := k a in (t ++ t', r)
  | (t, Raise e) => (t, Raise e)
  end.

Definition raise {A} (e : py_exn) : M A := ([], Raise e).

Definition emit (ev : event) : M unit := ([ev], Return tt).

(** A computation without effects of its own, such as the outcome of a call
    into code outside the repository. *)
Definition lift {A} (r : result A) : M A := ([], r).

(** [try: m  except <filter> as e: handler e]; an exception the filter does
    not accept passes through. *)
Definition try_except {A} (m : M A) (filter : py_exn -> bool) (handler : py_exn -> M A) : M A :=
  match m with
  | (t, Raise e) =>
      if filter e then let '(t', r) := handler e in (t ++ t', r) else (t, Raise e)
  | ok => ok
  end.

(** [except Exception]. *)
Definition any_exception (e : py_exn) : bool := true.

Declare Scope py_scope.
Delimit Scope py_scope with py.
Notation "x <- m ;; k" := (bind m (fun x => k))
  (at level 100, m at next level, right associativity) : py_scope.
Notation "m ;;; k" := (bind m (fun _ => k))
  (at level 100, right associativity) : py_scope.
Open Scope py_scope.

Definition trace_of {A} (m : M A) : list event := fst m.
Definition result_of {A} (m : M A) : result A := snd m.

Definition is_invocation (ev : event) : bool :=
  match ev with
  | EInvoke _ _ _ | EFanOut _ _ => true
  | _ => false
  end.

(** No handler code was entered, and the fan-out coordinator was not either. *)
Definition no_invocation (t : list event) : Prop :=
  List.filter is_invocation t = [].

(** Handler code was entered for the agent [name] at most, and the fan-out
    coordinator was not called. *)
Definition invokes_only (name : string) (t : list event) : Prop :=
  Forall (fun ev =>
            match ev with
            | EInvoke agent _ _ => agent = name
            | EFanOut _ _ => False
            | _ => True
            end) t.

(** ** Agent handles *)

(** An instantiated agent, as far as the dispatcher can tell handles apart:
    which of [run_async], [run] and [__call__] it has ([hasattr]), and what
    each does on an input. Handler code is outside the repository, so a
    method is given by its outcome: for [run_async] and [run] the outcome of
    awaiting the call (both are awaited), for [__call__] that of the call.
    The input is annotated [str], which the runtime does not enforce, so it
    is a [pyval]. *)
Record agent_handle := {
  type_name : string;
  run_async : option (pyval -> list (string * pyval) -> result pyval);
  run : option (pyval -> list (string * pyval) -> result pyval);
  call : option (pyval -> result pyval)
}.

(** ** core/agent_loader.py *)

(** What the loaders find outside the process. *)

(** The manifest as parsed by [json.load]: a JSON object whose [agents]
    member, when present, maps agent names to their configuration. *)
Record manifest_data := {
  md_agents : option (list (string * pyval));
  md_system_capabilities : option pyval
}.

(** [open(manifest_path)] followed by [json.load]: either one of them
    raises (a missing file raises [FileNotFoundError], malformed JSON a
    [JSONDecodeError]), or the document is parsed. *)
Inductive manifest_file :=
  | ManifestFails (e : py_exn)
  | ManifestParsed (data : manifest_data).

(** An imported module, as [getattr(module, class_name)] sees it; a class is
    given by the outcome of calling it without arguments. *)
Definition py_module : Type := string -> option (result agent_handle).

(** [importlib.import_module]. *)
Definition importer : Type := string -> result py_module.

(** The plugin registry of [fusion_plugin_registry] (not part of the core):
    whether the plugin directory exists, the counts [discover_plugins]
    reports, and for every name of [list_agents()], in order, the outcome of
    [get_agent(name)()]. *)
Record plugin_env := {
  plugins_dir_exists : bool;
  agents_found : Z;
  tools_found : Z;
  registered : list (string * result agent_handle)
}.

Definition read_manifest (file : manifest_file) : M manifest_data :=
  match file with
  | ManifestFails e => raise e
  | ManifestParsed data => ret data
  end.

(** [getattr(importlib.import_module(module_name), class_name)()]. *)
Definition import_and_instantiate (imp : importer) (module_name class_name : string)
  : M agent_handle :=
  module <- lift (imp module_name) ;;
  match module class_name with
  | None =>
      raise (Exn AttributeError
               ("module " +:+ PyStr.repr module_name +:+ " has no attribute "
                +:+ PyStr.repr class_name))
  | Some cls => lift cls
  end.

(** What the naming convention resolves an agent name to, given how the
    class name is derived from it. *)
Definition resolve (class_name : string -> string) (imp : importer) (name : string)
  : result agent_handle :=
  result_of (import_and_instantiate imp ("agents." +:+ name +:+ "_agent") (class_name name)).

Definition import_or_attribute_error (e : py_exn) : bool :=
  isinstance e ImportError || isinstance e AttributeError.

Definition file_not_found (e : py_exn) : bool := isinstance e FileNotFoundError.

(** The lines the loaders print. *)
Definition loaded_line (name : string) : string := "✅ Loaded agent: " +:+ name.

Definition failed_line (name : string) (e : py_exn) : string :=
  "⚠️ Failed to load agent " +:+ name +:+ ": " +:+ exn_str e.

Definition missing_line (manifest_path : string) : string :=
  "⚠️ Warning: Manifest file " +:+ manifest_path +:+ " not found".

Definition plugin_loaded_line (entry : string * result agent_handle) : string :=
  "🔌 Loaded plugin agent: " +:+ fst entry.

Definition plugin_failed_line (entry : string * result agent_handle) (e : py_exn) : string :=
  "⚠️ Failed to instantiate plugin agent " +:+ fst entry +:+ ": " +:+ exn_str e.

(** [cls_name] of [load_agents]: every word of the name through [title]. *)
Definition title_class_name (name : string) : string :=
  PyStr.join "" (List.map PyStr.title (PyStr.split "_" name)) +:+ "Agent".

(** The body of the [for name in data["agents"]] loop of [load_agents]. *)
Definition load_one (imp : importer) (name : string)
  (agents : list (string * agent_handle)) : M (list (string * agent_handle)) :=
  try_except
    (let cls_name := title_class_name name in
     inst <- import_and_instantiate imp ("agents." +:+ name +:+ "_agent") cls_name ;;
     emit (EPrint (loaded_line name)) ;;;
     ret (PyDict.set name inst agents))
    import_or_attribute_error
    (fun e => emit (EPrint (failed_line name e)) ;;; ret agents).

(** [for item in items: agents = step(item, agents)]: a loop that fills a
    dict, one item at a time; an exception a step lets through ends it. *)
Fixpoint for_each {I : Type}
  (step : I -> list (string * agent_handle) -> M (list (string * agent_handle)))
  (items : list I) (agents : list (string * agent_handle))
  : M (list (string * agent_handle)) :=
  match items with
  | [] => ret agents
  | item :: rest => agents' <- step item agents ;; for_each step rest agents'
  end.

(** [load_agents(manifest_path)], the module-level function. The outer [try]
    spans the whole body. *)
Definition load_agents (file : manifest_file) (imp : importer) (manifest_path : string)
  : M (list (string * agent_handle)) :=
  try_except
    (data <- read_manifest file ;;
     entries <- match md_agents data with
                | Some entries => ret entries
                | None => raise (Exn KeyError "'agents'")
                end ;;
     for_each (load_one imp) (PyDict.keys entries) [])
    file_not_found
    (fun _ => emit (EPrint (missing_line manifest_path)) ;;; ret []).

(** The body of the loop over [plugin_registry.list_agents()], shared word
    for word by [load_plugins] and [AgentLoader._load_plugin_agents]. *)
Definition load_plugin_one (entry : string * result agent_handle)
  (agents : list (string * agent_handle)) : M (list (string * agent_handle)) :=
  try_except
    (inst <- lift (snd entry) ;;
     emit (EPrint (plugin_loaded_line entry)) ;;;
     ret (PyDict.set (fst entry) inst agents))
    any_exception
    (fun e => emit (EPrint (plugin_failed_line entry e)) ;;; ret agents).

Definition discovery_summary (label : string) (env : plugin_env) : M unit :=
  if 0 <? agents_found env then
    emit (EPrint (label +:+ int_repr (agents_found env) +:+ " agents, "
                  +:+ int_repr (tools_found env) +:+ " tools"))
  else ret tt.

(** [load_plugins(plugins_dir)]. *)
Definition load_plugins (env : plugin_env) (plugins_dir : string)
  : M (list (string * agent_handle)) :=
  if negb (plugins_dir_exists env) then
    emit (EMkdir plugins_dir) ;;; ret []
  else
    plugin_agents <- for_each load_plugin_one (registered env) [] ;;
    discovery_summary "🔌 Plugin discovery: " env ;;;
    ret plugin_agents.

(** [load_all_agents(manifest_path, plugins_dir)]. *)
Definition load_all_agents (file : manifest_file) (imp : importer) (env : plugin_env)
  (manifest_path plugins_dir : string) : M (list (string * agent_handle)) :=
  agents <- load_agents file imp manifest_path ;;
  plugin_agents <- load_plugins env plugins_dir ;;
  ret (PyDict.update agents plugin_agents).

(** The class [AgentLoader]; its methods take the object and return it
    updated. *)
Module AgentLoader.

Record t := {
  manifest_path : string;
  plugins_dir : string;
  loaded_agents : list (string * agent_handle);
  manifest_data_ : option manifest_data
}.

(** [AgentLoader(manifest_path, plugins_dir)]. *)
Definition init (manifest_path plugins_dir : string) : t :=
  {| manifest_path := manifest_path; plugins_dir := plugins_dir;
     loaded_agents := []; manifest_data_ := None |}.

(** [self._snake_to_pascal(snake_str)]. *)
Definition _snake_to_pascal (snake_str : string) : string :=
  PyStr.join "" (List.map PyStr.capitalize (PyStr.split "_" snake_str)).

(** [class_name] of [_load_core_agents]. *)
Definition pascal_class_name (agent_name : string) : string :=
  _snake_to_pascal agent_name +:+ "Agent".

(** The body of the loop of [_load_core_agents]. *)
Definition load_core_one (imp : importer) (agent_name : string)
  (agents : list (string * agent_handle)) : M (list (string * agent_handle)) :=
  try_except
    (let module_name := "agents." +:+ agent_name +:+ "_agent" in
     let class_name := pascal_class_name agent_name in
     agent_instance <- import_and_instantiate imp module_name class_name ;;
     emit (EPrint (loaded_line agent_name)) ;;;
     ret (PyDict.set agent_name agent_instance agents))
    import_or_attribute_error
    (fun e => emit (EPrint (failed_line agent_name e)) ;;; ret agents).

(** [self._load_core_agents()]. The [try] spans [open] and [json.load]
    only. *)
Definition _load_core_agents (self : t) (file : manifest_file) (imp : importer)
  : M (t * list (string * agent_handle)) :=
  match file with
  | ManifestFails e =>
      if file_not_found e then
        emit (EPrint (missing_line (manifest_path self))) ;;;
        ret (self, [])
      else raise e
  | ManifestParsed data =>
      let self := {| manifest_path := manifest_path self; plugins_dir := plugins_dir self;
                     loaded_agents := loaded_agents self; manifest_data_ := Some data |} in
      let manifest_agents := match md_agents data with Some a => a | None => [] end in
      agents <- for_each (load_core_one imp) (PyDict.keys manifest_agents) [] ;;
      ret (self, agents)
  end.

(** [self._load_plugin_agents()]. *)
Definition _load_plugin_agents (self : t) (env : plugin_env)
  : M (list (string * agent_handle)) :=
  if negb (plugins_dir_exists env) then
    emit (EPrint ("🔌 Creating plugins directory: " +:+ plugins_dir self)) ;;;
    emit (EMkdir (plugins_dir self)) ;;;
    ret []
  else
    agents <- for_each load_plugin_one (registered env) [] ;;
    discovery_summary "🔌 Plugin discovery summary: " env ;;;
    ret agents.

(** [self.load_agents()]. *)
Definition load_agents (self : t) (file : manifest_file) (imp : importer) (env : plugin_env)
  : M (t * list (string * agent_handle)) :=
  let agents := [] in
  loaded <- _load_core_agents self file imp ;;
  let '(self, core_agents) := loaded in
  let agents := PyDict.update agents core_agents in
  plugin_agents <- _load_plugin_agents self env ;;
  let agents := PyDict.update agents plugin_agents in
  ret ({| manifest_path := manifest_path self; plugins_dir := plugins_dir self;
          loaded_agents := agents; manifest_data_ := manifest_data_ self |}, agents).

End AgentLoader.

(** ** Reading a batch load

    The three loading loops have one shape: an item has a name and an
    outcome (an instance, or an exception); an instance is stored under the
    name and reported, an exception of a caught kind is reported and the
    loop goes on, any other exception ends the loop. *)

Module Batch.

Section Outcomes.
Context {I : Type}.
Variable name_of : I -> string.
Variable outcome : I -> result agent_handle.
Variable catches : py_exn -> bool.
Variable loaded_line : I -> string.
Variable failed_line : I -> py_exn -> string.

(** The item gives an instance. *)
Definition usable (item : I) : bool :=
  match outcome item with Return _ => true | Raise _ => false end.

(** The item fails with an exception of a caught kind. *)
Definition unusable (item : I) : bool :=
  match outcome item with Return _ => false | Raise e => catches e end.

(** Every item of the batch gives an instance or fails with an exception of
    a caught kind. *)
Definition settled (items : list I) : Prop :=
  Forall (fun item => usable item || unusable item = true) items.

(** The line printed for the item. *)
Definition log_line (item : I) : event :=
  match outcome item with
  | Return _ => EPrint (loaded_line item)
  | Raise e => EPrint (failed_line item e)
  end.

(** The entries the usable items leave in the dict, in order. *)
Definition loaded (items : list I) : list (string * agent_handle) :=
  flat_map (fun item =>
              match outcome item with
              | Return inst => [(name_of item, inst)]
              | Raise _ => []
              end) items.

End Outcomes.

End Batch.



(** ** core/dispatcher.py *)

Module Dispatcher.

Record t := { agents : list (string * agent_handle) }.

(** [Dispatcher()]: [self.agents = load_agents()]. *)
Definition init (file : manifest_file) (imp : importer) : M t :=
  loaded <- load_agents file imp "agent_manifest.json" ;;
  ret {| agents := loaded |}.

(** [context or {}]. *)
Definition context_or_empty (context : option (list (string * pyval)))
  : list (string * pyval) :=
  match context with
  | Some (entry :: rest) => entry :: rest
  | _ => []
  end.

Section WithRuntime.

Variable float_repr : spec_float -> string.

(** Lines 43-45 and 50-52: what is returned for the result of [run_async]
    or [run]. *)
Definition normalize (result : pyval) : pyval :=
  match result with
  | VDict entries =>
      match PyDict.get "output" entries with
      | Some v => v
      | None =>
          match PyDict.get "enhanced_output" entries with
          | Some v => v
          | None => VStr (py_str float_repr result)
          end
      end
  | _ => VStr (py_str float_repr result)
  end.

(** The three branches of the [try] block. *)
Definition invoke (agent_name : string) (agent : agent_handle) (input_text : pyval)
  (context : option (list (string * pyval))) : M pyval :=
  match run_async agent with
  | Some method =>
      emit (EInvoke agent_name CapRunAsync input_text) ;;;
      result <- lift (method input_text (context_or_empty context)) ;;
      ret (normalize result)
  | None =>
      match run agent with
      | Some method =>
          emit (EInvoke agent_name CapRun input_text) ;;;
          result <- lift (method input_text (context_or_empty context)) ;;
          ret (normalize result)
      | None =>
          match call agent with
          | Some method =>
              emit (EInvoke agent_name CapCall input_text) ;;;
              result <- lift (method input_text) ;;
              ret (VStr (py_str float_repr result))
          | None =>
              raise (Exn TypeError
                       (PyStr.repr (type_name agent) +:+ " object is not callable"))
          end
      end
  end.

(** The entry point the [if]/[elif]/[else] chain resolves for a handle and
    what the handler does there; [None] for an object with none of the
    three. *)
Definition handler_outcome (agent : agent_handle) (input_text : pyval)
  (context : option (list (string * pyval))) : option (capability * result pyval) :=
  match run_async agent, run agent, call agent with
  | Some method, _, _ => Some (CapRunAsync, method input_text (context_or_empty context))
  | None, Some method, _ => Some (CapRun, method input_text (context_or_empty context))
  | None, None, Some method => Some (CapCall, method input_text)
  | None, None, None => None
  end.

(** The line [self.logger.error] writes for an exception. *)
Definition error_line (agent_name : string) (e : py_exn) : string :=
  "Error dispatching to " +:+ agent_name +:+ ": " +:+ exn_str e.

(** [await self.dispatch(agent_name, input_text, context)]. *)
Definition dispatch (self : t) (agent_name : string) (input_text : pyval)
  (context : option (list (string * pyval))) : M pyval :=
  match PyDict.get agent_name (agents self) with
  | None =>
      raise (Exn ValueError
               ("Agent '" +:+ agent_name +:+ "' not found. Available: "
                +:+ repr_str_list float_repr (PyDict.keys (agents self))))
  | Some agent =>
      try_except
        (invoke agent_name agent input_text context)
        any_exception
        (fun e =>
           emit (ELogError "Dispatcher" (error_line agent_name e)) ;;;
           raise e)
  end.

End WithRuntime.

(** [self.list_agents()]. *)
Definition list_agents (self : t) : list (string * string) :=
  List.map (fun entry => (fst entry, type_name (snd entry))) (agents self).

End Dispatcher.

(** ** core/orchestrator.py *)

Module Orchestrator.

(** [any(word in text for word in words)]. *)
Definition any_in (words : list string) (text : string) : bool :=
  existsb (fun word => PyStr.contains word text) words.

Section WithRuntime.

(** [str.lower] of the runtime; [PyStr.lower] is what it does on ASCII. *)
Variable str_lower : string -> string.

(** [Orchestrator.select_agent(prompt)]. *)
Definition select_agent (prompt : string) : string :=
  let prompt_lower := str_lower prompt in
  if any_in ["design"; "ui"; "ux"; "interface"; "visual"] prompt_lower then
    "vp_design"
  else if any_in ["strategy"; "roadmap"; "business"; "plan"] prompt_lower then
    "strategy_pilot"
  else if any_in ["code"; "technical"; "implement"; "development"] prompt_lower then
    "design_technologist"
  else if any_in ["content"; "copy"; "text"; "narrative"] prompt_lower then
    "content_designer"
  else if any_in ["evaluate"; "analyze"; "review"; "critique"] prompt_lower then
    "evaluator"
  else
    "evaluator".

End WithRuntime.

(** The heuristic as the specification words it: topic categories in a
    fixed priority order, each with its marker words and its one default
    agent; the first category with a marker word in the lower-cased input
    wins, and without a match the fixed default agent is taken. *)
Inductive category := Design | Strategy | Technical | Content | Evaluation.

Definition priority_order : list category :=
  [Design; Strategy; Technical; Content; Evaluation].

Definition marker_words (c : category) : list string :=
  match c with
  | Design => ["design"; "ui"; "ux"; "interface"; "visual"]
  | Strategy => ["strategy"; "roadmap"; "business"; "plan"]
  | Technical => ["code"; "technical"; "implement"; "development"]
  | Content => ["content"; "copy"; "text"; "narrative"]
  | Evaluation => ["evaluate"; "analyze"; "review"; "critique"]
  end.

Definition default_agent_of (c : category) : string :=
  match c with
  | Design => "vp_design"
  | Strategy => "strategy_pilot"
  | Technical => "design_technologist"
  | Content => "content_designer"
  | Evaluation => "evaluator"
  end.

Definition fallback_agent : string := "evaluator".

(** The place of a category in the priority order. *)
Definition rank (c : category) : nat :=
  match c with
  | Design => 0
  | Strategy => 1
  | Technical => 2
  | Content => 3
  | Evaluation => 4
  end.

Definition matches (text : string) (c : category) : bool :=
  any_in (marker_words c) text.

Definition spec_select_agent (str_lower : string -> string) (prompt : string) : string :=
  match List.find (matches (str_lower prompt)) priority_order with
  | Some c => default_agent_of c
  | None => fallback_agent
  end.

End Orchestrator.

(** ** prompt_orchestrator.py: the [/route] endpoint *)

Module PromptOrchestrator.

(** What [prompt_master.run_async] returns, as far as [route_agent] reads
    it; an absent key is [None]. *)
Record shared_state_t := {
  ss_suggested_agents : option (list string);
  ss_pattern_type : option string
}.

Record analysis := {
  an_error : option string;
  an_shared_state : option shared_state_t;
  an_confidence : option spec_float
}.

Record AgentRouteRequest := {
  prompt : string;
  confidence_threshold : spec_float
}.

Record AgentRouteResponse := {
  recommended_agent : string;
  confidence : spec_float;
  alternatives : list string;
  reasoning : string
}.

(** The float literals [0.0] and [0.7] (binary64). *)
Definition float_0_0 : spec_float := S754_zero false.
Definition float_0_7 : spec_float := S754_finite false 6305039478318694 (-53).

(** [AgentRouteRequest(prompt=...)] with the default threshold. *)
Definition default_request (prompt : string) : AgentRouteRequest :=
  {| prompt := prompt; confidence_threshold := float_0_7 |}.

(** [a >= b] on floats. *)
Definition float_ge (a b : spec_float) : bool := SFleb b a.

Definition pattern_defaults : list (string * string) :=
  [("design_focused", "vp_design");
   ("strategy_focused", "strategy_pilot");
   ("technical_focused", "design_technologist");
   ("content_focused", "content_designer");
   ("general", "evaluator")].

(** [l[0]]. *)
Definition first_item (l : list string) : M string :=
  match l with
  | item :: _ => ret item
  | [] => raise (Exn (OtherException "IndexError") "list index out of range")
  end.

(** [l[1:3]]. *)
Definition slice_1_3 (l : list string) : list string := firstn 2 (skipn 1 l).

(** Lines 137-140: [result.get("shared_state", {})] and the three values
    read with their defaults. *)
Definition shared_state_of (result : analysis) : shared_state_t :=
  match an_shared_state result with
  | Some st => st
  | None => {| ss_suggested_agents := None; ss_pattern_type := None |}
  end.

Definition suggested_agents_of (result : analysis) : list string :=
  default [] (ss_suggested_agents (shared_state_of result)).

Definition confidence_of (result : analysis) : spec_float :=
  default float_0_0 (an_confidence result).

Definition pattern_type_of (result : analysis) : string :=
  default "general" (ss_pattern_type (shared_state_of result)).

Section WithRuntime.

(** The formatting of a float by [:.2f]. *)
Variable format_2f : spec_float -> string.

(** [prompt_master.run_async(prompt, {})], by its outcome. The call enters
    PromptMaster; what it prints, logs or calls is not part of the trace,
    which records what the endpoint does itself. *)
Variable prompt_master : string -> result analysis.

(** [route_agent(req)]. *)
Definition route_agent (req : AgentRouteRequest) : M AgentRouteResponse :=
  try_except
    (result <- lift (prompt_master (prompt req)) ;;
     match an_error result with
     | Some detail => raise (HTTPException 500 detail)
     | None => ret tt
     end ;;;
     let suggested_agents := suggested_agents_of result in
     let confidence := confidence_of result in
     let pattern_type := pattern_type_of result in
     choice <-
       (if negb (bool_decide (suggested_agents = []))
           && float_ge confidence (confidence_threshold req)
        then
          recommended_agent <- first_item suggested_agents ;;
          ret (recommended_agent, slice_1_3 suggested_agents)
        else
          ret (default "evaluator" (PyDict.get pattern_type pattern_defaults),
               ["vp_design"; "creative_director"])) ;;
     let reasoning :=
       "Pattern '" +:+ pattern_type +:+ "' detected with " +:+ format_2f confidence
       +:+ " confidence. " in
     let reasoning :=
       if float_ge confidence (confidence_threshold req)
       then reasoning +:+ "High confidence routing to specialized agents."
       else reasoning +:+ "Low confidence, using fallback routing." in
     ret {| recommended_agent := fst choice;
            confidence := confidence;
            alternatives := snd choice;
            reasoning := reasoning |})
    any_exception
    (fun e => raise (HTTPException 500 ("Agent routing failed: " +:+ exn_str e))).

End WithRuntime.

End PromptOrchestrator.

(** ** Operations of the runtime on values *)

(** [bool(v)]. *)
Definition py_truthy (v : pyval) : bool :=
  match v with
  | VNone => false
  | VBool b => b
  | VInt n => negb (n =? 0)
  | VFloat (S754_zero _) => false
  | VFloat _ => true
  | VStr s => negb (String.eqb s "")
  | VList items => match items with [] => false | _ => true end
  | VDict entries => match entries with [] => false | _ => true end
  | VObj _ _ => true
  end.

(** [type(v).__name__]. *)
Definition py_type_name (v : pyval) : string :=
  match v with
  | VNone => "NoneType"
  | VBool _ => "bool"
  | VInt _ => "int"
  | VFloat _ => "float"
  | VStr _ => "str"
  | VList _ => "list"
  | VDict _ => "dict"
  | VObj _ _ => "object"
  end.

(** [v.get(key, default)]: only a dict has the method. *)
Definition py_get (v : pyval) (key : string) (default : pyval) : result pyval :=
  match v with
  | VDict entries =>
      Return (match PyDict.get key entries with Some x => x | None => default end)
  | _ =>
      Raise (Exn AttributeError
               (PyStr.repr (py_type_name v) +:+ " object has no attribute 'get'"))
  end.

(** [v in d] for a dict [d] with [str] keys: a list or a dict cannot be
    hashed, and nothing but a [str] equals a key. *)
Definition py_in_dict {V} (v : pyval) (d : list (string * V)) : result bool :=
  match v with
  | VStr s => Return (PyDict.mem s d)
  | VList _ | VDict _ =>
      Raise (Exn TypeError ("unhashable type: " +:+ PyStr.repr (py_type_name v)))
  | _ => Return false
  end.

(** ** fusion_api.py *)

Module FusionApi.

Record RunRequest := {
  agent : string;
  input : string;
  use_memory : bool;
  use_telemetry : bool;
  use_prompt_orchestrator : bool
}.

Record PromptRequest := {
  p_input : string;
  p_agent_preference : option string;
  p_use_memory : bool;
  p_use_telemetry : bool;
  p_use_prompt_orchestrator : bool
}.

Record ParallelRunRequest := {
  pr_agents : list string;
  pr_input : string;
  pr_use_evaluator : bool
}.

(** What [await client.post(url, json=body)] comes to: it raises (a timeout
    raises [httpx.TimeoutException]), or there is a response with a status
    code, whose [.json()] gives a value or raises. *)
Inductive http_outcome :=
  | HttpRaises (e : py_exn)
  | HttpResponse (status_code : Z) (json : result pyval).

Definition PROMPT_ORCHESTRATOR_URL : string := "http://localhost:8001".

(** The float literal [0.5] (binary64). *)
Definition float_0_5 : spec_float := S754_finite false 4503599627370496 (-53).

(** [x or "evaluator"] for an optional [str]. *)
Definition or_evaluator (preference : option string) : string :=
  match preference with
  | Some name => if String.eqb name "" then "evaluator" else name
  | None => "evaluator"
  end.

(** [bool(x)] for an optional [str]. *)
Definition preference_given (preference : option string) : bool :=
  match preference with
  | Some name => negb (String.eqb name "")
  | None => false
  end.

Definition when (b : bool) (m : M unit) : M unit := if b then m else ret tt.

(** The call did not give a response with status 200: it timed out or
    raised otherwise, or the status is another one. *)
Definition service_failed (outcome : http_outcome) : bool :=
  match outcome with
  | HttpRaises _ => true
  | HttpResponse status_code _ => negb (status_code =? 200)
  end.

(** The JSON body posted to [/rewrite]. *)
Definition rewrite_request (prompt : string) (context : option (list (string * pyval)))
  : pyval :=
  VDict [("prompt", VStr prompt);
         ("context", VDict (Dispatcher.context_or_empty context));
         ("use_memory", VBool true);
         ("use_fallback", VBool true)].

(** The JSON body posted to [/route]. *)
Definition route_request (prompt : string) : pyval :=
  VDict [("prompt", VStr prompt);
         ("confidence_threshold", VFloat PromptOrchestrator.float_0_7)].

Section WithEnvironment.

Variable float_repr : spec_float -> string.

(** [f"{v:.2f}"] on a value; it raises on a value that is no number. *)
Variable format_2f : pyval -> result string.

(** The Rewrite/Route Service as seen through [httpx]. *)
Variable http_post : string -> pyval -> http_outcome.

(** [orchestrator.run_parallel(input, agents)] of [MultiAgentOrchestrator]
    (fusion_core, outside the core), by its outcome. *)
Variable run_parallel : string -> list string -> result pyval.

(** The module globals [agent_map] and [dispatcher]. *)
Variable agent_map : list (string * agent_handle).
Variable dispatcher : Dispatcher.t.

Definition post (url : string) (body : pyval) : M (Z * result pyval) :=
  match http_post url body with
  | HttpRaises e => raise e
  | HttpResponse status_code json => ret (status_code, json)
  end.

Definition rewrite_fallback (prompt : string) : pyval :=
  VDict [("original_prompt", VStr prompt); ("rewritten_prompt", VStr prompt);
         ("confidence", VFloat float_0_5)].

(** [call_prompt_orchestrator(prompt, context)]. *)
Definition call_prompt_orchestrator (prompt : string)
  (context : option (list (string * pyval))) : M pyval :=
  try_except
    (response <- post (PROMPT_ORCHESTRATOR_URL +:+ "/rewrite")
                   (rewrite_request prompt context) ;;
     if fst response =? 200 then lift (snd response)
     else
       emit (EPrint ("⚠️ Prompt orchestrator failed: " +:+ int_repr (fst response))) ;;;
       ret (rewrite_fallback prompt))
    any_exception
    (fun e =>
       emit (EPrint ("⚠️ Prompt orchestrator error: " +:+ exn_str e)) ;;;
       ret (rewrite_fallback prompt)).

Definition route_fallback : pyval :=
  VDict [("recommended_agent", VStr "evaluator"); ("confidence", VFloat float_0_5)].

(** [get_agent_recommendation(prompt)]. *)
Definition get_agent_recommendation (prompt : string) : M pyval :=
  try_except
    (response <- post (PROMPT_ORCHESTRATOR_URL +:+ "/route") (route_request prompt) ;;
     if fst response =? 200 then lift (snd response)
     else ret route_fallback)
    any_exception
    (fun e =>
       emit (EPrint ("⚠️ Agent routing error: " +:+ exn_str e)) ;;;
       ret route_fallback).

Definition rewrite_failed (e : py_exn) : M unit :=
  emit (EPrint ("⚠️ Prompt orchestrator failed, using original prompt: " +:+ exn_str e)).

(** Lines 173-183 of [run_agent]: the values of [final_input] and
    [orchestrator_result] after the inner [try]. The locals keep what was
    assigned before an exception, so the one handler is repeated at each
    point where an assignment has taken place. *)
Definition rewrite_step (req : RunRequest) : M (pyval * option pyval) :=
  if use_prompt_orchestrator req then
    try_except
      (orchestrator_result <- call_prompt_orchestrator (input req) None ;;
       try_except
         (rewritten <- lift (py_get orchestrator_result "rewritten_prompt" VNone) ;;
          if py_truthy rewritten then
            try_except
              (conf <- lift (py_get orchestrator_result "confidence" (VInt 0)) ;;
               shown <- lift (format_2f conf) ;;
               emit (EPrint ("🔄 Prompt rewritten by orchestrator (confidence: "
                             +:+ shown +:+ ")")) ;;;
               ret (rewritten, Some orchestrator_result))
              any_exception
              (fun e => rewrite_failed e ;;; ret (rewritten, Some orchestrator_result))
          else ret (VStr (input req), Some orchestrator_result))
         any_exception
         (fun e => rewrite_failed e ;;; ret (VStr (input req), Some orchestrator_result)))
      any_exception
      (fun e => rewrite_failed e ;;; ret (VStr (input req), None))
  else ret (VStr (input req), None).

(** Lines 210-217: the [orchestrator_metadata] entry. *)
Definition orchestrator_metadata (orchestrator_result : pyval) : M pyval :=
  original_prompt <- lift (py_get orchestrator_result "original_prompt" VNone) ;;
  rewritten_prompt <- lift (py_get orchestrator_result "rewritten_prompt" VNone) ;;
  pattern_type <- lift (py_get orchestrator_result "pattern_type" VNone) ;;
  confidence <- lift (py_get orchestrator_result "confidence" VNone) ;;
  suggested_agents <- lift (py_get orchestrator_result "suggested_agents" (VList [])) ;;
  ret (VDict [("original_prompt", original_prompt);
              ("rewritten_prompt", rewritten_prompt);
              ("pattern_type", pattern_type);
              ("confidence", confidence);
              ("suggested_agents", suggested_agents)]).

(** [run_agent(req)]. [AgentMemory] and the telemetry logger are outside the
    core; their calls are recorded in the trace and taken to return, the
    memory object counting as true in [if memory:].
    [RunEndpoint.run_agent] below is the same function with the outcomes
    of those calls given. *)
Definition run_agent (req : RunRequest) : M (list (string * pyval)) :=
  if negb (PyDict.mem (agent req) agent_map) then
    raise (HTTPException 404 ("Agent '" +:+ agent req +:+ "' not found"))
  else
    try_except
      (rewritten <- rewrite_step req ;;
       let final_input := fst rewritten in
       let orchestrator_result := snd rewritten in
       output <- Dispatcher.dispatch float_repr dispatcher (agent req) final_input None ;;
       when (use_memory req) (emit (EMemoryAppend (agent req) (input req) output)) ;;;
       when (use_telemetry req)
         (emit (ETelemetry (agent req) (input req) output None)) ;;;
       let result :=
         [("agent", VStr (agent req));
          ("output", output);
          ("success", VBool true);
          ("memory_enabled", VBool (use_memory req));
          ("telemetry_enabled", VBool (use_telemetry req));
          ("prompt_orchestrator_used", VBool (use_prompt_orchestrator req))] in
       match orchestrator_result with
       | Some r =>
           if py_truthy r then
             metadata <- orchestrator_metadata r ;;
             ret (PyDict.set "orchestrator_metadata" metadata result)
           else ret result
       | None => ret result
       end)
      any_exception
      (fun e =>
         when (use_telemetry req)
           (emit (ETelemetry (agent req) (input req) (VStr ("Error: " +:+ exn_str e))
                    (Some "error_handling"))) ;;;
         raise (HTTPException 500 ("Agent execution failed: " +:+ exn_str e))).

Definition recommendation_failed (e : py_exn) : M unit :=
  emit (EPrint ("⚠️ Agent recommendation failed: " +:+ exn_str e)).

(** Lines 270-284 of [handle_prompt]: the values of [agent_recommendation]
    and [final_agent] after the inner [try]; the handler is repeated as in
    [rewrite_step]. *)
Definition select_final_agent (req : PromptRequest) : M (option pyval * string) :=
  let final_agent := or_evaluator (p_agent_preference req) in
  if p_use_prompt_orchestrator req then
    try_except
      (agent_recommendation <- get_agent_recommendation (p_input req) ;;
       try_except
         (recommended_agent <- lift (py_get agent_recommendation "recommended_agent" VNone) ;;
          adopt <- (if negb (preference_given (p_agent_preference req))
                    then lift (py_in_dict recommended_agent agent_map)
                    else ret false) ;;
          if adopt then
            let final_agent := py_str float_repr recommended_agent in
            try_except
              (conf <- lift (py_get agent_recommendation "confidence" (VInt 0)) ;;
               shown <- lift (format_2f conf) ;;
               emit (EPrint ("🎯 Auto-selected agent: " +:+ final_agent
                             +:+ " (confidence: " +:+ shown +:+ ")")) ;;;
               ret (Some agent_recommendation, final_agent))
              any_exception
              (fun e => recommendation_failed e ;;; ret (Some agent_recommendation, final_agent))
          else ret (Some agent_recommendation, final_agent))
         any_exception
         (fun e => recommendation_failed e ;;; ret (Some agent_recommendation, final_agent)))
      any_exception
      (fun e => recommendation_failed e ;;; ret (None, final_agent))
  else ret (None, final_agent).

(** Lines 298-304: the [auto_selection] entry. *)
Definition auto_selection (agent_recommendation : pyval) : M pyval :=
  recommended_agent <- lift (py_get agent_recommendation "recommended_agent" VNone) ;;
  confidence <- lift (py_get agent_recommendation "confidence" VNone) ;;
  alternatives <- lift (py_get agent_recommendation "alternatives" (VList [])) ;;
  reasoning <- lift (py_get agent_recommendation "reasoning" VNone) ;;
  ret (VDict [("recommended_agent", recommended_agent);
              ("confidence", confidence);
              ("alternatives", alternatives);
              ("reasoning", reasoning)]).

(** The [RunRequest] built at lines 287-293. *)
Definition run_request_of (req : PromptRequest) (final_agent : string) : RunRequest :=
  {| agent := final_agent;
     input := p_input req;
     use_memory := p_use_memory req;
     use_telemetry := p_use_telemetry req;
     use_prompt_orchestrator := p_use_prompt_orchestrator req |}.

(** [handle_prompt(req)]. *)
Definition handle_prompt (req : PromptRequest) : M (list (string * pyval)) :=
  try_except
    (selected <- select_final_agent req ;;
     let agent_recommendation := fst selected in
     let final_agent := snd selected in
     result <- run_agent (run_request_of req final_agent) ;;
     match agent_recommendation with
     | Some r =>
         if py_truthy r then
           entry <- auto_selection r ;;
           ret (PyDict.set "auto_selection" entry result)
         else ret result
     | None => ret result
     end)
    any_exception
    (fun e => raise (HTTPException 500 ("Prompt handling failed: " +:+ exn_str e))).

(** [run_parallel_agents(req)]. *)
Definition run_parallel_agents (req : ParallelRunRequest) : M (list (string * pyval)) :=
  let invalid_agents :=
    List.filter (fun name => negb (PyDict.mem name agent_map)) (pr_agents req) in
  if negb (bool_decide (invalid_agents = [])) then
    raise (HTTPException 404
             ("Agents not found: " +:+ repr_str_list float_repr invalid_agents))
  else
    try_except
      (emit (EFanOut (pr_input req) (pr_agents req)) ;;;
       result <- lift (run_parallel (pr_input req) (pr_agents req)) ;;
       top_result <- lift (py_get result "top_result" VNone) ;;
       all_results <- lift (py_get result "all_results" VNone) ;;
       evaluations <- lift (py_get result "evaluations" VNone) ;;
       execution_time <- lift (py_get result "execution_time" VNone) ;;
       agent_count <- lift (py_get result "agent_count" VNone) ;;
       ret [("input", VStr (pr_input req));
            ("agents", VList (List.map VStr (pr_agents req)));
            ("top_result", top_result);
            ("all_results", all_results);
            ("evaluations", evaluations);
            ("execution_time", execution_time);
            ("agent_count", agent_count)])
      any_exception
      (fun e => raise (HTTPException 500 ("Parallel execution failed: " +:+ exn_str e))).

End WithEnvironment.



(** [load_agent_manifest()]. *)
Definition load_agent_manifest (file : manifest_file) : M manifest_data :=
  try_except
    (read_manifest file)
    file_not_found
    (fun _ => ret {| md_agents := Some []; md_system_capabilities := Some (VDict []) |}).

(** The float literal [0.8] (binary64). *)
Definition float_0_8 : spec_float := S754_finite false 7205759403792794 (-53).

(** The dict literal that [list_agents] and
    [AgentLoader.list_available_agents] both build for one agent from its
    manifest entry [info] and the instance's type name. *)
Definition agent_info (info : pyval) (type_name : string) : M pyval :=
  role <- lift (py_get info "role" (VStr "Unknown")) ;;
  capabilities <- lift (py_get info "capabilities" (VList [])) ;;
  confidence_threshold <- lift (py_get info "confidence_threshold" (VFloat float_0_8)) ;;
  memory_enabled <- lift (py_get info "memory_enabled" (VBool true)) ;;
  telemetry_enabled <- lift (py_get info "telemetry_enabled" (VBool true)) ;;
  ret (VDict [("role", role);
              ("capabilities", capabilities);
              ("confidence_threshold", confidence_threshold);
              ("memory_enabled", memory_enabled);
              ("telemetry_enabled", telemetry_enabled);
              ("type", VStr type_name);
              ("available", VBool true)]).

(** [for name, agent in agents.items(): infos[name] = describe(name, agent)]. *)
Fixpoint describe_each (describe : string -> agent_handle -> M pyval)
  (agents : list (string * agent_handle)) (infos : list (string * pyval))
  : M (list (string * pyval)) :=
  match agents with
  | [] => ret infos
  | (agent_name, agent) :: rest =>
      info <- describe agent_name agent ;;
      describe_each describe rest (PyDict.set agent_name info infos)
  end.

(** [agent_manifest.get("agents", {}).get(agent_name, {})]. *)
Definition manifest_info (agent_manifest : manifest_data) (agent_name : string) : pyval :=
  default (VDict []) (PyDict.get agent_name (default [] (md_agents agent_manifest))).

(** [list_agents()], the [/agents] endpoint. *)
Definition list_agents (agent_manifest : manifest_data)
  (agent_map : list (string * agent_handle)) : M (list (string * pyval)) :=
  agents_info <-
    describe_each
      (fun agent_name agent =>
         agent_info (manifest_info agent_manifest agent_name) (type_name agent))
      agent_map [] ;;
  ret [("agents", VDict agents_info);
       ("total_agents", VInt (Z.of_nat (length agent_map)));
       ("system_capabilities",
        default (VDict []) (md_system_capabilities agent_manifest))].

(** The telemetry logger of [fusion_core] as [export_telemetry] uses it:
    its session id and the outcomes of [save()] and [export_to_csv(path)]. *)
Record telemetry_logger_t := {
  session_id : string;
  save : result pyval;
  export_to_csv : string -> result unit
}.

(** [export_telemetry(format)]. *)
Definition export_telemetry (telemetry_logger : telemetry_logger_t) (format : string)
  : M pyval :=
  try_except
    (if String.eqb format "json" then
       lift (save telemetry_logger)
     else if String.eqb format "csv" then
       let csv_path := "telemetry_export_" +:+ session_id telemetry_logger +:+ ".csv" in
       lift (export_to_csv telemetry_logger csv_path) ;;;
       ret (VDict [("message", VStr ("Telemetry exported to " +:+ csv_path))])
     else raise (HTTPException 400 "Unsupported format"))
    any_exception
    (fun e => raise (HTTPException 500 ("Export failed: " +:+ exn_str e))).

End FusionApi.

(** ** fusion_api.py: [run_agent] with its calls into [fusion_core] *)

(** [FusionApi.run_agent] takes the calls into [AgentMemory] and the
    telemetry logger to return. Here they are given by their outcomes, so
    that what [run_agent] does when one of them raises can be read off. *)
Module RunEndpoint.

Section WithEnvironment.

Variable float_repr : spec_float -> string.
Variable format_2f : pyval -> result string.
Variable http_post : string -> pyval -> FusionApi.http_outcome.
Variable agent_map : list (string * agent_handle).
Variable dispatcher : Dispatcher.t.

(** [AgentMemory(agent)] (fusion_core), by its outcome: it raises, or gives
    an object, of which [if memory:] reads the truth value. *)
Variable new_memory : string -> result bool.

(** [memory.append(input, output)] and
    [telemetry_logger.log_event(agent, input_text, output_text, fallback)],
    by their outcomes. *)
Variable memory_append : string -> string -> pyval -> result unit.
Variable log_event : string -> string -> pyval -> option string -> result unit.

(** [run_agent(req)]. [memory] is [None] unless the request asks for
    memory; the object is built before the [try] block. *)
Definition run_agent (req : FusionApi.RunRequest) : M (list (string * pyval)) :=
  if negb (PyDict.mem (FusionApi.agent req) agent_map) then
    raise (HTTPException 404 ("Agent '" +:+ FusionApi.agent req +:+ "' not found"))
  else
    memory <- (if FusionApi.use_memory req
               then lift (new_memory (FusionApi.agent req))
               else ret false) ;;
    try_except
      (rewritten <- FusionApi.rewrite_step format_2f http_post req ;;
       let final_input := fst rewritten in
       let orchestrator_result := snd rewritten in
       output <- Dispatcher.dispatch float_repr dispatcher (FusionApi.agent req)
                   final_input None ;;
       (if memory : bool then
          emit (EMemoryAppend (FusionApi.agent req) (FusionApi.input req) output) ;;;
          lift (memory_append (FusionApi.agent req) (FusionApi.input req) output)
        else ret tt) ;;;
       (if FusionApi.use_telemetry req then
          emit (ETelemetry (FusionApi.agent req) (FusionApi.input req) output None) ;;;
          lift (log_event (FusionApi.agent req) (FusionApi.input req) output None)
        else ret tt) ;;;
       let result :=
         [("agent", VStr (FusionApi.agent req));
          ("output", output);
          ("success", VBool true);
          ("memory_enabled", VBool (FusionApi.use_memory req));
          ("telemetry_enabled", VBool (FusionApi.use_telemetry req));
          ("prompt_orchestrator_used", VBool (FusionApi.use_prompt_orchestrator req))] in
       match orchestrator_result with
       | Some r =>
           if py_truthy r then
             metadata <- FusionApi.orchestrator_metadata r ;;
             ret (PyDict.set "orchestrator_metadata" metadata result)
           else ret result
       | None => ret result
       end)
      any_exception
      (fun e =>
         (if FusionApi.use_telemetry req then
            emit (ETelemetry (FusionApi.agent req) (FusionApi.input req)
                    (VStr ("Error: " +:+ exn_str e)) (Some "error_handling")) ;;;
            lift (log_event (FusionApi.agent req) (FusionApi.input req)
                    (VStr ("Error: " +:+ exn_str e)) (Some "error_handling"))
          else ret tt) ;;;
         raise (HTTPException 500 ("Agent execution failed: " +:+ exn_str e))).

End WithEnvironment.

End RunEndpoint.

(** ** core/agent_loader.py: the accessors of [AgentLoader] *)

Module AgentLoaderInfo.

(** [self.get_agent_config(agent_name)]: the manifest entry, or [None]. *)
Definition get_agent_config (self : AgentLoader.t) (agent_name : string) : pyval :=
  match AgentLoader.manifest_data_ self with
  | Some data => default VNone (PyDict.get agent_name (default [] (md_agents data)))
  | None => VNone
  end.

(** [self.get_system_capabilities()]. *)
Definition get_system_capabilities (self : AgentLoader.t) : pyval :=
  match AgentLoader.manifest_data_ self with
  | Some data => default (VDict []) (md_system_capabilities data)
  | None => VDict []
  end.

(** [x or {}]. *)
Definition or_empty_dict (x : pyval) : pyval :=
  if py_truthy x then x else VDict [].

(** [self.list_available_agents()]. *)
Definition list_available_agents (self : AgentLoader.t) : M (list (string * pyval)) :=
  FusionApi.describe_each
    (fun agent_name agent_instance =>
       let config := or_empty_dict (get_agent_config self agent_name) in
       FusionApi.agent_info config (type_name agent_instance))
    (AgentLoader.loaded_agents self) [].

End AgentLoaderInfo.

(** ** core/orchestrator.py: [rewrite] and the routing table *)

Module OrchestratorRewrite.

(** [self.agent_routing]. *)
Definition agent_routing : list (string * list string) :=
  [("design", ["vp_design"; "creative_director"; "principal_designer"]);
   ("strategy", ["strategy_pilot"; "vp_of_product"; "market_analyst"]);
   ("technical", ["design_technologist"; "component_librarian"]);
   ("content", ["content_designer"; "deck_narrator"]);
   ("evaluation", ["evaluator"; "feedback_amplifier"]);
   ("general", ["evaluator"; "vp_design"])].

Section WithRuntime.

Variable float_repr : spec_float -> string.

(** [self.prompt_master.run_async(prompt, {})], by its outcome. The call
    enters PromptMaster, whose code is not in the repository's core: what
    it prints, logs or calls is not part of the trace, which records what
    [rewrite] does itself. *)
Variable prompt_master : string -> result pyval.

(** [Orchestrator.rewrite(prompt)]. The default of the outer [get] is
    evaluated first. *)
Definition rewrite (prompt : string) : M pyval :=
  try_except
    (result <- lift (prompt_master prompt) ;;
     match result with
     | VDict _ =>
         shared_state <- lift (py_get result "shared_state" (VDict [])) ;;
         rewritten <- lift (py_get shared_state "rewritten_prompt" VNone) ;;
         if py_truthy rewritten then ret rewritten
         else
           output <- lift (py_get result "output" (VStr prompt)) ;;
           lift (py_get result "enhanced_output" output)
     | _ => ret (VStr (py_str float_repr result))
     end)
    any_exception
    (fun e =>
       emit (ELogError "Orchestrator" ("Prompt rewriting failed: " +:+ exn_str e)) ;;;
       ret (VStr prompt)).

End WithRuntime.

End OrchestratorRewrite.

(** ** prompt_orchestrator.py: the other endpoints *)

Module PromptOrchestratorMore.

Record PromptRequest := {
  pq_prompt : string;
  pq_context : option (list (string * pyval));
  pq_agent_preference : option string;
  pq_use_memory : bool;
  pq_use_fallback : bool
}.

Record PromptResponse := {
  original_prompt : string;
  rewritten_prompt : string;
  pattern_type : string;
  confidence : spec_float;
  suggested_agents : list string;
  fallback_needed : bool;
  memory_insights : list (string * pyval);
  execution_time : spec_float;
  enhanced_output : string
}.

(** What [prompt_master.run_async] returns, as far as [rewrite_prompt] reads
    it; an absent key is [None]. *)
Record rewrite_shared_state := {
  rs_rewritten_prompt : option string;
  rs_pattern_type : option string;
  rs_suggested_agents : option (list string);
  rs_fallback_needed : option bool;
  rs_memory_insights : option (list (string * pyval))
}.

Record rewrite_analysis := {
  ra_error : option string;
  ra_shared_state : option rewrite_shared_state;
  ra_confidence : option spec_float;
  ra_enhanced_output : option string
}.

Definition no_shared_state : rewrite_shared_state :=
  {| rs_rewritten_prompt := None; rs_pattern_type := None; rs_suggested_agents := None;
     rs_fallback_needed := None; rs_memory_insights := None |}.

(** What [_get_memory_insights] returns, as far as [analyze_prompt] reads
    it. *)
Record insights_t := {
  similar_prompts : list pyval;
  successful_patterns : list pyval;
  fallback_triggers : list pyval
}.

Record AnalyzeResponse := {
  az_pattern : string;
  az_confidence : spec_float;
  az_suggested_agents : list string;
  az_similar_prompts_count : Z;
  az_successful_patterns_count : Z;
  az_fallback_triggers_count : Z;
  az_fallback_needed : bool
}.

(** [a < b] on floats. *)
Definition float_lt (a b : spec_float) : bool := SFltb a b.

Section WithRuntime.

(** [prompt_master.run_async(req.prompt, req.context)], by its outcome. *)
Variable prompt_master :
  string -> option (list (string * pyval)) -> result rewrite_analysis.

(** [time.time() - start_time]. *)
Variable elapsed : spec_float.

(** [rewrite_prompt(req)], the [/rewrite] endpoint. *)
Definition rewrite_prompt (req : PromptRequest) : M PromptResponse :=
  try_except
    (result <- lift (prompt_master (pq_prompt req) (pq_context req)) ;;
     match ra_error result with
     | Some detail => raise (HTTPException 500 detail)
     | None => ret tt
     end ;;;
     let shared_state := default no_shared_state (ra_shared_state result) in
     ret {| original_prompt := pq_prompt req;
            rewritten_prompt := default (pq_prompt req) (rs_rewritten_prompt shared_state);
            pattern_type := default "general" (rs_pattern_type shared_state);
            confidence := default PromptOrchestrator.float_0_0 (ra_confidence result);
            suggested_agents := default [] (rs_suggested_agents shared_state);
            fallback_needed := default false (rs_fallback_needed shared_state);
            memory_insights := default [] (rs_memory_insights shared_state);
            execution_time := elapsed;
            enhanced_output := default "" (ra_enhanced_output result) |})
    any_exception
    (fun e => raise (HTTPException 500 ("Prompt rewriting failed: " +:+ exn_str e))).

(** [prompt_master._analyze_prompt_pattern(prompt)] and
    [prompt_master._get_memory_insights(prompt)], by their outcomes. *)
Variable analyze_pattern : string -> result (string * spec_float * list string).
Variable get_memory_insights : string -> result insights_t.

(** [analyze_prompt(req)], the [/analyze] endpoint. *)
Definition analyze_prompt (req : PromptRequest) : M AnalyzeResponse :=
  try_except
    (analysed <- lift (analyze_pattern (pq_prompt req)) ;;
     let pattern := fst (fst analysed) in
     let confidence := snd (fst analysed) in
     let suggested_agents := snd analysed in
     insights <- lift (get_memory_insights (pq_prompt req)) ;;
     ret {| az_pattern := pattern;
            az_confidence := confidence;
            az_suggested_agents := suggested_agents;
            az_similar_prompts_count := Z.of_nat (length (similar_prompts insights));
            az_successful_patterns_count := Z.of_nat (length (successful_patterns insights));
            az_fallback_triggers_count := Z.of_nat (length (fallback_triggers insights));
            az_fallback_needed := float_lt confidence PromptOrchestrator.float_0_7 |})
    any_exception
    (fun e => raise (HTTPException 500 ("Prompt analysis failed: " +:+ exn_str e))).

End WithRuntime.

(** [len(v)]; the length of a [str] is counted in bytes, which is its
    length on ASCII text. *)
Definition py_len (v : pyval) : result Z :=
  match v with
  | VStr s => Return (Z.of_nat (String.length s))
  | VList items => Return (Z.of_nat (length items))
  | VDict entries => Return (Z.of_nat (length entries))
  | _ =>
      Raise (Exn TypeError
               ("object of type " +:+ PyStr.repr (py_type_name v) +:+ " has no len()"))
  end.

(** The pattern file as [update_patterns] leaves it. *)
Inductive pattern_file :=
  | Untouched
  | Written (payload : list (string * pyval)).

(** [update_patterns(patterns)], the [/patterns/update] endpoint, with the
    pattern file it leaves behind. [open_fails] is the exception [open]
    raises on the pattern file, if any; the body comes from JSON, so
    [json.dump] writes it. *)
Definition update_patterns (open_fails : option py_exn) (patterns : list (string * pyval))
  : pattern_file * result (list (string * pyval)) :=
  let wrap (e : py_exn) : result (list (string * pyval)) :=
    Raise (HTTPException 500 ("Pattern update failed: " +:+ exn_str e)) in
  if negb (PyDict.mem "patterns" patterns) then
    (Untouched, wrap (HTTPException 400 "Invalid pattern structure"))
  else
    match open_fails with
    | Some e => (Untouched, wrap e)
    | None =>
        match py_len (default (VDict []) (PyDict.get "patterns" patterns)) with
        | Return count =>
            (Written patterns,
             Return [("message", VStr "Patterns updated successfully");
                     ("patterns_count", VInt count)])
        | Raise e => (Written patterns, wrap e)
        end
    end.

End PromptOrchestratorMore.

(** ** minimal_api.py *)

Module MinimalApi.

Section WithRuntime.

(** [str.lower] of the runtime. *)
Variable str_lower : string -> string.

(** [FusionHandler.select_best_agent(user_input)]. *)
Definition select_best_agent (user_input : string) : string :=
  let input_lower := str_lower user_input in
  if Orchestrator.any_in ["design"; "ui"; "ux"; "interface"; "mobile app"; "website";
                          "prototype"; "wireframe"; "visual"] input_lower then
    "creative_director"
  else if Orchestrator.any_in ["strategy"; "plan"; "roadmap"; "goal"; "objective";
                               "vision"; "direction"] input_lower then
    "strategy_pilot"
  else if Orchestrator.any_in ["content"; "copy"; "writing"; "text"; "message";
                               "communication"; "narrative"] input_lower then
    "content_designer"
  else if Orchestrator.any_in ["product"; "feature"; "requirement"; "business";
                               "user story"; "backlog"] input_lower then
    "product_navigator"
  else if Orchestrator.any_in ["code"; "technical"; "development"; "api"; "database";
                               "architecture"] input_lower then
    "design_technologist"
  else if Orchestrator.any_in ["research"; "analyze"; "data"; "insights"; "trends";
                               "market"] input_lower then
    "market_analyst"
  else if Orchestrator.any_in ["evaluate"; "review"; "feedback"; "critique"; "assess";
                               "quality"] input_lower then
    "evaluator"
  else
    "evaluator".

End WithRuntime.

End MinimalApi.

(** ** Reading aids for the further properties *)

(** Every character of [s] satisfies [p]. *)
Fixpoint all_chars (p : ascii -> bool) (s : string) : bool :=
  match s with
  | EmptyString => true
  | String c rest => p c && all_chars p rest
  end.

Definition is_letter (c : ascii) : bool := PyStr.is_upper c || PyStr.is_lower c.

(** A name made of ASCII letters and underscores, as snake case is. *)
Definition snake_name (name : string) : bool :=
  all_chars (fun c => is_letter c || Ascii.eqb c "_") name.


(** The dict [agent_info] builds from the entries of a manifest entry. *)
Definition described (entries : list (string * pyval)) (type_name : string) : pyval :=
  VDict [("role", default (VStr "Unknown") (PyDict.get "role" entries));
         ("capabilities", default (VList []) (PyDict.get "capabilities" entries));
         ("confidence_threshold",
          default (VFloat FusionApi.float_0_8) (PyDict.get "confidence_threshold" entries));
         ("memory_enabled", default (VBool true) (PyDict.get "memory_enabled" entries));
         ("telemetry_enabled", default (VBool true) (PyDict.get "telemetry_enabled" entries));
         ("type", VStr type_name);
         ("available", VBool true)].

(** The entries of a value that is a dict. *)
Definition dict_entries (v : pyval) : option (list (string * pyval)) :=
  match v with VDict entries => Some entries | _ => None end.

Definition is_string (v : pyval) : bool :=
  match v with VStr _ => true | _ => false end.

(** The field of a mapping that [dispatch] hands back for [run_async] and
    [run]: [output], else [enhanced_output]. *)
Definition selected_field (entries : list (string * pyval)) : option pyval :=
  match PyDict.get "output" entries with
  | Some v => Some v
  | None => PyDict.get "enhanced_output" entries
  end.

(** The key of [agent_routing] that goes with a category of
    [select_agent]. *)
Definition routing_pattern (c : Orchestrator.category) : string :=
  match c with
  | Orchestrator.Design => "design"
  | Orchestrator.Strategy => "strategy"
  | Orchestrator.Technical => "technical"
  | Orchestrator.Content => "content"
  | Orchestrator.Evaluation => "evaluation"
  end.

(** Lines written by [print]. *)
Definition is_print (ev : event) : bool :=
  match ev with EPrint _ => true | _ => false end.


(** The telemetry event [run_agent] logs for an exception, when the request
    asks for telemetry. *)
Definition error_recorded (req : FusionApi.RunRequest) (e : py_exn) : list event :=
  if FusionApi.use_telemetry req
  then [ETelemetry (FusionApi.agent req) (FusionApi.input req)
          (VStr ("Error: " +:+ exn_str e)) (Some "error_handling")]
  else [].

(** * Properties *)

(** ** The monad *)

Lemma bind_ret_l {A B} (a : A) (k : A -> M B) : bind (ret a) k = k a.
Proof. unfold bind, ret. destruct (k a) as [t r]. reflexivity. Qed.

Lemma bind_raise {A B} (e : py_exn) (k : A -> M B) : bind (raise e) k = raise e.
Proof. reflexivity. Qed.

Lemma bind_pure {A B} (t : list event) (a : A) (k : A -> M B) :
  bind (t, Return a) k = (t ++ trace_of (k a), result_of (k a)).
Proof. unfold bind, trace_of, result_of. destruct (k a). reflexivity. Qed.

Lemma try_except_return {A} (t : list event) (a : A) filter handler :
  try_except (t, Return a) filter handler = (t, Return a).
Proof. reflexivity. Qed.

(** [except Exception] leaves no exception of the body uncaught: what the
    whole statement raises is raised by the handler. *)
Lemma try_except_any_total {A} (m : M A) (handler : py_exn -> M A) :
  (forall e, exists t a, handler e = (t, Return a)) ->
  exists t a, try_except m any_exception handler = (t, Return a).
Proof.
  intros Hh. destruct m as [t [a | e]]; simpl.
  - eauto.
  - destruct (Hh e) as (t' & a & ->). eauto.
Qed.

(** ** Strings *)

Module PyStrFacts.

Lemma prefix_append (s t : string) : String.prefix s (s +:+ t) = true.
Proof.
  induction s as [| c s IH]; simpl; [now destruct t |].
  destruct (ascii_dec c c); [exact IH | congruence].
Qed.

Lemma contains_prefix (s hay : string) :
  String.prefix s hay = true -> PyStr.contains s hay = true.
Proof.
  intros H. destruct hay; unfold PyStr.contains; fold PyStr.contains; now rewrite H.
Qed.

(** [s in p + s + t]. *)
Lemma contains_infix (p s t : string) : PyStr.contains s (p +:+ (s +:+ t)) = true.
Proof.
  induction p as [| c p IH].
  - change ("" +:+ (s +:+ t)) with (s +:+ t).
    apply contains_prefix, prefix_append.
  - change (String.prefix s (String c (p +:+ (s +:+ t)))
            || PyStr.contains s (p +:+ (s +:+ t)) = true).
    rewrite IH. apply orb_true_r.
Qed.

End PyStrFacts.

(** ** Dictionaries *)

Module PyDictFacts.

Section Facts.
Context {V : Type}.
Implicit Types (d other : list (string * V)) (k : string) (v : V).


Lemma get_None_keys k d : PyDict.get k d = None <-> ~ In k (PyDict.keys d).
Proof.
  induction d as [| [k' v'] d IH]; simpl.
  - tauto.
  - destruct (String.eqb_spec k' k) as [-> | Hne].
    + split; [discriminate | intros H; exfalso; apply H; now left].
    + rewrite IH. split.
      * intros H [Heq | Hin]; [congruence | tauto].
      * intros H Hin. apply H. now right.
Qed.

Lemma get_set_eq k v d : PyDict.get k (PyDict.set k v d) = Some v.
Proof.
  induction d as [| [k' v'] d IH]; simpl.
  - now rewrite String.eqb_refl.
  - destruct (String.eqb_spec k' k) as [-> | Hne]; simpl.
    + now rewrite String.eqb_refl.
    + destruct (String.eqb_spec k' k); [congruence | exact IH].
Qed.

Lemma get_set_ne k k' v d :
  k <> k' -> PyDict.get k' (PyDict.set k v d) = PyDict.get k' d.
Proof.
  intros Hne. induction d as [| [k0 v0] d IH]; simpl.
  - destruct (String.eqb_spec k k'); [congruence | reflexivity].
  - destruct (String.eqb_spec k0 k) as [-> | Hk]; simpl.
    + destruct (String.eqb_spec k k'); [congruence | reflexivity].
    + destruct (String.eqb_spec k0 k'); [reflexivity | exact IH].
Qed.

(** A new key goes last. *)
Lemma set_fresh k v d : PyDict.get k d = None -> PyDict.set k v d = d ++ [(k, v)].
Proof.
  induction d as [| [k' v'] d IH]; simpl; [reflexivity |].
  destruct (String.eqb_spec k' k); [discriminate |].
  intros H. now rewrite IH.
Qed.

Lemma get_update_absent k d other :
  PyDict.get k other = None -> PyDict.get k (PyDict.update d other) = PyDict.get k d.
Proof.
  revert d. induction other as [| [k0 v0] other IH]; intros d; simpl; [reflexivity |].
  destruct (String.eqb_spec k0 k) as [-> | Hne]; [discriminate |].
  intros H. unfold PyDict.update in *. simpl. rewrite IH by exact H.
  now apply get_set_ne.
Qed.

(** [d.update(other)]: a key of [other] is bound to [other]'s value,
    whatever [d] bound it to. *)
Lemma get_update_present k v d other :
  PyDict.wf other -> PyDict.get k other = Some v ->
  PyDict.get k (PyDict.update d other) = Some v.
Proof.
  revert d. induction other as [| [k0 v0] other IH]; intros d Hwf; simpl; [discriminate |].
  unfold PyDict.wf in Hwf. simpl in Hwf. apply List.NoDup_cons_iff in Hwf as [Hnotin Hwf].
  unfold PyDict.update. simpl.
  destruct (String.eqb_spec k0 k) as [-> | Hne].
  - intros [= ->].
    change (PyDict.get k (PyDict.update (PyDict.set k v d) other) = Some v).
    rewrite get_update_absent by now apply get_None_keys.
    apply get_set_eq.
  - intros H. now apply IH.
Qed.

End Facts.

End PyDictFacts.

(** ** The local heuristic *)

Module OrchestratorFacts.
Import Orchestrator.

Lemma priority_order_ranked : List.map rank priority_order = [0; 1; 2; 3; 4]%nat.
Proof. reflexivity. Qed.

Lemma select_agent_refines str_lower prompt :
  select_agent str_lower prompt = spec_select_agent str_lower prompt.
Proof.
  unfold select_agent, spec_select_agent, priority_order, matches. simpl.
  repeat match goal with
         | |- context [if ?b then _ else _] => destruct b; try reflexivity
         end.
Qed.

Lemma select_agent_first_match str_lower prompt c :
  matches (str_lower prompt) c = true ->
  (forall c', (rank c' < rank c)%nat -> matches (str_lower prompt) c' = false) ->
  select_agent str_lower prompt = default_agent_of c.
Proof.
  intros Hc Hbefore.
  pose proof (Hbefore Design) as HD. pose proof (Hbefore Strategy) as HS.
  pose proof (Hbefore Technical) as HT. pose proof (Hbefore Content) as HC.
  clear Hbefore. unfold select_agent, matches in *.
  destruct c; cbn [marker_words rank default_agent_of] in *;
    try rewrite HD by lia; try rewrite HS by lia;
    try rewrite HT by lia; try rewrite HC by lia;
    rewrite Hc; reflexivity.
Qed.

Lemma select_agent_no_match str_lower prompt :
  (forall c, matches (str_lower prompt) c = false) ->
  select_agent str_lower prompt = fallback_agent.
Proof.
  intros Hnone. unfold select_agent.
  pose proof (Hnone Design) as H1. pose proof (Hnone Strategy) as H2.
  pose proof (Hnone Technical) as H3. pose proof (Hnone Content) as H4.
  pose proof (Hnone Evaluation) as H5.
  unfold matches in *. cbn [marker_words] in *.
  now rewrite H1, H2, H3, H4, H5.
Qed.

End OrchestratorFacts.

(** C8. For every input string, [select_agent] lower-cases it and tests
    the marker words of the topic categories in the fixed priority order
    design/UI, strategy/planning, technical/implementation, content/writing,
    evaluation/review: it agrees with the specification's reading
    [spec_select_agent]; the first category that matches wins and gives its
    one default agent; an input that matches no category gets the fixed
    default agent "evaluator". The input "Design a mobile app for Bitcoin
    trading" selects "vp_design". The first three parts hold for whatever
    lower-casing the runtime does; the last is computed with the ASCII
    one, on an ASCII input. *)
Theorem C8_select_agent_priority :
  (forall (str_lower : string -> string) (prompt : string),
     Orchestrator.select_agent str_lower prompt
     = Orchestrator.spec_select_agent str_lower prompt)
  /\ List.map Orchestrator.rank Orchestrator.priority_order = [0; 1; 2; 3; 4]%nat
  /\ (forall (str_lower : string -> string) (prompt : string) (c : Orchestrator.category),
        Orchestrator.matches (str_lower prompt) c = true ->
        (forall c', (Orchestrator.rank c' < Orchestrator.rank c)%nat ->
                    Orchestrator.matches (str_lower prompt) c' = false) ->
        Orchestrator.select_agent str_lower prompt = Orchestrator.default_agent_of c)
  /\ (forall (str_lower : string -> string) (prompt : string),
        (forall c, Orchestrator.matches (str_lower prompt) c = false) ->
        Orchestrator.select_agent str_lower prompt = "evaluator")
  /\ Orchestrator.matches (PyStr.lower "Design a mobile app for Bitcoin trading")
       Orchestrator.Design = true
  /\ Orchestrator.select_agent PyStr.lower "Design a mobile app for Bitcoin trading"
     = "vp_design".
Proof.
  split; [exact OrchestratorFacts.select_agent_refines |].
  split; [exact OrchestratorFacts.priority_order_ranked |].
  split; [exact OrchestratorFacts.select_agent_first_match |].
  split; [exact OrchestratorFacts.select_agent_no_match |].
  split; reflexivity.
Qed.

(** C8 on an input with marker words of two categories: "plan" (strategy)
    and "review" (evaluation); the category earlier in the order wins. *)
Lemma C8_select_agent_priority_witness :
  Orchestrator.matches (PyStr.lower "Please REVIEW my plan") Orchestrator.Evaluation = true
  /\ Orchestrator.select_agent PyStr.lower "Please REVIEW my plan" = "strategy_pilot".
Proof.
  split; [reflexivity |].
  destruct C8_select_agent_priority as (_ & _ & Hfirst & _).
  apply (Hfirst PyStr.lower "Please REVIEW my plan" Orchestrator.Strategy).
  - reflexivity.
  - intros c' Hlt. destruct c'; cbn in Hlt; first [reflexivity | lia].
Defined.

(** ** Comparison of floats *)

Module FloatFacts.
Import PromptOrchestrator.

Lemma SFcompare_swap (a b : spec_float) :
  SFcompare b a = option_map CompOpp (SFcompare a b).
Proof.
  destruct a as [sa | sa | | sa ma ea], b as [sb | sb | | sb mb eb]; simpl;
    try reflexivity;
    try (destruct sa; reflexivity); try (destruct sb; reflexivity);
    try (destruct sa, sb; reflexivity).
  destruct sa, sb; simpl; try reflexivity.
  - rewrite (Z.compare_antisym ea eb). destruct (ea ?= eb); simpl; try reflexivity.
    now rewrite (Pos.compare_cont_antisym ma mb Eq).
  - rewrite (Z.compare_antisym ea eb). destruct (ea ?= eb); simpl; try reflexivity.
    now rewrite (Pos.compare_cont_antisym ma mb Eq).
Qed.

Lemma SFcompare_refl (c : spec_float) : c <> S754_nan -> SFcompare c c = Some Eq.
Proof.
  destruct c as [s | s | | s m e]; simpl; intros Hnan; try congruence.
  - now destruct s.
  - rewrite Z.compare_refl, Pos.compare_cont_refl. now destruct s.
Qed.

(** A confidence equal to the threshold meets it. *)
Lemma float_ge_refl (c : spec_float) : c <> S754_nan -> float_ge c c = true.
Proof.
  intros Hnan. unfold float_ge, SFleb. now rewrite SFcompare_refl.
Qed.

(** A confidence below the threshold does not. *)
Lemma float_lt_not_ge (c threshold : spec_float) :
  SFltb c threshold = true -> float_ge c threshold = false.
Proof.
  unfold float_ge, SFleb, SFltb. rewrite (SFcompare_swap c threshold).
  destruct (SFcompare c threshold) as [[ | | ] |]; simpl; congruence.
Qed.

Lemma float_0_7_is_default prompt :
  confidence_threshold (default_request prompt) = float_0_7.
Proof. reflexivity. Qed.

End FloatFacts.

(** ** The [/route] endpoint *)

Module RouteFacts.
Import PromptOrchestrator.

Section WithRuntime.
Variable format_2f : spec_float -> string.
Variable prompt_master : string -> result analysis.

(** With a confident, non-empty suggestion the first suggested agent is
    recommended and the slice [1:3] gives the alternatives. *)
Lemma route_agent_confident req result first rest :
  prompt_master (prompt req) = Return result ->
  an_error result = None ->
  suggested_agents_of result = first :: rest ->
  float_ge (confidence_of result) (confidence_threshold req) = true ->
  exists reasoning,
    route_agent format_2f prompt_master req
    = ([], Return {| recommended_agent := first;
                     confidence := confidence_of result;
                     alternatives := firstn 2 rest;
                     reasoning := reasoning |}).
Proof.
  intros Hrun Herr Hsug Hge. unfold route_agent, lift.
  rewrite Hrun. cbn [bind]. rewrite Herr, Hsug, Hge. cbn.
  eexists. reflexivity.
Qed.

(** Otherwise the table of pattern defaults decides, with the fixed pair. *)
Lemma route_agent_default req result :
  prompt_master (prompt req) = Return result ->
  an_error result = None ->
  suggested_agents_of result = []
  \/ float_ge (confidence_of result) (confidence_threshold req) = false ->
  exists reasoning,
    route_agent format_2f prompt_master req
    = ([], Return {| recommended_agent :=
                       default "evaluator"
                         (PyDict.get (pattern_type_of result) pattern_defaults);
                     confidence := confidence_of result;
                     alternatives := ["vp_design"; "creative_director"];
                     reasoning := reasoning |}).
Proof.
  intros Hrun Herr Hcase. unfold route_agent, lift.
  rewrite Hrun. cbn [bind]. rewrite Herr.
  destruct Hcase as [Hnil | Hlow].
  - rewrite Hnil. cbn. eexists. reflexivity.
  - rewrite Hlow, andb_false_r. cbn. eexists. reflexivity.
Qed.

End WithRuntime.

End RouteFacts.

(** C1. For every routing request (a prompt and a confidence threshold,
    0.7 unless the caller gives one) whose analysis succeeds: if the list of
    suggested agents is non-empty and the confidence is greater than or
    equal to the threshold, the recommended agent is the first suggested
    agent and the alternatives are the next two entries (the slice [1:3]);
    otherwise the recommended agent comes from the fixed table of pattern
    defaults and the alternatives are the fixed pair. A confidence equal to
    the threshold meets it, one below it does not. *)
Theorem C1_route_threshold_gate
  (format_2f : spec_float -> string)
  (prompt_master : string -> result PromptOrchestrator.analysis)
  (req : PromptOrchestrator.AgentRouteRequest)
  (result : PromptOrchestrator.analysis) :
  prompt_master (PromptOrchestrator.prompt req) = Return result ->
  PromptOrchestrator.an_error result = None ->
  exists response,
    PromptOrchestrator.route_agent format_2f prompt_master req = ([], Return response)
    /\ (forall first rest,
          PromptOrchestrator.suggested_agents_of result = first :: rest ->
          PromptOrchestrator.float_ge (PromptOrchestrator.confidence_of result)
            (PromptOrchestrator.confidence_threshold req) = true ->
          PromptOrchestrator.recommended_agent response = first
          /\ PromptOrchestrator.alternatives response = firstn 2 rest)
    /\ (PromptOrchestrator.suggested_agents_of result = []
        \/ PromptOrchestrator.float_ge (PromptOrchestrator.confidence_of result)
             (PromptOrchestrator.confidence_threshold req) = false ->
        PromptOrchestrator.recommended_agent response
        = default "evaluator"
            (PyDict.get (PromptOrchestrator.pattern_type_of result)
               PromptOrchestrator.pattern_defaults)
        /\ PromptOrchestrator.alternatives response = ["vp_design"; "creative_director"])
    /\ (forall c, c <> S754_nan -> PromptOrchestrator.float_ge c c = true)
    /\ (forall c threshold,
          SFltb c threshold = true -> PromptOrchestrator.float_ge c threshold = false)
    /\ (forall prompt,
          PromptOrchestrator.confidence_threshold (PromptOrchestrator.default_request prompt)
          = PromptOrchestrator.float_0_7).
Proof.
  intros Hrun Herr.
  destruct (PromptOrchestrator.suggested_agents_of result) as [| first rest] eqn:Hsug.
  - destruct (RouteFacts.route_agent_default format_2f prompt_master req result Hrun Herr)
      as [reasoning Hroute]; [now left |].
    eexists. split; [exact Hroute |]. simpl.
    repeat split; try discriminate; auto using FloatFacts.float_ge_refl,
      FloatFacts.float_lt_not_ge.
  - destruct (PromptOrchestrator.float_ge (PromptOrchestrator.confidence_of result)
                (PromptOrchestrator.confidence_threshold req)) eqn:Hge.
    + destruct (RouteFacts.route_agent_confident format_2f prompt_master req result
                  first rest Hrun Herr Hsug Hge) as [reasoning Hroute].
      eexists. split; [exact Hroute |]. simpl.
      split; [intros f r [= <- <-] _; now split |].
      split; [intros [Hnil | Hlow]; discriminate |].
      auto using FloatFacts.float_ge_refl, FloatFacts.float_lt_not_ge.
    + destruct (RouteFacts.route_agent_default format_2f prompt_master req result Hrun Herr)
        as [reasoning Hroute]; [now right |].
      eexists. split; [exact Hroute |]. simpl.
      split; [intros f r _ Hhigh; discriminate |].
      split; [intros _; now split |].
      auto using FloatFacts.float_ge_refl, FloatFacts.float_lt_not_ge.
Qed.

(** C1 at the boundary: the confidence equals the default threshold 0.7 and
    four agents are suggested. *)
Lemma C1_route_threshold_gate_witness :
  exists response,
    PromptOrchestrator.route_agent (fun _ => "0.70")
      (fun _ =>
         Return {| PromptOrchestrator.an_error := None;
                   PromptOrchestrator.an_shared_state :=
                     Some {| PromptOrchestrator.ss_suggested_agents :=
                               Some ["strategy_pilot"; "vp_of_product";
                                     "market_analyst"; "evaluator"];
                             PromptOrchestrator.ss_pattern_type := Some "strategy_focused" |};
                   PromptOrchestrator.an_confidence := Some PromptOrchestrator.float_0_7 |})
      (PromptOrchestrator.default_request "Plan the roadmap")
    = ([], Return response)
    /\ PromptOrchestrator.recommended_agent response = "strategy_pilot"
    /\ PromptOrchestrator.alternatives response = ["vp_of_product"; "market_analyst"].
Proof.
  destruct (C1_route_threshold_gate (fun _ => "0.70")
              (fun _ =>
                 Return {| PromptOrchestrator.an_error := None;
                           PromptOrchestrator.an_shared_state :=
                             Some {| PromptOrchestrator.ss_suggested_agents :=
                                       Some ["strategy_pilot"; "vp_of_product";
                                             "market_analyst"; "evaluator"];
                                     PromptOrchestrator.ss_pattern_type :=
                                       Some "strategy_focused" |};
                           PromptOrchestrator.an_confidence :=
                             Some PromptOrchestrator.float_0_7 |})
              (PromptOrchestrator.default_request "Plan the roadmap")
              _ eq_refl eq_refl) as (response & Hrun & Hhigh & _).
  exists response. split; [exact Hrun |].
  apply (Hhigh "strategy_pilot" ["vp_of_product"; "market_analyst"; "evaluator"]);
    reflexivity.
Defined.

(** ** Degradation of the delegated strategy *)

Module DegradeFacts.
Import FusionApi.

Section WithEnvironment.
Variable http_post : string -> pyval -> http_outcome.

Lemma call_prompt_orchestrator_degrades prompt context :
  service_failed (http_post (PROMPT_ORCHESTRATOR_URL +:+ "/rewrite")
                    (rewrite_request prompt context)) = true ->
  exists t, call_prompt_orchestrator http_post prompt context
            = (t, Return (rewrite_fallback prompt)).
Proof.
  unfold call_prompt_orchestrator, post.
  destruct (http_post _ _) as [e | status_code json]; cbn.
  - eauto.
  - destruct (status_code =? 200); [discriminate |]. cbn. eauto.
Qed.

Lemma get_agent_recommendation_degrades prompt :
  service_failed (http_post (PROMPT_ORCHESTRATOR_URL +:+ "/route")
                    (route_request prompt)) = true ->
  exists t, get_agent_recommendation http_post prompt = (t, Return route_fallback).
Proof.
  unfold get_agent_recommendation, post.
  destruct (http_post _ _) as [e | status_code json]; cbn.
  - eauto.
  - destruct (status_code =? 200); [discriminate |]. cbn. eauto.
Qed.

(** Whatever the service does, neither call raises. *)
Lemma call_prompt_orchestrator_returns prompt context :
  exists t v, call_prompt_orchestrator http_post prompt context = (t, Return v).
Proof.
  unfold call_prompt_orchestrator. apply try_except_any_total.
  intros e. cbn. eauto.
Qed.

Lemma get_agent_recommendation_returns prompt :
  exists t v, get_agent_recommendation http_post prompt = (t, Return v).
Proof.
  unfold get_agent_recommendation. apply try_except_any_total.
  intros e. cbn. eauto.
Qed.

(** In [run_agent] the prompt that goes on to the dispatcher is then the
    original input. *)
Lemma rewrite_step_identity (format_2f : pyval -> result string) req :
  service_failed (http_post (PROMPT_ORCHESTRATOR_URL +:+ "/rewrite")
                    (rewrite_request (input req) None)) = true ->
  exists t orchestrator_result,
    rewrite_step format_2f http_post req = (t, Return (VStr (input req), orchestrator_result)).
Proof.
  intros Hfail. unfold rewrite_step.
  destruct (use_prompt_orchestrator req); [| cbn; eauto].
  destruct (call_prompt_orchestrator_degrades (input req) None Hfail) as [t ->].
  cbn. destruct (String.eqb_spec (input req) "") as [-> | Hne]; cbn.
  - eauto.
  - destruct (format_2f (VFloat float_0_5)); cbn; eauto.
Qed.

End WithEnvironment.

End DegradeFacts.

(** C2. For every input prompt: if the call to the Rewrite/Route Service
    times out, raises, or returns a response whose status is not 200, the
    rewrite call returns the identity rewrite (the rewritten prompt is the
    original input) with the fixed confidence 0.5, the prompt [run_agent]
    passes on is the original input, and the route call returns a decision
    with the confidence 0.5; and whatever the service does, neither call
    raises to its caller: each returns a value. *)
Theorem C2_service_failure_degrades
  (http_post : string -> pyval -> FusionApi.http_outcome)
  (format_2f : pyval -> result string)
  (prompt : string) (context : option (list (string * pyval))) :
  (FusionApi.service_failed
     (http_post (FusionApi.PROMPT_ORCHESTRATOR_URL +:+ "/rewrite")
        (FusionApi.rewrite_request prompt context)) = true ->
   exists t decision,
     FusionApi.call_prompt_orchestrator http_post prompt context = (t, Return decision)
     /\ py_get decision "rewritten_prompt" VNone = Return (VStr prompt)
     /\ py_get decision "confidence" VNone = Return (VFloat FusionApi.float_0_5))
  /\ (forall req,
        FusionApi.input req = prompt ->
        FusionApi.service_failed
          (http_post (FusionApi.PROMPT_ORCHESTRATOR_URL +:+ "/rewrite")
             (FusionApi.rewrite_request prompt None)) = true ->
        exists t orchestrator_result,
          FusionApi.rewrite_step format_2f http_post req
          = (t, Return (VStr prompt, orchestrator_result)))
  /\ (FusionApi.service_failed
        (http_post (FusionApi.PROMPT_ORCHESTRATOR_URL +:+ "/route")
           (FusionApi.route_request prompt)) = true ->
      exists t decision,
        FusionApi.get_agent_recommendation http_post prompt = (t, Return decision)
        /\ py_get decision "recommended_agent" VNone = Return (VStr "evaluator")
        /\ py_get decision "confidence" VNone = Return (VFloat FusionApi.float_0_5))
  /\ (exists t v, FusionApi.call_prompt_orchestrator http_post prompt context
                  = (t, Return v))
  /\ (exists t v, FusionApi.get_agent_recommendation http_post prompt = (t, Return v)).
Proof.
  split.
  { intros Hfail.
    destruct (DegradeFacts.call_prompt_orchestrator_degrades http_post prompt context Hfail)
      as [t Hrun].
    exists t, (FusionApi.rewrite_fallback prompt). now rewrite Hrun. }
  split.
  { intros req <- Hfail. now apply DegradeFacts.rewrite_step_identity. }
  split.
  { intros Hfail.
    destruct (DegradeFacts.get_agent_recommendation_degrades http_post prompt Hfail)
      as [t Hrun].
    exists t, FusionApi.route_fallback. now rewrite Hrun. }
  split.
  - apply DegradeFacts.call_prompt_orchestrator_returns.
  - apply DegradeFacts.get_agent_recommendation_returns.
Qed.

(** C2 when the service times out on a design prompt. *)
Lemma C2_service_failure_degrades_witness :
  exists t decision,
    FusionApi.call_prompt_orchestrator
      (fun _ _ => FusionApi.HttpRaises (Exn TimeoutException "timed out"))
      "Design a mobile app for Bitcoin trading" None
    = (t, Return decision)
    /\ py_get decision "rewritten_prompt" VNone
       = Return (VStr "Design a mobile app for Bitcoin trading")
    /\ py_get decision "confidence" VNone = Return (VFloat FusionApi.float_0_5).
Proof.
  apply (C2_service_failure_degrades
           (fun _ _ => FusionApi.HttpRaises (Exn TimeoutException "timed out"))
           (fun _ => Return "0.50")
           "Design a mobile app for Bitcoin trading" None).
  reflexivity.
Defined.

(** ** The dispatcher *)

Module DispatcherFacts.
Import Dispatcher.

Section WithRuntime.
Variable float_repr : spec_float -> string.

Lemma dispatch_unknown (self : t) agent_name input_text context :
  PyDict.get agent_name (agents self) = None ->
  dispatch float_repr self agent_name input_text context
  = ([], Raise (Exn ValueError
                  ("Agent '" +:+ agent_name +:+ "' not found. Available: "
                   +:+ repr_str_list float_repr (PyDict.keys (agents self))))).
Proof. intros Hnone. unfold dispatch. now rewrite Hnone. Qed.

(** What [dispatch] does on a registered handle, by the entry point in use
    and the handler's outcome. *)
Lemma dispatch_registered (self : t) agent_name agent input_text context :
  PyDict.get agent_name (agents self) = Some agent ->
  dispatch float_repr self agent_name input_text context
  = match handler_outcome agent input_text context with
    | Some (cap, Return result) =>
        ([EInvoke agent_name cap input_text],
         Return (match cap with
                 | CapCall => VStr (py_str float_repr result)
                 | _ => normalize float_repr result
                 end))
    | Some (cap, Raise e) =>
        ([EInvoke agent_name cap input_text;
          ELogError "Dispatcher" (error_line agent_name e)],
         Raise e)
    | None =>
        let e := Exn TypeError
                   (PyStr.repr (type_name agent) +:+ " object is not callable") in
        ([ELogError "Dispatcher" (error_line agent_name e)], Raise e)
    end.
Proof.
  intros Hreg. unfold dispatch, invoke, handler_outcome. rewrite Hreg.
  destruct (run_async agent) as [m |].
  { destruct (m input_text (context_or_empty context)); reflexivity. }
  destruct (run agent) as [m |].
  { destruct (m input_text (context_or_empty context)); reflexivity. }
  destruct (call agent) as [m |].
  { destruct (m input_text); reflexivity. }
  reflexivity.
Qed.

End WithRuntime.

End DispatcherFacts.

(** C3. For every agent name that is not in the registry's name-to-handle
    map: [dispatch] on that name raises the unknown-agent error (a
    [ValueError] naming the agent), and [run_parallel_agents] on a list that
    contains the name raises the unknown-agent error (an [HTTPException]
    with status 404); in both cases the trace is empty, so no handler code
    was entered, for no agent of the request, and the fan-out coordinator
    was not called. *)
Theorem C3_unknown_agent_fails_fast
  (float_repr : spec_float -> string)
  (run_parallel : string -> list string -> result pyval)
  (registry : list (string * agent_handle)) (name : string) :
  PyDict.mem name registry = false ->
  (forall input_text context,
     Dispatcher.dispatch float_repr {| Dispatcher.agents := registry |}
       name input_text context
     = ([], Raise (Exn ValueError
                     ("Agent '" +:+ name +:+ "' not found. Available: "
                      +:+ repr_str_list float_repr (PyDict.keys registry)))))
  /\ (forall req,
        In name (FusionApi.pr_agents req) ->
        FusionApi.run_parallel_agents float_repr run_parallel registry req
        = ([], Raise (HTTPException 404
                        ("Agents not found: "
                         +:+ repr_str_list float_repr
                               (List.filter (fun n => negb (PyDict.mem n registry))
                                  (FusionApi.pr_agents req)))))
        /\ In name (List.filter (fun n => negb (PyDict.mem n registry))
                      (FusionApi.pr_agents req))
        /\ no_invocation
             (trace_of (FusionApi.run_parallel_agents float_repr run_parallel registry req))).
Proof.
  intros Hmem.
  assert (Hget : PyDict.get name registry = None).
  { unfold PyDict.mem in Hmem. destruct (PyDict.get name registry); congruence. }
  split.
  - intros input_text context. now apply DispatcherFacts.dispatch_unknown.
  - intros req Hin.
    assert (Hbad : In name (List.filter (fun n => negb (PyDict.mem n registry))
                              (FusionApi.pr_agents req))).
    { apply List.filter_In. split; [exact Hin | now rewrite Hmem]. }
    unfold FusionApi.run_parallel_agents.
    destruct (List.filter (fun n => negb (PyDict.mem n registry)) (FusionApi.pr_agents req))
      as [| bad rest] eqn:Hinvalid; [contradiction |].
    cbn. repeat split; [exact Hbad].
Qed.

(** C3 on a registry that holds "evaluator" only, asked for "ghost". *)
Lemma C3_unknown_agent_fails_fast_witness :
  Dispatcher.dispatch (fun _ => "")
    {| Dispatcher.agents :=
         [("evaluator",
           {| type_name := "EvaluatorAgent"; run_async := None; run := None;
              call := Some (fun _ => Return (VStr "ok")) |})] |}
    "ghost" (VStr "Critique this flow") None
  = ([], Raise (Exn ValueError "Agent 'ghost' not found. Available: ['evaluator']")).
Proof.
  destruct (C3_unknown_agent_fails_fast (fun _ => "") (fun _ _ => Return VNone)
              [("evaluator",
                {| type_name := "EvaluatorAgent"; run_async := None; run := None;
                   call := Some (fun _ => Return (VStr "ok")) |})]
              "ghost" eq_refl) as [Hdispatch _].
  exact (Hdispatch (VStr "Critique this flow") None).
Defined.

(** C5. For every registered handle, [dispatch] resolves the entry point in
    a fixed order, the first one present winning: [run_async] if the handle
    has it, else [run], else the direct call with the input alone. The entry
    point resolved is the only one entered, also when the handler raises
    there: the exception is logged and raised again, and no later entry
    point is tried. *)
Theorem C5_capability_precedence
  (float_repr : spec_float -> string)
  (self : Dispatcher.t) (agent_name : string) (agent : agent_handle)
  (input_text : pyval) (context : option (list (string * pyval))) :
  PyDict.get agent_name (Dispatcher.agents self) = Some agent ->
  let outcome_of cap (outcome : result pyval) :=
    match outcome with
    | Return result =>
        exists out,
          Dispatcher.dispatch float_repr self agent_name input_text context
          = ([EInvoke agent_name cap input_text], Return out)
    | Raise e =>
        Dispatcher.dispatch float_repr self agent_name input_text context
        = ([EInvoke agent_name cap input_text;
            ELogError "Dispatcher" (Dispatcher.error_line agent_name e)],
           Raise e)
    end in
  (forall method,
     run_async agent = Some method ->
     outcome_of CapRunAsync (method input_text (Dispatcher.context_or_empty context)))
  /\ (forall method,
        run_async agent = None -> run agent = Some method ->
        outcome_of CapRun (method input_text (Dispatcher.context_or_empty context)))
  /\ (forall method,
        run_async agent = None -> run agent = None -> call agent = Some method ->
        outcome_of CapCall (method input_text)).
Proof.
  intros Hreg outcome_of. subst outcome_of. cbv beta.
  rewrite (DispatcherFacts.dispatch_registered float_repr self agent_name agent
             input_text context Hreg).
  unfold Dispatcher.handler_outcome.
  split; [| split].
  - intros method ->.
    destruct (method input_text (Dispatcher.context_or_empty context)); eauto.
  - intros method -> ->.
    destruct (method input_text (Dispatcher.context_or_empty context)); eauto.
  - intros method -> -> ->.
    destruct (method input_text); eauto.
Qed.

(** C5 on a handle with all three entry points whose [run_async] raises:
    [run] and the direct call, which would succeed, are not tried. *)
Lemma C5_capability_precedence_witness :
  Dispatcher.dispatch (fun _ => "")
    {| Dispatcher.agents :=
         [("vp_design",
           {| type_name := "VpDesignAgent";
              run_async := Some (fun _ _ => Raise (Exn RuntimeError "model offline"));
              run := Some (fun _ _ => Return (VStr "from run"));
              call := Some (fun _ => Return (VStr "from call")) |})] |}
    "vp_design" (VStr "Sketch the onboarding") None
  = ([EInvoke "vp_design" CapRunAsync (VStr "Sketch the onboarding");
      ELogError "Dispatcher" "Error dispatching to vp_design: model offline"],
     Raise (Exn RuntimeError "model offline")).
Proof.
  destruct (C5_capability_precedence (fun _ => "")
              {| Dispatcher.agents :=
                   [("vp_design",
                     {| type_name := "VpDesignAgent";
                        run_async := Some (fun _ _ => Raise (Exn RuntimeError "model offline"));
                        run := Some (fun _ _ => Return (VStr "from run"));
                        call := Some (fun _ => Return (VStr "from call")) |})] |}
              "vp_design" _ (VStr "Sketch the onboarding") None eq_refl)
    as [Hasync _].
  exact (Hasync _ eq_refl).
Defined.

(** C6, as the specification states it, fails: a handler that raises a
    [RuntimeError] has that same exception raised to the caller of
    [dispatch], not a [HandlerExecutionError] wrapped around it, and the one
    line logged names the agent and the exception but holds no preview of
    the input, however short. *)
Lemma C6_counterexample :
  Dispatcher.dispatch (fun _ => "")
    {| Dispatcher.agents :=
         [("evaluator",
           {| type_name := "EvaluatorAgent";
              run_async := Some (fun _ _ => Raise (Exn RuntimeError "model offline"));
              run := None; call := None |})] |}
    "evaluator" (VStr "Judge QA") None
  = ([EInvoke "evaluator" CapRunAsync (VStr "Judge QA");
      ELogError "Dispatcher" "Error dispatching to evaluator: model offline"],
     Raise (Exn RuntimeError "model offline"))
  /\ Exn RuntimeError "model offline"
     <> Exn (OtherException "HandlerExecutionError") "model offline"
  /\ (forall n, (0 < n)%nat ->
        PyStr.contains (PyStr.take n "Judge QA")
          "Error dispatching to evaluator: model offline" = false).
Proof.
  split; [reflexivity |]. split; [discriminate |].
  intros n Hn.
  do 8 (destruct n as [| n]; [first [lia | reflexivity] |]).
  destruct n; reflexivity.
Qed.

(** C6, amended. For every exception raised inside an agent invocation,
    [dispatch] catches it at the adapter boundary, logs one error line that
    names the agent and gives the exception's text, and raises the same
    exception again, unchanged, to its immediate caller. *)
Theorem C6_invocation_error_logged_and_reraised
  (float_repr : spec_float -> string)
  (self : Dispatcher.t) (agent_name : string) (agent : agent_handle)
  (input_text : pyval) (context : option (list (string * pyval)))
  (cap : capability) (e : py_exn) :
  PyDict.get agent_name (Dispatcher.agents self) = Some agent ->
  Dispatcher.handler_outcome agent input_text context = Some (cap, Raise e) ->
  Dispatcher.dispatch float_repr self agent_name input_text context
  = ([EInvoke agent_name cap input_text;
      ELogError "Dispatcher"
        ("Error dispatching to " +:+ agent_name +:+ ": " +:+ exn_str e)],
     Raise e)
  /\ PyStr.contains agent_name
       ("Error dispatching to " +:+ agent_name +:+ ": " +:+ exn_str e) = true.
Proof.
  intros Hreg Hout. split.
  - rewrite (DispatcherFacts.dispatch_registered float_repr self agent_name agent
               input_text context Hreg), Hout.
    reflexivity.
  - apply PyStrFacts.contains_infix.
Qed.

(** C6 amended, on a handler whose [run] raises a [ValueError]. *)
Lemma C6_invocation_error_logged_and_reraised_witness :
  Dispatcher.dispatch (fun _ => "")
    {| Dispatcher.agents :=
         [("deck_narrator",
           {| type_name := "DeckNarratorAgent"; run_async := None;
              run := Some (fun _ _ => Raise (Exn ValueError "empty deck"));
              call := None |})] |}
    "deck_narrator" (VStr "Narrate") None
  = ([EInvoke "deck_narrator" CapRun (VStr "Narrate");
      ELogError "Dispatcher" "Error dispatching to deck_narrator: empty deck"],
     Raise (Exn ValueError "empty deck"))
  /\ PyStr.contains "deck_narrator" "Error dispatching to deck_narrator: empty deck" = true.
Proof.
  exact (C6_invocation_error_logged_and_reraised (fun _ => "")
           {| Dispatcher.agents :=
                [("deck_narrator",
                  {| type_name := "DeckNarratorAgent"; run_async := None;
                     run := Some (fun _ _ => Raise (Exn ValueError "empty deck"));
                     call := None |})] |}
           "deck_narrator" _ (VStr "Narrate") None CapRun (Exn ValueError "empty deck")
           eq_refl eq_refl).
Defined.

(** ** What [dispatch] returns, entry point by entry point *)

Module NormalizeFacts.

(** For a value returned through [run_async] or [run]: a mapping with an
    [output] key gives that key's value; a mapping without [output] but
    with [enhanced_output] gives that value; any other mapping, and any
    value that is no mapping, gives its rendering by [str]. For a value
    returned through the direct call, the rendering of the whole value. *)
Lemma dispatch_by_entry_point
  (float_repr : spec_float -> string)
  (self : Dispatcher.t) (agent_name : string) (agent : agent_handle)
  (input_text : pyval) (context : option (list (string * pyval)))
  (cap : capability) (result : pyval) :
  PyDict.get agent_name (Dispatcher.agents self) = Some agent ->
  Dispatcher.handler_outcome agent input_text context = Some (cap, Return result) ->
  exists out,
    Dispatcher.dispatch float_repr self agent_name input_text context
    = ([EInvoke agent_name cap input_text], Return out)
    /\ (cap <> CapCall ->
        (forall entries v,
           result = VDict entries -> PyDict.get "output" entries = Some v -> out = v)
        /\ (forall entries v,
              result = VDict entries -> PyDict.get "output" entries = None ->
              PyDict.get "enhanced_output" entries = Some v -> out = v)
        /\ (forall entries,
              result = VDict entries -> PyDict.get "output" entries = None ->
              PyDict.get "enhanced_output" entries = None ->
              out = VStr (py_str float_repr result))
        /\ ((forall entries, result <> VDict entries) ->
            out = VStr (py_str float_repr result)))
    /\ (cap = CapCall -> out = VStr (py_str float_repr result))
    /\ (forall s, result = VStr s -> out = VStr s).
Proof.
  intros Hreg Hout.
  rewrite (DispatcherFacts.dispatch_registered float_repr self agent_name agent
             input_text context Hreg), Hout.
  eexists. split; [reflexivity |].
  split; [| split].
  - intros Hcap.
    assert (Hnorm : match cap with
                    | CapCall => VStr (py_str float_repr result)
                    | _ => Dispatcher.normalize float_repr result
                    end = Dispatcher.normalize float_repr result)
      by (destruct cap; congruence).
    rewrite Hnorm. unfold Dispatcher.normalize.
    repeat split.
    + intros entries v -> Hget. now rewrite Hget.
    + intros entries v -> Hnone Hget. now rewrite Hnone, Hget.
    + intros entries -> Hnone Hnone'. now rewrite Hnone, Hnone'.
    + intros Hnot. destruct result; try reflexivity. exfalso. now eapply Hnot.
  - intros ->. reflexivity.
  - intros s ->. destruct cap; reflexivity.
Qed.

End NormalizeFacts.

(** C4. The code misses the claim on one of its three paths. The branches
    for [run_async] and [run] (dispatcher.py 43-45, 50-52) normalise a
    mapping: from [{"output": "X"}] they give "X". The branch for the
    direct call (55-57) gives [str(result)] whatever the shape, so the same
    mapping comes back as its rendering "{'output': 'X'}", with the key and
    the braces. *)
Theorem C4_direct_call_skips_normalization :
  Dispatcher.dispatch (fun _ => "")
    {| Dispatcher.agents :=
         [("echo",
           {| type_name := "Echo";
              run_async := Some (fun _ _ => Return (VDict [("output", VStr "X")]));
              run := None; call := None |})] |}
    "echo" (VStr "hello") None
  = ([EInvoke "echo" CapRunAsync (VStr "hello")], Return (VStr "X"))
  /\ Dispatcher.dispatch (fun _ => "")
       {| Dispatcher.agents :=
            [("echo",
              {| type_name := "Echo"; run_async := None;
                 run := Some (fun _ _ => Return (VDict [("output", VStr "X")]));
                 call := None |})] |}
       "echo" (VStr "hello") None
     = ([EInvoke "echo" CapRun (VStr "hello")], Return (VStr "X"))
  /\ Dispatcher.dispatch (fun _ => "")
       {| Dispatcher.agents :=
            [("echo",
              {| type_name := "function"; run_async := None; run := None;
                 call := Some (fun _ => Return (VDict [("output", VStr "X")])) |})] |}
       "echo" (VStr "hello") None
     = ([EInvoke "echo" CapCall (VStr "hello")], Return (VStr "{'output': 'X'}"))
  /\ VStr "{'output': 'X'}" <> VStr "X".
Proof. repeat split; try reflexivity. discriminate. Qed.

(** ** Traces *)

Module TraceFacts.

Lemma invokes_only_bind {A B} name (m : M A) (k : A -> M B) :
  invokes_only name (trace_of m) ->
  (forall a, invokes_only name (trace_of (k a))) ->
  invokes_only name (trace_of (bind m k)).
Proof.
  intros Hm Hk. destruct m as [t [a | e]]; cbn in *.
  - specialize (Hk a). destruct (k a) as [t' r]. cbn in *.
    apply Forall_app. now split.
  - exact Hm.
Qed.

Lemma invokes_only_try {A} name (m : M A) filter handler :
  invokes_only name (trace_of m) ->
  (forall e, invokes_only name (trace_of (handler e))) ->
  invokes_only name (trace_of (try_except m filter handler)).
Proof.
  intros Hm Hh. destruct m as [t [a | e]]; cbn in *.
  - exact Hm.
  - destruct (filter e); [| exact Hm].
    specialize (Hh e). destruct (handler e) as [t' r]. cbn in *.
    apply Forall_app. now split.
Qed.

Lemma invokes_only_nil name : invokes_only name [].
Proof. constructor. Qed.

Lemma invokes_only_lift {A} name (r : result A) : invokes_only name (trace_of (lift r)).
Proof. constructor. Qed.

End TraceFacts.

(** One step of a walk through a computation's binds and branches. *)
Ltac trace_step :=
  first
    [ apply TraceFacts.invokes_only_bind
    | apply TraceFacts.invokes_only_try
    | apply TraceFacts.invokes_only_lift
    | apply TraceFacts.invokes_only_nil
    | progress intros
    | match goal with
      | |- context [if ?b then _ else _] => destruct b
      | |- context [match ?x with _ => _ end] => destruct x
      end
    | solve [repeat constructor] ].

(** ** The universal prompt handler *)

Module PromptFacts.
Import FusionApi.

Section WithEnvironment.
Variable float_repr : spec_float -> string.
Variable format_2f : pyval -> result string.
Variable http_post : string -> pyval -> http_outcome.
Variable agent_map : list (string * agent_handle).
Variable dispatcher : Dispatcher.t.

Lemma post_quiet name url body : invokes_only name (trace_of (post http_post url body)).
Proof. unfold post. destruct (http_post url body); constructor. Qed.

Lemma get_agent_recommendation_quiet name prompt :
  invokes_only name (trace_of (get_agent_recommendation http_post prompt)).
Proof.
  unfold get_agent_recommendation.
  apply TraceFacts.invokes_only_try; [apply TraceFacts.invokes_only_bind |].
  - apply post_quiet.
  - intros [sc js]. cbn. destruct (sc =? 200); repeat constructor.
  - intros e. repeat constructor.
Qed.


Lemma select_final_agent_quiet name req :
  invokes_only name (trace_of (select_final_agent float_repr format_2f http_post agent_map req)).
Proof.
  unfold select_final_agent, recommendation_failed.
  destruct (p_use_prompt_orchestrator req); [| constructor].
  apply TraceFacts.invokes_only_try; [apply TraceFacts.invokes_only_bind |].
  - apply get_agent_recommendation_quiet.
  - intros rec.
    repeat trace_step.
  - intros e. repeat constructor.
Qed.








(** The value of [final_agent] at line 287. *)
Lemma select_final_agent_spec req :
  exists t rec final,
    select_final_agent float_repr format_2f http_post agent_map req = (t, Return (rec, final))
    /\ (forall name, p_agent_preference req = Some name -> name <> "" -> final = name)
    /\ (preference_given (p_agent_preference req) = false ->
        p_use_prompt_orchestrator req = false -> final = "evaluator")
    /\ (preference_given (p_agent_preference req) = false ->
        forall t' decision,
          get_agent_recommendation http_post (p_input req) = (t', Return decision) ->
          p_use_prompt_orchestrator req = true ->
          (forall r, py_get decision "recommended_agent" VNone = Return (VStr r) ->
                     PyDict.mem r agent_map = true -> final = r)
          /\ ((forall r, py_get decision "recommended_agent" VNone = Return (VStr r) ->
                         PyDict.mem r agent_map = false) ->
              final = "evaluator")).
Proof.
  assert (Hpref : forall name, p_agent_preference req = Some name -> name <> "" ->
                    or_evaluator (p_agent_preference req) = name
                    /\ preference_given (p_agent_preference req) = true).
  { intros name -> Hne. cbn. destruct (String.eqb_spec name ""); [contradiction | now split]. }
  assert (Hnopref : preference_given (p_agent_preference req) = false ->
                    or_evaluator (p_agent_preference req) = "evaluator").
  { destruct (p_agent_preference req) as [name |]; cbn; [| reflexivity].
    destruct (String.eqb name ""); [reflexivity | discriminate]. }
  unfold select_final_agent.
  destruct (p_use_prompt_orchestrator req).
  2:{ do 3 eexists. split; [reflexivity |]. split; [| split].
      - intros name Hname Hne. now apply Hpref.
      - intros Hno _. now apply Hnopref.
      - intros _ t' decision _ Habs. discriminate. }
  destruct (DegradeFacts.get_agent_recommendation_returns http_post (p_input req))
    as (t0 & decision & Hrec).
  rewrite Hrec. cbn [bind try_except].
  destruct (preference_given (p_agent_preference req)) eqn:Hgiven.
  - (* a preference: the recommendation is not looked at *)
    destruct (py_get decision "recommended_agent" VNone) as [recommended | e] eqn:Hget;
      cbn; (do 3 eexists; split; [reflexivity |]);
      (split; [| split]; [intros name Hname Hne; now apply Hpref | discriminate | discriminate]).
  - assert (Hnot : forall name, p_agent_preference req = Some name -> name <> "" -> False).
    { intros name Hname Hne. destruct (Hpref name Hname Hne) as [_ H]. congruence. }
    rewrite (Hnopref eq_refl).
    destruct (py_get decision "recommended_agent" VNone) as [recommended | e] eqn:Hget.
    2:{ cbn. do 3 eexists. split; [reflexivity |]. split; [| split].
        - intros name Hname Hne. destruct (Hnot name Hname Hne).
        - discriminate.
        - intros _ t' decision' [= _ <-] _. rewrite Hget. split; [discriminate |]. reflexivity. }
    cbn [lift bind negb].
    destruct recommended as [| b | n | f | r | items | entries | s1 s2];
      try (cbn; do 3 eexists; split; [reflexivity |]; split; [| split];
           [ intros name Hname Hne; destruct (Hnot name Hname Hne)
           | discriminate
           | intros _ t' decision' [= _ <-] _; rewrite Hget; split;
             [discriminate | reflexivity] ]).
    cbn [py_in_dict bind]. 
    destruct (PyDict.mem r agent_map) eqn:Hmem.
    + cbn [py_str]. 
      destruct (py_get decision "confidence" (VInt 0)) as [conf | e]; cbn;
        [destruct (format_2f conf); cbn |];
        (do 3 eexists; split; [reflexivity |]; split; [| split];
         [ intros name Hname Hne; destruct (Hnot name Hname Hne)
         | discriminate
         | intros _ t' decision' [= _ <-] _; rewrite Hget; split;
           [ now intros r' [= <-] _
           | intros Hall; specialize (Hall r eq_refl); congruence ] ]).
    + cbn. do 3 eexists. split; [reflexivity |]. split; [| split].
      * intros name Hname Hne. destruct (Hnot name Hname Hne).
      * discriminate.
      * intros _ t' decision' [= _ <-] _. rewrite Hget. split.
        -- intros r' [= <-] Hmem'. congruence.
        -- reflexivity.
Qed.









End WithEnvironment.

End PromptFacts.



(** ** Batch loading *)
Module BatchFacts.

Section Batch.
Context {I : Type}.
Variable name_of : I -> string.
Variable outcome : I -> result agent_handle.
Variable catches : py_exn -> bool.
Variable loaded_line : I -> string.
Variable failed_line : I -> py_exn -> string.
Variable step : I -> list (string * agent_handle) -> M (list (string * agent_handle)).

Hypothesis step_spec : forall item agents,
  step item agents
  = match outcome item with
    | Return inst =>
        ([EPrint (loaded_line item)], Return (PyDict.set (name_of item) inst agents))
    | Raise e =>
        if catches e then ([EPrint (failed_line item e)], Return agents)
        else ([], Raise e)
    end.

Lemma keys_loaded items :
  PyDict.keys (Batch.loaded name_of outcome items)
  = List.map name_of (List.filter (Batch.usable outcome) items).
Proof.
  induction items as [| item items IH]; [reflexivity |].
  unfold Batch.loaded, Batch.usable in *. simpl.
  destruct (outcome item); simpl; now rewrite <- IH.
Qed.


Lemma get_app_fresh {V} k (d d' : list (string * V)) :
  PyDict.get k d = None -> PyDict.get k (d ++ d') = PyDict.get k d'.
Proof.
  induction d as [| [k0 v0] d IH]; simpl; [reflexivity |].
  destruct (String.eqb k0 k); [discriminate | exact IH].
Qed.

Lemma get_loaded items item inst :
  List.NoDup (List.map name_of items) ->
  In item items -> outcome item = Return inst ->
  PyDict.get (name_of item) (Batch.loaded name_of outcome items) = Some inst.
Proof.
  induction items as [| item0 items IH]; simpl; [tauto |].
  intros Hnodup Hin Hout. apply List.NoDup_cons_iff in Hnodup as [Hfresh Hnodup].
  unfold Batch.loaded. simpl. fold (Batch.loaded name_of outcome items).
  destruct Hin as [-> | Hin].
  - rewrite Hout. simpl. now rewrite String.eqb_refl.
  - assert (Hne : name_of item0 <> name_of item).
    { intros Heq. apply Hfresh. rewrite Heq. now apply List.in_map. }
    destruct (outcome item0); simpl.
    + destruct (String.eqb_spec (name_of item0) (name_of item)); [contradiction |].
      now apply IH.
    + now apply IH.
Qed.

Lemma wf_loaded items :
  List.NoDup (List.map name_of items) ->
  PyDict.wf (Batch.loaded name_of outcome items).
Proof.
  unfold PyDict.wf. rewrite keys_loaded.
  induction items as [| item items IH]; simpl; [constructor |].
  intros Hnodup. apply List.NoDup_cons_iff in Hnodup as [Hfresh Hnodup].
  destruct (Batch.usable outcome item); simpl; [| now apply IH].
  constructor; [| now apply IH].
  intros Hin. apply Hfresh. apply List.in_map_iff in Hin as (item' & <- & Hin).
  apply List.filter_In in Hin as [Hin _]. now apply List.in_map.
Qed.

(** The loop over a settled batch runs to its end: one line per item, and
    the usable items added in order. *)
Lemma for_each_spec items : forall agents,
  List.NoDup (List.map name_of items) ->
  (forall item, In item items -> PyDict.get (name_of item) agents = None) ->
  Batch.settled outcome catches items ->
  for_each step items agents
  = (List.map (Batch.log_line outcome loaded_line failed_line) items,
     Return (agents ++ Batch.loaded name_of outcome items)).
Proof.
  unfold Batch.settled.
  induction items as [| item items IH]; intros agents Hnodup Hfresh Hall.
  - simpl. now rewrite app_nil_r.
  - apply List.NoDup_cons_iff in Hnodup as [Hnew Hnodup].
    apply Forall_cons in Hall as [Hitem Hall].
    cbn [for_each]. rewrite step_spec.
    unfold Batch.usable, Batch.unusable, Batch.log_line, Batch.loaded in *.
    cbn [flat_map List.map].
    destruct (outcome item) as [inst | e] eqn:Hout.
    + rewrite PyDictFacts.set_fresh by (apply Hfresh; now left).
      rewrite bind_pure, IH; cbn [trace_of result_of fst snd]; auto.
      * unfold Batch.loaded. now rewrite <- app_assoc.
      * intros item' Hin. rewrite get_app_fresh by (apply Hfresh; now right).
        simpl.
        destruct (String.eqb_spec (name_of item) (name_of item')) as [Heq |];
          [| reflexivity].
        exfalso. apply Hnew. rewrite Heq. now apply List.in_map.
    + simpl in Hitem. rewrite Hitem.
      rewrite bind_pure, IH; cbn [trace_of result_of fst snd]; auto.
      intros item' Hin. apply Hfresh. now right.
Qed.


End Batch.

End BatchFacts.

(** ** The loaders *)

Module LoaderFacts.

Lemma import_and_instantiate_spec imp module_name class_name :
  import_and_instantiate imp module_name class_name
  = ([], result_of (import_and_instantiate imp module_name class_name)).
Proof.
  unfold import_and_instantiate, lift.
  destruct (imp module_name) as [module | e]; cbn; [| reflexivity].
  destruct (module class_name) as [[inst | e] |]; reflexivity.
Qed.

Lemma load_one_spec imp name agents :
  load_one imp name agents
  = match resolve title_class_name imp name with
    | Return inst => ([EPrint (loaded_line name)], Return (PyDict.set name inst agents))
    | Raise e =>
        if import_or_attribute_error e then ([EPrint (failed_line name e)], Return agents)
        else ([], Raise e)
    end.
Proof.
  unfold load_one, resolve. rewrite import_and_instantiate_spec.
  destruct (result_of _) as [inst | e]; cbn; [reflexivity |].
  destruct (import_or_attribute_error e); reflexivity.
Qed.

Lemma load_core_one_spec imp name agents :
  AgentLoader.load_core_one imp name agents
  = match resolve AgentLoader.pascal_class_name imp name with
    | Return inst => ([EPrint (loaded_line name)], Return (PyDict.set name inst agents))
    | Raise e =>
        if import_or_attribute_error e then ([EPrint (failed_line name e)], Return agents)
        else ([], Raise e)
    end.
Proof.
  unfold AgentLoader.load_core_one, resolve. rewrite import_and_instantiate_spec.
  destruct (result_of _) as [inst | e]; cbn; [reflexivity |].
  destruct (import_or_attribute_error e); reflexivity.
Qed.

Lemma load_plugin_one_spec entry agents :
  load_plugin_one entry agents
  = match snd entry with
    | Return inst =>
        ([EPrint (plugin_loaded_line entry)], Return (PyDict.set (fst entry) inst agents))
    | Raise e =>
        if any_exception e then ([EPrint (plugin_failed_line entry e)], Return agents)
        else ([], Raise e)
    end.
Proof.
  unfold load_plugin_one, lift. destruct (snd entry) as [inst | e]; reflexivity.
Qed.


(** The plugin loop never raises. *)
Lemma plugins_loop_spec entries :
  List.NoDup (List.map fst entries) ->
  for_each load_plugin_one entries []
  = (List.map (Batch.log_line snd plugin_loaded_line plugin_failed_line) entries,
     Return (Batch.loaded fst snd entries)).
Proof.
  intros Hnodup.
  rewrite (BatchFacts.for_each_spec fst snd any_exception plugin_loaded_line
             plugin_failed_line load_plugin_one load_plugin_one_spec); auto.
  apply Forall_forall. intros entry _.
  unfold Batch.usable, Batch.unusable. now destruct (snd entry).
Qed.

Lemma discovery_summary_returns label env :
  exists t, discovery_summary label env = (t, Return tt).
Proof. unfold discovery_summary. destruct (0 <? agents_found env); cbn; eauto. Qed.

Lemma load_plugins_spec env plugins_dir :
  List.NoDup (List.map fst (registered env)) ->
  exists t,
    load_plugins env plugins_dir
    = (t, Return (if plugins_dir_exists env
                  then Batch.loaded fst snd (registered env) else [])).
Proof.
  intros Hnodup. unfold load_plugins.
  destruct (plugins_dir_exists env); cbn [negb]; [| cbn; eauto].
  rewrite (plugins_loop_spec _ Hnodup). rewrite bind_pure.
  destruct (discovery_summary_returns "🔌 Plugin discovery: " env) as [t ->].
  cbn. eauto.
Qed.

Lemma _load_plugin_agents_spec self env :
  List.NoDup (List.map fst (registered env)) ->
  exists t,
    AgentLoader._load_plugin_agents self env
    = (t, Return (if plugins_dir_exists env
                  then Batch.loaded fst snd (registered env) else [])).
Proof.
  intros Hnodup. unfold AgentLoader._load_plugin_agents.
  destruct (plugins_dir_exists env); cbn [negb]; [| cbn; eauto].
  rewrite (plugins_loop_spec _ Hnodup). rewrite bind_pure.
  destruct (discovery_summary_returns "🔌 Plugin discovery summary: " env) as [t ->].
  cbn. eauto.
Qed.


End LoaderFacts.




(** ** Plugins over the manifest *)

Module MergeFacts.

(** A plugin that was instantiated is in the dict the plugin loaders return,
    under its name. *)
Lemma plugin_registered env name inst :
  List.NoDup (List.map fst (registered env)) ->
  In (name, Return inst) (registered env) ->
  PyDict.get name (Batch.loaded fst snd (registered env)) = Some inst.
Proof.
  intros Hnodup Hin.
  exact (BatchFacts.get_loaded fst snd (registered env) (name, Return inst) inst
           Hnodup Hin eq_refl).
Qed.

Lemma plugins_wf env :
  List.NoDup (List.map fst (registered env)) ->
  PyDict.wf (if plugins_dir_exists env
             then Batch.loaded fst snd (registered env) else []).
Proof.
  intros Hnodup. destruct (plugins_dir_exists env).
  - now apply BatchFacts.wf_loaded.
  - constructor.
Qed.

End MergeFacts.

(** C9. For every agent name that is both loaded from the manifest and
    among the discovered plugins (the plugin registry lists it and its class
    instantiates), the merged map binds the name to the plugin's instance:
    the plugin entry replaces the manifest entry, whatever that was, and no
    conflict error is raised, the merge returning whenever the manifest load
    does. This holds for [load_all_agents] and for
    [AgentLoader.load_agents]. *)
Theorem C9_plugin_overrides_manifest
  (file : manifest_file) (imp : importer) (env : plugin_env)
  (manifest_path plugins_dir : string) :
  List.NoDup (List.map fst (registered env)) ->
  plugins_dir_exists env = true ->
  (forall t core,
     load_agents file imp manifest_path = (t, Return core) ->
     exists t' merged,
       load_all_agents file imp env manifest_path plugins_dir = (t', Return merged)
       /\ forall name inst,
            In (name, Return inst) (registered env) ->
            PyDict.get name merged = Some inst)
  /\ (forall self t self' core,
        AgentLoader._load_core_agents self file imp = (t, Return (self', core)) ->
        exists t' self'' merged,
          AgentLoader.load_agents self file imp env = (t', Return (self'', merged))
          /\ AgentLoader.loaded_agents self'' = merged
          /\ forall name inst,
               In (name, Return inst) (registered env) ->
               PyDict.get name merged = Some inst).
Proof.
  intros Hnodup Hdir. split.
  - intros t core Hcore. unfold load_all_agents. rewrite Hcore.
    destruct (LoaderFacts.load_plugins_spec env plugins_dir Hnodup) as [t' Hplugins].
    rewrite bind_pure, Hplugins. cbn. do 2 eexists. split; [reflexivity |].
    intros name inst Hin. apply PyDictFacts.get_update_present.
    + now apply MergeFacts.plugins_wf.
    + rewrite Hdir. now apply MergeFacts.plugin_registered.
  - intros self t self' core Hcore. unfold AgentLoader.load_agents. rewrite Hcore.
    destruct (LoaderFacts._load_plugin_agents_spec self' env Hnodup) as [t' Hplugins].
    rewrite bind_pure. cbn [trace_of result_of fst snd]. rewrite Hplugins. cbn.
    do 3 eexists. split; [reflexivity |]. split; [reflexivity |].
    intros name inst Hin. apply PyDictFacts.get_update_present.
    + now apply MergeFacts.plugins_wf.
    + rewrite Hdir. now apply MergeFacts.plugin_registered.
Qed.

(** C9 on a manifest and a plugin registry that both provide
    "evaluator". *)
Lemma C9_plugin_overrides_manifest_witness :
  exists t merged,
    load_all_agents
      (ManifestParsed {| md_agents := Some [("evaluator", VDict [])];
                         md_system_capabilities := None |})
      (fun _ => Return (fun class_name =>
                          Some (Return {| type_name := class_name; run_async := None;
                                          run := None; call := None |})))
      {| plugins_dir_exists := true; agents_found := 1; tools_found := 0;
         registered := [("evaluator",
                         Return {| type_name := "PluginEvaluator"; run_async := None;
                                   run := None; call := None |})] |}
      "agent_manifest.json" "plugins"
    = (t, Return merged)
    /\ PyDict.get "evaluator" merged
       = Some {| type_name := "PluginEvaluator"; run_async := None;
                 run := None; call := None |}.
Proof.
  destruct (C9_plugin_overrides_manifest
      (ManifestParsed {| md_agents := Some [("evaluator", VDict [])];
                         md_system_capabilities := None |})
      (fun _ => Return (fun class_name =>
                          Some (Return {| type_name := class_name; run_async := None;
                                          run := None; call := None |})))
      {| plugins_dir_exists := true; agents_found := 1; tools_found := 0;
         registered := [("evaluator",
                         Return {| type_name := "PluginEvaluator"; run_async := None;
                                   run := None; call := None |})] |}
      "agent_manifest.json" "plugins") as [Hall _].
  - cbn. repeat constructor. intros [].
  - reflexivity.
  - destruct (Hall _ _ eq_refl) as (t & merged & Hrun & Hget).
    exists t, merged. split; [exact Hrun |].
    apply Hget. now left.
Defined.

(** ** Evaluations *)

Example repr_plain : PyStr.repr "vp_design" = "'vp_design'".
Proof. reflexivity. Qed.

Example repr_with_quote :
  PyStr.repr "it's" = String PyStr.dquote ("it's" +:+ String PyStr.dquote "").
Proof. reflexivity. Qed.

Example repr_dict_example :
  py_repr (fun _ => "") (VDict [("output", VStr "X"); ("n", VInt (-12))])
  = "{'output': 'X', 'n': -12}".
Proof. reflexivity. Qed.

Example split_example : PyStr.split "_" "vp_of_product" = ["vp"; "of"; "product"].
Proof. reflexivity. Qed.

Example class_names_example :
  title_class_name "vp_of_product" = "VpOfProductAgent"
  /\ AgentLoader.pascal_class_name "vp_of_product" = "VpOfProductAgent".
Proof. split; reflexivity. Qed.

(** The two derivations of the class name differ on a name with a digit
    inside a word. *)
Example class_names_differ :
  title_class_name "gpt4o" = "Gpt4OAgent"
  /\ AgentLoader.pascal_class_name "gpt4o" = "Gpt4oAgent".
Proof. split; reflexivity. Qed.

(** A constructor that raises [FileNotFoundError] is taken by
    [load_agents] for a missing manifest: the agents loaded so far are
    dropped and an empty dict is returned. *)
Example load_agents_constructor_file_not_found :
  load_agents
    (ManifestParsed {| md_agents := Some [("evaluator", VDict []); ("deck_narrator", VDict [])];
                       md_system_capabilities := None |})
    (fun module_name =>
       Return (fun class_name =>
                 if String.eqb module_name "agents.deck_narrator_agent"
                 then Some (Raise (Exn FileNotFoundError "deck.json"))
                 else Some (Return {| type_name := class_name; run_async := None;
                                      run := None; call := None |})))
    "agent_manifest.json"
  = ([EPrint "✅ Loaded agent: evaluator";
      EPrint "⚠️ Warning: Manifest file agent_manifest.json not found"],
     Return []).
Proof. reflexivity. Qed.

(** A value under [output] that is no string is returned as it is. *)
Example dispatch_output_not_a_string :
  Dispatcher.dispatch (fun _ => "")
    {| Dispatcher.agents :=
         [("evaluator",
           {| type_name := "EvaluatorAgent";
              run_async := Some (fun _ _ => Return (VDict [("output", VInt 42)]));
              run := None; call := None |})] |}
    "evaluator" (VStr "Score this") None
  = ([EInvoke "evaluator" CapRunAsync (VStr "Score this")], Return (VInt 42)).
Proof. reflexivity. Qed.

(** * Further properties of the code *)

(** ** The naming conventions of the two loaders *)

Module NamingFacts.

Lemma title_go_letters (prev_cased : bool) (w : string) :
  all_chars is_letter w = true ->
  PyStr.title_go prev_cased w
  = if prev_cased then PyStr.lower w else PyStr.capitalize w.
Proof.
  revert prev_cased. induction w as [| c w IH]; intros prev_cased Hw.
  - now destruct prev_cased.
  - simpl in Hw. apply andb_true_iff in Hw as [Hc Hw].
    cbn [PyStr.title_go]. fold (is_letter c). rewrite Hc, (IH true Hw).
    now destruct prev_cased.
Qed.

Lemma title_capitalize (w : string) :
  all_chars is_letter w = true -> PyStr.title w = PyStr.capitalize w.
Proof. intros Hw. unfold PyStr.title. now rewrite title_go_letters. Qed.

Lemma all_chars_rev_app p (s acc : string) :
  all_chars p (String.rev_app s acc) = all_chars p s && all_chars p acc.
Proof.
  revert acc. induction s as [| c s IH]; intros acc; simpl; [reflexivity |].
  rewrite IH. simpl. now destruct (p c), (all_chars p s), (all_chars p acc).
Qed.

Lemma split_go_letters (cur s : string) :
  all_chars is_letter cur = true ->
  snake_name s = true ->
  Forall (fun w => all_chars is_letter w = true) (PyStr.split_go "_" cur s).
Proof.
  revert cur. induction s as [| c s IH]; intros cur Hcur Hs.
  - constructor; [| constructor]. unfold String.rev.
    now rewrite all_chars_rev_app, Hcur.
  - unfold snake_name in Hs. simpl in Hs. apply andb_true_iff in Hs as [Hc Hs].
    cbn [PyStr.split_go]. destruct (Ascii.eqb c "_") eqn:Hsep.
    + constructor.
      * unfold String.rev. now rewrite all_chars_rev_app, Hcur.
      * now apply IH.
    + rewrite orb_false_r in Hc. apply IH; [| exact Hs]. simpl. now rewrite Hc.
Qed.

Lemma class_names_agree (name : string) :
  snake_name name = true ->
  title_class_name name = AgentLoader.pascal_class_name name.
Proof.
  intros Hname. unfold title_class_name, AgentLoader.pascal_class_name,
    AgentLoader._snake_to_pascal. f_equal. f_equal.
  apply List.map_ext_in. intros w Hw.
  apply title_capitalize.
  pose proof (split_go_letters "" name eq_refl Hname) as Hall.
  rewrite List.Forall_forall in Hall. now apply Hall.
Qed.

End NamingFacts.

(** X1. The two loaders derive the same class name from an agent name made
    of letters and underscores: [load_agents] puts every word through
    [str.title], [AgentLoader._load_core_agents] through [str.capitalize],
    and on such names both give the same class name, resolve the same
    class, and take the same step of the loading loop. *)
Theorem X1_class_name_conventions_agree (imp : importer) (name : string) :
  snake_name name = true ->
  title_class_name name = AgentLoader.pascal_class_name name
  /\ resolve title_class_name imp name = resolve AgentLoader.pascal_class_name imp name
  /\ (forall agents,
        load_one imp name agents = AgentLoader.load_core_one imp name agents).
Proof.
  intros Hname. pose proof (NamingFacts.class_names_agree name Hname) as Heq.
  split; [exact Heq |]. split.
  - unfold resolve. now rewrite Heq.
  - intros agents. unfold load_one, AgentLoader.load_core_one. now rewrite Heq.
Qed.

Lemma X1_class_name_conventions_agree_witness :
  title_class_name "vp_of_product" = AgentLoader.pascal_class_name "vp_of_product".
Proof.
  apply (X1_class_name_conventions_agree
           (fun _ => Raise (Exn ModuleNotFoundError "No module named 'agents'"))
           "vp_of_product").
  reflexivity.
Defined.

(** ** More on the loaders *)

Module LoaderEdgeFacts.

Lemma for_each_app {I : Type}
  (step : I -> list (string * agent_handle) -> M (list (string * agent_handle)))
  (front back : list I) (agents : list (string * agent_handle)) :
  for_each step (front ++ back) agents
  = bind (for_each step front agents) (for_each step back).
Proof.
  revert agents. induction front as [| item front IH]; intros agents.
  - cbn [for_each app]. now rewrite bind_ret_l.
  - cbn [for_each app]. destruct (step item agents) as [t [agents' | e]]; [| reflexivity].
    rewrite !bind_pure, IH. cbn [trace_of result_of fst snd].
    destruct (for_each step front agents') as [t' [agents'' | e]]; [| reflexivity].
    rewrite !bind_pure. cbn [trace_of result_of fst snd].
    rewrite bind_pure. cbn [trace_of result_of fst snd]. now rewrite app_assoc.
Qed.

(** An exception no [except] clause of the loop takes ends the loop where it
    is raised: the lines of the entries before it are printed, nothing is
    returned. *)
Lemma for_each_raises (outcome : string -> result agent_handle)
  (step : string -> list (string * agent_handle) -> M (list (string * agent_handle)))
  (front back : list string) (name : string) (e : py_exn) :
  (forall name agents,
     step name agents
     = match outcome name with
       | Return inst => ([EPrint (loaded_line name)], Return (PyDict.set name inst agents))
       | Raise e =>
           if import_or_attribute_error e then ([EPrint (failed_line name e)], Return agents)
           else ([], Raise e)
       end) ->
  List.NoDup front ->
  Batch.settled outcome import_or_attribute_error front ->
  outcome name = Raise e ->
  import_or_attribute_error e = false ->
  for_each step (front ++ name :: back) []
  = (List.map (Batch.log_line outcome loaded_line failed_line) front, Raise e).
Proof.
  intros Hstep Hnodup Hsettled Hout Hcaught.
  rewrite for_each_app.
  rewrite (BatchFacts.for_each_spec (fun n => n) outcome import_or_attribute_error
             loaded_line failed_line step Hstep front []); auto.
  - rewrite bind_pure. cbn [for_each]. rewrite Hstep, Hout, Hcaught.
    cbn. now rewrite app_nil_r.
  - now rewrite List.map_id.
Qed.

Lemma file_not_found_not_caught (e : py_exn) :
  file_not_found e = true -> import_or_attribute_error e = false.
Proof.
  unfold file_not_found, import_or_attribute_error.
  destruct e as [cls text | sc detail]; [| discriminate].
  destruct cls; cbn; try discriminate. reflexivity.
Qed.

End LoaderEdgeFacts.

(** X2. A manifest without an [agents] member: [load_agents] raises
    [KeyError('agents')], while [AgentLoader._load_core_agents] takes the
    manifest to declare no agent, keeps the parsed manifest and returns an
    empty dict without printing anything. *)
Theorem X2_manifest_without_agents_key
  (imp : importer) (manifest_path : string) (data : manifest_data) :
  md_agents data = None ->
  load_agents (ManifestParsed data) imp manifest_path
  = ([], Raise (Exn KeyError "'agents'"))
  /\ forall self,
       exists self',
         AgentLoader._load_core_agents self (ManifestParsed data) imp
         = ([], Return (self', []))
         /\ AgentLoader.manifest_data_ self' = Some data
         /\ AgentLoader.loaded_agents self' = AgentLoader.loaded_agents self.
Proof.
  intros Hnone. split.
  - unfold load_agents, read_manifest. cbn. now rewrite Hnone.
  - intros self. unfold AgentLoader._load_core_agents. rewrite Hnone. cbn.
    eexists. split; [reflexivity |]. now split.
Qed.

Lemma X2_manifest_without_agents_key_witness :
  load_agents
    (ManifestParsed {| md_agents := None; md_system_capabilities := Some (VDict []) |})
    (fun _ => Raise (Exn ModuleNotFoundError "No module named 'agents'"))
    "agent_manifest.json"
  = ([], Raise (Exn KeyError "'agents'")).
Proof.
  apply (X2_manifest_without_agents_key
           (fun _ => Raise (Exn ModuleNotFoundError "No module named 'agents'"))
           "agent_manifest.json"
           {| md_agents := None; md_system_capabilities := Some (VDict []) |}).
  reflexivity.
Defined.

(** X3. An agent class that raises [FileNotFoundError] when it is
    instantiated: [load_agents], whose outer [try] spans the loop, takes it
    for a missing manifest, prints the missing-manifest warning after the
    lines of the entries before it and returns an empty dict, dropping the
    agents already loaded; [AgentLoader._load_core_agents] raises the
    exception to its caller. *)
Theorem X3_constructor_file_not_found
  (imp : importer) (manifest_path : string) (data : manifest_data)
  (entries : list (string * pyval)) (front back : list string) (name : string)
  (e : py_exn) :
  md_agents data = Some entries ->
  PyDict.keys entries = front ++ name :: back ->
  List.NoDup front ->
  file_not_found e = true ->
  (Batch.settled (resolve title_class_name imp) import_or_attribute_error front ->
   resolve title_class_name imp name = Raise e ->
   load_agents (ManifestParsed data) imp manifest_path
   = (List.map (Batch.log_line (resolve title_class_name imp) loaded_line failed_line) front
      ++ [EPrint (missing_line manifest_path)],
      Return []))
  /\ (Batch.settled (resolve AgentLoader.pascal_class_name imp)
        import_or_attribute_error front ->
      resolve AgentLoader.pascal_class_name imp name = Raise e ->
      forall self,
        AgentLoader._load_core_agents self (ManifestParsed data) imp
        = (List.map (Batch.log_line (resolve AgentLoader.pascal_class_name imp)
                       loaded_line failed_line) front,
           Raise e)).
Proof.
  intros Hagents Hkeys Hnodup Hfnf.
  pose proof (LoaderEdgeFacts.file_not_found_not_caught e Hfnf) as Hcaught.
  split.
  - intros Hsettled Hout. unfold load_agents, read_manifest. cbn [bind ret].
    rewrite Hagents. cbn [bind ret]. rewrite Hkeys.
    rewrite (LoaderEdgeFacts.for_each_raises (resolve title_class_name imp) (load_one imp)
               front back name e (LoaderFacts.load_one_spec imp)
               Hnodup Hsettled Hout Hcaught).
    cbn. now rewrite Hfnf.
  - intros Hsettled Hout self. unfold AgentLoader._load_core_agents.
    rewrite Hagents. cbn [default]. rewrite Hkeys.
    rewrite (LoaderEdgeFacts.for_each_raises (resolve AgentLoader.pascal_class_name imp)
               (AgentLoader.load_core_one imp)
               front back name e (LoaderFacts.load_core_one_spec imp)
               Hnodup Hsettled Hout Hcaught).
    reflexivity.
Qed.

Lemma X3_constructor_file_not_found_witness :
  load_agents
    (ManifestParsed {| md_agents := Some [("evaluator", VDict []); ("deck_narrator", VDict []);
                                          ("vp_design", VDict [])];
                       md_system_capabilities := None |})
    (fun module_name =>
       Return (fun class_name =>
                 if String.eqb module_name "agents.deck_narrator_agent"
                 then Some (Raise (Exn FileNotFoundError "deck.json"))
                 else Some (Return {| type_name := class_name; run_async := None;
                                      run := None; call := None |})))
    "agent_manifest.json"
  = ([EPrint "✅ Loaded agent: evaluator";
      EPrint "⚠️ Warning: Manifest file agent_manifest.json not found"],
     Return []).
Proof.
  destruct (X3_constructor_file_not_found
    (fun module_name =>
       Return (fun class_name =>
                 if String.eqb module_name "agents.deck_narrator_agent"
                 then Some (Raise (Exn FileNotFoundError "deck.json"))
                 else Some (Return {| type_name := class_name; run_async := None;
                                      run := None; call := None |})))
    "agent_manifest.json"
    {| md_agents := Some [("evaluator", VDict []); ("deck_narrator", VDict []);
                          ("vp_design", VDict [])];
       md_system_capabilities := None |}
    [("evaluator", VDict []); ("deck_narrator", VDict []); ("vp_design", VDict [])]
    ["evaluator"] ["vp_design"] "deck_narrator" (Exn FileNotFoundError "deck.json")
    eq_refl eq_refl) as [Hload _].
  - repeat constructor. intros [].
  - reflexivity.
  - apply Hload; [repeat constructor | reflexivity].
Defined.

(** ** More on the merge *)

Module MergeFrameFacts.

Section Dict.
Context {V : Type}.
Implicit Types (d other : list (string * V)) (k : string) (v : V).

Lemma keys_set k v d :
  PyDict.keys (PyDict.set k v d)
  = if PyDict.mem k d then PyDict.keys d else PyDict.keys d ++ [k].
Proof.
  unfold PyDict.mem. induction d as [| [k0 v0] d IH]; simpl; [reflexivity |].
  destruct (String.eqb_spec k0 k) as [-> | Hne]; simpl; [reflexivity |].
  rewrite IH. now destruct (PyDict.get k d).
Qed.

(** [d.update(other)] keeps the keys of [d] in their places and appends the
    new ones. *)
Lemma keys_update_prefix d other :
  exists added, PyDict.keys (PyDict.update d other) = PyDict.keys d ++ added.
Proof.
  revert d. induction other as [| [k v] other IH]; intros d.
  - exists []. unfold PyDict.update. simpl. now rewrite app_nil_r.
  - unfold PyDict.update. simpl.
    destruct (IH (PyDict.set k v d)) as [added Hadded].
    unfold PyDict.update in Hadded. rewrite Hadded, keys_set.
    destruct (PyDict.mem k d); [now exists added |].
    exists (k :: added). now rewrite <- app_assoc.
Qed.

Lemma update_nil d : PyDict.update d [] = d.
Proof. reflexivity. Qed.




Lemma mem_update d other k :
  PyDict.mem k d = true -> PyDict.mem k (PyDict.update d other) = true.
Proof.
  intros Hmem. destruct (keys_update_prefix d other) as [added Hkeys].
  unfold PyDict.mem in *.
  destruct (PyDict.get k (PyDict.update d other)) eqn:Hget; [reflexivity |].
  apply PyDictFacts.get_None_keys in Hget. exfalso. apply Hget.
  rewrite Hkeys. apply List.in_or_app. left.
  destruct (PyDict.get k d) eqn:Hd; [| discriminate].
  destruct (List.in_dec String.string_dec k (PyDict.keys d)) as [Hin | Hnot];
    [exact Hin |].
  apply PyDictFacts.get_None_keys in Hnot. congruence.
Qed.

End Dict.

(** A name no instantiated plugin carries is not in the plugin dict. *)
Lemma plugins_absent (entries : list (string * result agent_handle)) (name : string) :
  (forall inst, ~ In (name, Return inst) entries) ->
  PyDict.get name (Batch.loaded fst snd entries) = None.
Proof.
  induction entries as [| [n [inst | e]] entries IH]; intros Hnot; [reflexivity | |].
  - unfold Batch.loaded. simpl. fold (Batch.loaded fst snd entries).
    destruct (String.eqb_spec n name) as [-> | Hne].
    + exfalso. apply (Hnot inst). now left.
    + apply IH. intros inst' Hin. apply (Hnot inst'). now right.
  - unfold Batch.loaded. simpl. fold (Batch.loaded fst snd entries).
    apply IH. intros inst' Hin. apply (Hnot inst'). now right.
Qed.



End MergeFrameFacts.

(** X4. [load_all_agents] leaves alone what no plugin provides: a name that
    no instantiated plugin carries is bound in the merged dict as the
    manifest load bound it (or not at all, if it did not); every manifest
    agent stays in the merged dict, and the manifest agents keep their places
    at the front of the listing order, new plugin names following. *)
Theorem X4_merge_keeps_manifest_agents
  (file : manifest_file) (imp : importer) (env : plugin_env)
  (manifest_path plugins_dir : string)
  (t : list event) (core : list (string * agent_handle)) :
  List.NoDup (List.map fst (registered env)) ->
  load_agents file imp manifest_path = (t, Return core) ->
  exists t' merged,
    load_all_agents file imp env manifest_path plugins_dir = (t ++ t', Return merged)
    /\ (forall name,
          (forall inst, ~ In (name, Return inst) (registered env)) ->
          PyDict.get name merged = PyDict.get name core)
    /\ (forall name, PyDict.mem name core = true -> PyDict.mem name merged = true)
    /\ (exists added, PyDict.keys merged = PyDict.keys core ++ added).
Proof.
  intros Hnodup Hcore. unfold load_all_agents. rewrite Hcore.
  destruct (LoaderFacts.load_plugins_spec env plugins_dir Hnodup) as [t' Hplugins].
  rewrite bind_pure, Hplugins. cbn. rewrite app_nil_r.
  exists t'. eexists. split; [reflexivity |].
  split; [| split].
  - intros name Hnot. apply PyDictFacts.get_update_absent.
    destruct (plugins_dir_exists env); [| reflexivity].
    now apply MergeFrameFacts.plugins_absent.
  - intros name. apply MergeFrameFacts.mem_update.
  - apply MergeFrameFacts.keys_update_prefix.
Qed.

Lemma X4_merge_keeps_manifest_agents_witness :
  exists t' merged,
    load_all_agents
      (ManifestParsed {| md_agents := Some [("evaluator", VDict []); ("vp_design", VDict [])];
                         md_system_capabilities := None |})
      (fun _ => Return (fun class_name =>
                          Some (Return {| type_name := class_name; run_async := None;
                                          run := None; call := None |})))
      {| plugins_dir_exists := true; agents_found := 1; tools_found := 0;
         registered := [("evaluator",
                         Return {| type_name := "PluginEvaluator"; run_async := None;
                                   run := None; call := None |})] |}
      "agent_manifest.json" "plugins"
    = ([EPrint "✅ Loaded agent: evaluator"; EPrint "✅ Loaded agent: vp_design"] ++ t',
       Return merged)
    /\ PyDict.get "vp_design" merged
       = Some {| type_name := "VpDesignAgent"; run_async := None; run := None;
                 call := None |}.
Proof.
  destruct (X4_merge_keeps_manifest_agents
      (ManifestParsed {| md_agents := Some [("evaluator", VDict []); ("vp_design", VDict [])];
                         md_system_capabilities := None |})
      (fun _ => Return (fun class_name =>
                          Some (Return {| type_name := class_name; run_async := None;
                                          run := None; call := None |})))
      {| plugins_dir_exists := true; agents_found := 1; tools_found := 0;
         registered := [("evaluator",
                         Return {| type_name := "PluginEvaluator"; run_async := None;
                                   run := None; call := None |})] |}
      "agent_manifest.json" "plugins" _ _
      ltac:(cbn; repeat constructor; intros []) eq_refl)
    as (t' & merged & Hrun & Hkeep & _).
  exists t', merged. split; [exact Hrun |].
  rewrite (Hkeep "vp_design"); [reflexivity |].
  intros inst [Hin | []]. discriminate.
Defined.



(** ** Listing the agents *)

Module ListingFacts.
Import FusionApi.

Lemma agent_info_dict entries type_name :
  agent_info (VDict entries) type_name = ([], Return (described entries type_name)).
Proof. reflexivity. Qed.

Lemma agent_info_not_dict info type_name :
  dict_entries info = None ->
  exists e, agent_info info type_name = ([], Raise e) /\ isinstance e AttributeError = true.
Proof.
  intros Hnot. destruct info; try discriminate; cbn; eauto.
Qed.

(** A loop whose every step returns fills the dict in the order of the
    agents. *)
Lemma describe_each_spec (describe : string -> agent_handle -> M pyval)
  (info_of : string -> agent_handle -> pyval)
  (agents : list (string * agent_handle)) :
  (forall name agent, In (name, agent) agents ->
                      describe name agent = ([], Return (info_of name agent))) ->
  PyDict.wf agents ->
  forall infos,
    (forall name, In name (PyDict.keys agents) -> PyDict.get name infos = None) ->
    describe_each describe agents infos
    = ([], Return (infos ++ List.map (fun entry => (fst entry, info_of (fst entry) (snd entry)))
                                     agents)).
Proof.
  induction agents as [| [name agent] agents IH]; intros Hdescribe Hwf infos Hfresh.
  - cbn. now rewrite app_nil_r.
  - unfold PyDict.wf in Hwf. cbn in Hwf. apply List.NoDup_cons_iff in Hwf as [Hnew Hwf].
    cbn [describe_each]. rewrite (Hdescribe name agent) by now left.
    rewrite bind_pure.
    rewrite (PyDictFacts.set_fresh name _ infos) by (apply Hfresh; now left).
    rewrite IH; auto.
    + cbn. now rewrite <- app_assoc.
    + intros name' agent' Hin. apply Hdescribe. now right.
    + intros name' Hin. rewrite BatchFacts.get_app_fresh by (apply Hfresh; now right).
      cbn. destruct (String.eqb_spec name name') as [<- |]; [contradiction | reflexivity].
Qed.

Lemma describe_each_ext (describe describe' : string -> agent_handle -> M pyval)
  (agents : list (string * agent_handle)) :
  (forall name agent, In (name, agent) agents -> describe name agent = describe' name agent) ->
  forall infos, describe_each describe agents infos = describe_each describe' agents infos.
Proof.
  induction agents as [| [name agent] agents IH]; intros Hext infos; [reflexivity |].
  cbn [describe_each]. rewrite (Hext name agent) by now left.
  destruct (describe' name agent) as [t [info | e]]; [| reflexivity].
  rewrite !bind_pure, IH; [reflexivity |].
  intros name' agent' Hin. apply Hext. now right.
Qed.

Lemma get_map_info (info_of : string -> agent_handle -> pyval)
  (agents : list (string * agent_handle)) name agent :
  PyDict.wf agents -> In (name, agent) agents ->
  PyDict.get name (List.map (fun entry => (fst entry, info_of (fst entry) (snd entry))) agents)
  = Some (info_of name agent).
Proof.
  induction agents as [| [n a] agents IH]; intros Hwf Hin; [destruct Hin |].
  unfold PyDict.wf in Hwf. cbn in Hwf. apply List.NoDup_cons_iff in Hwf as [Hnew Hwf].
  cbn. destruct Hin as [[= -> ->] | Hin].
  - now rewrite String.eqb_refl.
  - destruct (String.eqb_spec n name) as [-> | Hne]; [| now apply IH].
    exfalso. apply Hnew. change name with (fst (name, agent)). now apply List.in_map.
Qed.

End ListingFacts.

(** X6. [AgentLoader.list_available_agents], when every loaded agent's
    manifest entry is a dict, empty or absent: it returns one description
    per loaded agent, in loading order, under the agent's name; each carries
    the instance's type name and [available = True]; and an agent without a
    manifest entry, as a plugin agent is, gets the defaults: role "Unknown",
    no capabilities, confidence threshold 0.8, memory and telemetry
    enabled. *)
Theorem X6_list_available_agents (self : AgentLoader.t) :
  PyDict.wf (AgentLoader.loaded_agents self) ->
  (forall name,
     In name (PyDict.keys (AgentLoader.loaded_agents self)) ->
     dict_entries (AgentLoaderInfo.or_empty_dict (AgentLoaderInfo.get_agent_config self name))
     <> None) ->
  exists infos,
    AgentLoaderInfo.list_available_agents self = ([], Return infos)
    /\ PyDict.keys infos = PyDict.keys (AgentLoader.loaded_agents self)
    /\ (forall name agent,
          In (name, agent) (AgentLoader.loaded_agents self) ->
          exists info,
            PyDict.get name infos = Some info
            /\ py_get info "type" VNone = Return (VStr (type_name agent))
            /\ py_get info "available" VNone = Return (VBool true))
    /\ (forall name agent,
          In (name, agent) (AgentLoader.loaded_agents self) ->
          AgentLoaderInfo.get_agent_config self name = VNone ->
          PyDict.get name infos
          = Some (VDict [("role", VStr "Unknown");
                         ("capabilities", VList []);
                         ("confidence_threshold", VFloat FusionApi.float_0_8);
                         ("memory_enabled", VBool true);
                         ("telemetry_enabled", VBool true);
                         ("type", VStr (type_name agent));
                         ("available", VBool true)])).
Proof.
  intros Hwf Hdicts.
  set (info_of := fun (name : string) (agent : agent_handle) =>
         described
           (default [] (dict_entries (AgentLoaderInfo.or_empty_dict
                                        (AgentLoaderInfo.get_agent_config self name))))
           (type_name agent)).
  assert (Hrun : AgentLoaderInfo.list_available_agents self
                 = ([], Return (List.map (fun entry => (fst entry, info_of (fst entry) (snd entry)))
                                  (AgentLoader.loaded_agents self)))).
  { unfold AgentLoaderInfo.list_available_agents.
    rewrite (ListingFacts.describe_each_spec _ info_of); auto.
    intros name agent Hin. unfold info_of.
    assert (Hname : In name (PyDict.keys (AgentLoader.loaded_agents self))).
    { change name with (fst (name, agent)). now apply List.in_map. }
    specialize (Hdicts name Hname).
    destruct (AgentLoaderInfo.or_empty_dict _) as [| | | | | | entries |];
      try (exfalso; now apply Hdicts).
    reflexivity. }
  eexists. split; [exact Hrun |]. split; [| split].
  - unfold PyDict.keys. rewrite List.map_map. now apply List.map_ext.
  - intros name agent Hin. eexists. split.
    + apply (ListingFacts.get_map_info info_of _ name agent Hwf Hin).
    + unfold info_of, described. split; reflexivity.
  - intros name agent Hin Hnone.
    rewrite (ListingFacts.get_map_info info_of _ name agent Hwf Hin).
    unfold info_of. now rewrite Hnone.
Qed.

Lemma X6_list_available_agents_witness :
  exists infos,
    AgentLoaderInfo.list_available_agents
      {| AgentLoader.manifest_path := "agent_manifest.json";
         AgentLoader.plugins_dir := "plugins";
         AgentLoader.loaded_agents :=
           [("sketcher", {| type_name := "SketcherPlugin"; run_async := None; run := None;
                            call := None |})];
         AgentLoader.manifest_data_ :=
           Some {| md_agents := Some [("evaluator", VDict [("role", VStr "Judge")])];
                   md_system_capabilities := None |} |}
    = ([], Return infos)
    /\ PyDict.keys infos = ["sketcher"]
    /\ PyDict.get "sketcher" infos
       = Some (VDict [("role", VStr "Unknown");
                      ("capabilities", VList []);
                      ("confidence_threshold", VFloat FusionApi.float_0_8);
                      ("memory_enabled", VBool true);
                      ("telemetry_enabled", VBool true);
                      ("type", VStr "SketcherPlugin");
                      ("available", VBool true)]).
Proof.
  destruct (X6_list_available_agents
    {| AgentLoader.manifest_path := "agent_manifest.json";
       AgentLoader.plugins_dir := "plugins";
       AgentLoader.loaded_agents :=
         [("sketcher", {| type_name := "SketcherPlugin"; run_async := None; run := None;
                          call := None |})];
       AgentLoader.manifest_data_ :=
         Some {| md_agents := Some [("evaluator", VDict [("role", VStr "Judge")])];
                 md_system_capabilities := None |} |})
    as (infos & Hrun & Hkeys & _ & Hdefault).
  - repeat constructor. intros [].
  - intros name [<- | []]. discriminate.
  - exists infos. split; [exact Hrun |]. split; [exact Hkeys |].
    apply (Hdefault "sketcher" {| type_name := "SketcherPlugin"; run_async := None;
                                  run := None; call := None |}).
    + now left.
    + reflexivity.
Defined.

(** X7. The [/agents] endpoint and [AgentLoader.list_available_agents]
    agree. For a loader whose manifest is [data] and whose loaded agents are
    the service's [agent_map], and a manifest in which no entry of a loaded
    agent is an empty value other than [{}]: [list_agents] is
    [list_available_agents] followed by the wrapping of its result with the
    number of agents and the system capabilities. *)
Theorem X7_list_agents_agrees (self : AgentLoader.t) (data : manifest_data) :
  AgentLoader.manifest_data_ self = Some data ->
  (forall name v,
     In name (PyDict.keys (AgentLoader.loaded_agents self)) ->
     PyDict.get name (default [] (md_agents data)) = Some v ->
     py_truthy v = true \/ v = VDict []) ->
  FusionApi.list_agents data (AgentLoader.loaded_agents self)
  = (infos <- AgentLoaderInfo.list_available_agents self ;;
     ret [("agents", VDict infos);
          ("total_agents", VInt (Z.of_nat (length (AgentLoader.loaded_agents self))));
          ("system_capabilities", AgentLoaderInfo.get_system_capabilities self)]).
Proof.
  intros Hdata Hentries.
  unfold FusionApi.list_agents, AgentLoaderInfo.list_available_agents,
    AgentLoaderInfo.get_system_capabilities.
  rewrite Hdata.
  rewrite (ListingFacts.describe_each_ext _
             (fun agent_name agent_instance =>
                FusionApi.agent_info
                  (AgentLoaderInfo.or_empty_dict
                     (AgentLoaderInfo.get_agent_config self agent_name))
                  (type_name agent_instance))); [reflexivity |].
  intros name agent Hin. f_equal.
  assert (Hname : In name (PyDict.keys (AgentLoader.loaded_agents self))).
  { change name with (fst (name, agent)). now apply List.in_map. }
  unfold FusionApi.manifest_info, AgentLoaderInfo.get_agent_config,
    AgentLoaderInfo.or_empty_dict.
  rewrite Hdata.
  destruct (PyDict.get name (default [] (md_agents data))) as [v |] eqn:Hget;
    [| reflexivity].
  cbn. destruct (Hentries name v Hname Hget) as [-> | ->]; reflexivity.
Qed.

Lemma X7_list_agents_agrees_witness :
  FusionApi.list_agents
    {| md_agents := Some [("evaluator", VDict [("role", VStr "Judge")])];
       md_system_capabilities := None |}
    [("evaluator", {| type_name := "EvaluatorAgent"; run_async := None; run := None;
                      call := None |})]
  = (infos <- AgentLoaderInfo.list_available_agents
                {| AgentLoader.manifest_path := "agent_manifest.json";
                   AgentLoader.plugins_dir := "plugins";
                   AgentLoader.loaded_agents :=
                     [("evaluator", {| type_name := "EvaluatorAgent"; run_async := None;
                                       run := None; call := None |})];
                   AgentLoader.manifest_data_ :=
                     Some {| md_agents := Some [("evaluator", VDict [("role", VStr "Judge")])];
                             md_system_capabilities := None |} |} ;;
     ret [("agents", VDict infos);
          ("total_agents", VInt 1);
          ("system_capabilities", VDict [])]).
Proof.
  apply (X7_list_agents_agrees
           {| AgentLoader.manifest_path := "agent_manifest.json";
              AgentLoader.plugins_dir := "plugins";
              AgentLoader.loaded_agents :=
                [("evaluator", {| type_name := "EvaluatorAgent"; run_async := None;
                                  run := None; call := None |})];
              AgentLoader.manifest_data_ :=
                Some {| md_agents := Some [("evaluator", VDict [("role", VStr "Judge")])];
                        md_system_capabilities := None |} |}
           {| md_agents := Some [("evaluator", VDict [("role", VStr "Judge")])];
              md_system_capabilities := None |} eq_refl).
  intros name v [<- | []] [= <-]. now left.
Defined.

(** ** What [dispatch] hands back *)

Module DispatchResultFacts.

Lemma normalize_string (float_repr : spec_float -> string) (result : pyval) :
  is_string (Dispatcher.normalize float_repr result) = false <->
  exists entries v,
    result = VDict entries /\ selected_field entries = Some v /\ is_string v = false
    /\ Dispatcher.normalize float_repr result = v.
Proof.
  unfold Dispatcher.normalize, selected_field. split.
  - destruct result as [| | | | | | entries |]; try discriminate.
    destruct (PyDict.get "output" entries) as [v |] eqn:Hout.
    + intros Hnot. exists entries, v. now rewrite Hout.
    + destruct (PyDict.get "enhanced_output" entries) as [v |] eqn:Henh; [| discriminate].
      intros Hnot. exists entries, v. now rewrite Hout.
  - intros (entries & v & -> & Hsel & Hnot & Hnorm). now rewrite Hnorm.
Qed.

End DispatchResultFacts.

(** X8. [dispatch] is declared to return a [str], and for a handler that
    returns it does so except in one case: it hands back a value that is no
    string exactly when the handler was entered through [run_async] or [run]
    and returned a mapping whose [output] field (or, without one, whose
    [enhanced_output] field) is no string; that field's value is then what
    is returned. *)
Theorem X8_dispatch_result_not_a_string
  (float_repr : spec_float -> string)
  (self : Dispatcher.t) (agent_name : string) (agent : agent_handle)
  (input_text : pyval) (context : option (list (string * pyval)))
  (cap : capability) (result : pyval) :
  PyDict.get agent_name (Dispatcher.agents self) = Some agent ->
  Dispatcher.handler_outcome agent input_text context = Some (cap, Return result) ->
  exists out,
    Dispatcher.dispatch float_repr self agent_name input_text context
    = ([EInvoke agent_name cap input_text], Return out)
    /\ (is_string out = false <->
        cap <> CapCall
        /\ exists entries v,
             result = VDict entries /\ selected_field entries = Some v
             /\ is_string v = false /\ out = v).
Proof.
  intros Hreg Hout.
  rewrite (DispatcherFacts.dispatch_registered float_repr self agent_name agent
             input_text context Hreg), Hout.
  eexists. split; [reflexivity |].
  destruct cap.
  - rewrite DispatchResultFacts.normalize_string. split.
    + intros Hex. split; [discriminate | exact Hex].
    + now intros [_ Hex].
  - rewrite DispatchResultFacts.normalize_string. split.
    + intros Hex. split; [discriminate | exact Hex].
    + now intros [_ Hex].
  - split; [discriminate |]. now intros [Hcap _].
Qed.

Lemma X8_dispatch_result_not_a_string_witness :
  exists out,
    Dispatcher.dispatch (fun _ => "")
      {| Dispatcher.agents :=
           [("market_analyst",
             {| type_name := "MarketAnalystAgent"; run_async := None;
                run := Some (fun _ _ => Return (VDict [("output", VList [VStr "a"; VStr "b"])]));
                call := None |})] |}
      "market_analyst" (VStr "Trends") None
    = ([EInvoke "market_analyst" CapRun (VStr "Trends")], Return out)
    /\ (is_string out = false <->
        CapRun <> CapCall
        /\ exists entries v,
             VDict [("output", VList [VStr "a"; VStr "b"])] = VDict entries
             /\ selected_field entries = Some v
             /\ is_string v = false /\ out = v).
Proof.
  exact (X8_dispatch_result_not_a_string (fun _ => "")
           {| Dispatcher.agents :=
                [("market_analyst",
                  {| type_name := "MarketAnalystAgent"; run_async := None;
                     run := Some (fun _ _ =>
                                    Return (VDict [("output", VList [VStr "a"; VStr "b"])]));
                     call := None |})] |}
           "market_analyst" _ (VStr "Trends") None CapRun _ eq_refl eq_refl).
Defined.

(** X9. A registered object with none of the three entry points ([run_async],
    [run], the direct call): [dispatch] fails inside its [try] block with the
    [TypeError] of calling a non-callable, logs it like a handler's error and
    raises it; nothing was invoked. *)
Theorem X9_dispatch_without_entry_point
  (float_repr : spec_float -> string)
  (self : Dispatcher.t) (agent_name : string) (agent : agent_handle)
  (input_text : pyval) (context : option (list (string * pyval))) :
  PyDict.get agent_name (Dispatcher.agents self) = Some agent ->
  run_async agent = None -> run agent = None -> call agent = None ->
  let e := Exn TypeError (PyStr.repr (type_name agent) +:+ " object is not callable") in
  Dispatcher.dispatch float_repr self agent_name input_text context
  = ([ELogError "Dispatcher" ("Error dispatching to " +:+ agent_name +:+ ": " +:+ exn_str e)],
     Raise e)
  /\ no_invocation (trace_of (Dispatcher.dispatch float_repr self agent_name input_text context)).
Proof.
  intros Hreg Hasync Hrun Hcall e.
  rewrite (DispatcherFacts.dispatch_registered float_repr self agent_name agent
             input_text context Hreg).
  unfold Dispatcher.handler_outcome. rewrite Hasync, Hrun, Hcall.
  split; [reflexivity |]. cbv. repeat constructor.
Qed.

Lemma X9_dispatch_without_entry_point_witness :
  Dispatcher.dispatch (fun _ => "")
    {| Dispatcher.agents :=
         [("notes", {| type_name := "Notes"; run_async := None; run := None;
                       call := None |})] |}
    "notes" (VStr "hello") None
  = ([ELogError "Dispatcher" "Error dispatching to notes: 'Notes' object is not callable"],
     Raise (Exn TypeError "'Notes' object is not callable")).
Proof.
  destruct (X9_dispatch_without_entry_point (fun _ => "")
              {| Dispatcher.agents :=
                   [("notes", {| type_name := "Notes"; run_async := None; run := None;
                                 call := None |})] |}
              "notes" _ (VStr "hello") None eq_refl eq_refl eq_refl eq_refl) as [Hrun _].
  exact Hrun.
Defined.

(** ** [Orchestrator.rewrite] *)

Module RewriteFacts.
Import OrchestratorRewrite.

Section WithRuntime.
Variable float_repr : spec_float -> string.
Variable prompt_master : string -> result pyval.

(** The body of the [try] block on a mapping, once [shared_state] is known
    to be a mapping too. *)
Lemma rewrite_mapping prompt entries state :
  prompt_master prompt = Return (VDict entries) ->
  default (VDict []) (PyDict.get "shared_state" entries) = VDict state ->
  rewrite float_repr prompt_master prompt
  = ([], Return
           (let rewritten := default VNone (PyDict.get "rewritten_prompt" state) in
            if py_truthy rewritten then rewritten
            else default (default (VStr prompt) (PyDict.get "output" entries))
                   (PyDict.get "enhanced_output" entries))).
Proof.
  intros Hrun Hstate. unfold rewrite, lift. rewrite Hrun. cbn [bind py_get].
  change (match PyDict.get "shared_state" entries with
          | Some x => x
          | None => VDict []
          end) with (default (VDict []) (PyDict.get "shared_state" entries)).
  rewrite Hstate. cbn.
  destruct (PyDict.get "rewritten_prompt" state) as [r |]; cbn.
  - destruct (py_truthy r); [reflexivity |].
    destruct (PyDict.get "output" entries), (PyDict.get "enhanced_output" entries);
      reflexivity.
  - destruct (PyDict.get "output" entries), (PyDict.get "enhanced_output" entries);
      reflexivity.
Qed.

Lemma rewrite_bad_shared_state prompt entries state :
  prompt_master prompt = Return (VDict entries) ->
  PyDict.get "shared_state" entries = Some state ->
  dict_entries state = None ->
  exists e,
    isinstance e AttributeError = true
    /\ rewrite float_repr prompt_master prompt = ([ELogError "Orchestrator" ("Prompt rewriting failed: " +:+ exn_str e)], Return (VStr prompt)).
Proof.
  intros Hrun Hstate Hnot. unfold rewrite, lift. rewrite Hrun. cbn [bind py_get].
  rewrite Hstate.
  exists (Exn AttributeError
            (PyStr.repr (py_type_name state) +:+ " object has no attribute 'get'")).
  split; [reflexivity |].
  destruct state; try discriminate; reflexivity.
Qed.

Lemma rewrite_total prompt :
  (exists v, rewrite float_repr prompt_master prompt = ([], Return v))
  \/ (exists e, rewrite float_repr prompt_master prompt
                = ([ELogError "Orchestrator" ("Prompt rewriting failed: " +:+ exn_str e)], Return (VStr prompt))).
Proof.
  destruct (prompt_master prompt) as [result | e] eqn:Hrun.
  - destruct (dict_entries result) as [entries |] eqn:Hdict.
    + destruct result; try discriminate. injection Hdict as ->.
      destruct (dict_entries (default (VDict []) (PyDict.get "shared_state" entries)))
        as [state |] eqn:Hstate.
      * left. eexists. apply (rewrite_mapping prompt entries state Hrun).
        destruct (default _ _); try discriminate. now injection Hstate as ->.
      * right. destruct (PyDict.get "shared_state" entries) as [state |] eqn:Hget;
          [| discriminate].
        destruct (rewrite_bad_shared_state prompt entries state Hrun Hget Hstate)
          as (e & _ & Hrewrite).
        eauto.
    + left. unfold rewrite, lift. rewrite Hrun.
      destruct result; try discriminate; cbn; eauto.
  - right. exists e. unfold rewrite, lift. rewrite Hrun. reflexivity.
Qed.

End WithRuntime.

End RewriteFacts.

(** X10. [Orchestrator.rewrite] never raises: either it returns a value
    and logs nothing itself, or it logs one line "Prompt rewriting
    failed: ..." to the "Orchestrator" logger and returns the prompt it was
    given, unchanged; the latter is what happens whenever PromptMaster
    raises. *)
Theorem X10_rewrite_never_raises
  (float_repr : spec_float -> string) (prompt_master : string -> result pyval)
  (prompt : string) :
  ((exists v, OrchestratorRewrite.rewrite float_repr prompt_master prompt = ([], Return v))
   \/ (exists e,
         OrchestratorRewrite.rewrite float_repr prompt_master prompt
         = ([ELogError "Orchestrator" ("Prompt rewriting failed: " +:+ exn_str e)],
            Return (VStr prompt))))
  /\ (forall e,
        prompt_master prompt = Raise e ->
        OrchestratorRewrite.rewrite float_repr prompt_master prompt
        = ([ELogError "Orchestrator" ("Prompt rewriting failed: " +:+ exn_str e)],
           Return (VStr prompt))).
Proof.
  split; [apply RewriteFacts.rewrite_total |].
  intros e Hrun. unfold OrchestratorRewrite.rewrite, lift. now rewrite Hrun.
Qed.

(** X11. The order in which [Orchestrator.rewrite] reads the mapping
    PromptMaster returns, when [shared_state] is absent or a mapping: a
    [rewritten_prompt] of the shared state that is not empty wins; else the
    mapping's [enhanced_output]; else its [output]; else the prompt itself.
    A [shared_state] that is no mapping makes it log the failure and return
    the prompt, whatever else the mapping holds. *)
Theorem X11_rewrite_precedence
  (float_repr : spec_float -> string) (prompt_master : string -> result pyval)
  (prompt : string) (entries : list (string * pyval)) :
  prompt_master prompt = Return (VDict entries) ->
  (forall state,
     default (VDict []) (PyDict.get "shared_state" entries) = VDict state ->
     (forall r,
        PyDict.get "rewritten_prompt" state = Some r -> py_truthy r = true ->
        OrchestratorRewrite.rewrite float_repr prompt_master prompt = ([], Return r))
     /\ ((forall r, PyDict.get "rewritten_prompt" state = Some r -> py_truthy r = false) ->
         (forall v,
            PyDict.get "enhanced_output" entries = Some v ->
            OrchestratorRewrite.rewrite float_repr prompt_master prompt = ([], Return v))
         /\ (forall v,
               PyDict.get "enhanced_output" entries = None ->
               PyDict.get "output" entries = Some v ->
               OrchestratorRewrite.rewrite float_repr prompt_master prompt = ([], Return v))
         /\ (PyDict.get "enhanced_output" entries = None ->
             PyDict.get "output" entries = None ->
             OrchestratorRewrite.rewrite float_repr prompt_master prompt
             = ([], Return (VStr prompt)))))
  /\ (forall state,
        PyDict.get "shared_state" entries = Some state -> dict_entries state = None ->
        exists e,
          isinstance e AttributeError = true
          /\ OrchestratorRewrite.rewrite float_repr prompt_master prompt
             = ([ELogError "Orchestrator" ("Prompt rewriting failed: " +:+ exn_str e)],
                Return (VStr prompt))).
Proof.
  intros Hrun. split.
  - intros state Hstate.
    rewrite (RewriteFacts.rewrite_mapping float_repr prompt_master prompt entries state
               Hrun Hstate).
    cbv zeta. split.
    + intros r -> Htruthy. cbn. now rewrite Htruthy.
    + intros Hfalsy.
      assert (Hno : py_truthy (default VNone (PyDict.get "rewritten_prompt" state)) = false).
      { destruct (PyDict.get "rewritten_prompt" state) as [r |]; [now apply Hfalsy |].
        reflexivity. }
      rewrite Hno. repeat split.
      * now intros v ->.
      * now intros v -> ->.
      * now intros -> ->.
  - intros state Hget Hnot.
    apply (RewriteFacts.rewrite_bad_shared_state float_repr prompt_master prompt entries
             state Hrun Hget Hnot).
Qed.

Lemma X11_rewrite_precedence_witness :
  OrchestratorRewrite.rewrite (fun _ => "")
    (fun _ => Return (VDict [("output", VStr "plain");
                             ("shared_state", VDict [("rewritten_prompt", VStr "")]);
                             ("enhanced_output", VStr "rich")]))
    "Sketch a login page"
  = ([], Return (VStr "rich")).
Proof.
  destruct (X11_rewrite_precedence (fun _ => "")
              (fun _ => Return (VDict [("output", VStr "plain");
                                       ("shared_state", VDict [("rewritten_prompt", VStr "")]);
                                       ("enhanced_output", VStr "rich")]))
              "Sketch a login page" _ eq_refl) as [Hmapping _].
  destruct (Hmapping [("rewritten_prompt", VStr "")] eq_refl) as [_ Hrest].
  destruct Hrest as [Henhanced _].
  - intros r [= <-]. reflexivity.
  - exact (Henhanced (VStr "rich") eq_refl).
Defined.

(** X12. [Orchestrator.rewrite] and [dispatch] read the same kind of mapping
    in opposite orders: for a mapping with both an [output] and an
    [enhanced_output] field and no shared state, [rewrite] returns the
    [enhanced_output] while [dispatch], for a handler entered through
    [run_async] or [run] that returns this mapping, returns the [output]. *)
Theorem X12_rewrite_and_dispatch_read_opposite_fields
  (float_repr : spec_float -> string) (prompt_master : string -> result pyval)
  (prompt : string) (entries : list (string * pyval)) (plain rich : pyval)
  (self : Dispatcher.t) (agent_name : string) (agent : agent_handle)
  (input_text : pyval) (context : option (list (string * pyval))) (cap : capability) :
  PyDict.get "shared_state" entries = None ->
  PyDict.get "output" entries = Some plain ->
  PyDict.get "enhanced_output" entries = Some rich ->
  prompt_master prompt = Return (VDict entries) ->
  PyDict.get agent_name (Dispatcher.agents self) = Some agent ->
  Dispatcher.handler_outcome agent input_text context = Some (cap, Return (VDict entries)) ->
  cap <> CapCall ->
  OrchestratorRewrite.rewrite float_repr prompt_master prompt = ([], Return rich)
  /\ Dispatcher.dispatch float_repr self agent_name input_text context
     = ([EInvoke agent_name cap input_text], Return plain).
Proof.
  intros Hstate Hplain Hrich Hrun Hreg Hout Hcap. split.
  - rewrite (RewriteFacts.rewrite_mapping float_repr prompt_master prompt entries []
               Hrun); [| now rewrite Hstate].
    cbn. now rewrite Hrich.
  - rewrite (DispatcherFacts.dispatch_registered float_repr self agent_name agent
               input_text context Hreg), Hout.
    unfold Dispatcher.normalize. rewrite Hplain.
    destruct cap; [reflexivity | reflexivity | contradiction].
Qed.

Lemma X12_rewrite_and_dispatch_read_opposite_fields_witness :
  OrchestratorRewrite.rewrite (fun _ => "")
    (fun _ => Return (VDict [("output", VStr "plain"); ("enhanced_output", VStr "rich")]))
    "Sketch a login page"
  = ([], Return (VStr "rich"))
  /\ Dispatcher.dispatch (fun _ => "")
       {| Dispatcher.agents :=
            [("prompt_master",
              {| type_name := "PromptMasterAgent";
                 run_async :=
                   Some (fun _ _ => Return (VDict [("output", VStr "plain");
                                                   ("enhanced_output", VStr "rich")]));
                 run := None; call := None |})] |}
       "prompt_master" (VStr "Sketch a login page") None
     = ([EInvoke "prompt_master" CapRunAsync (VStr "Sketch a login page")],
        Return (VStr "plain")).
Proof.
  apply (X12_rewrite_and_dispatch_read_opposite_fields (fun _ => "")
           (fun _ => Return (VDict [("output", VStr "plain");
                                    ("enhanced_output", VStr "rich")]))
           "Sketch a login page"
           [("output", VStr "plain"); ("enhanced_output", VStr "rich")]
           (VStr "plain") (VStr "rich")
           {| Dispatcher.agents :=
                [("prompt_master",
                  {| type_name := "PromptMasterAgent";
                     run_async :=
                       Some (fun _ _ => Return (VDict [("output", VStr "plain");
                                                       ("enhanced_output", VStr "rich")]));
                     run := None; call := None |})] |}
           "prompt_master"
           {| type_name := "PromptMasterAgent";
              run_async :=
                Some (fun _ _ => Return (VDict [("output", VStr "plain");
                                                ("enhanced_output", VStr "rich")]));
              run := None; call := None |}
           (VStr "Sketch a login page") None CapRunAsync);
    try reflexivity.
  discriminate.
Defined.

(** X13. [Orchestrator.select_agent] and the orchestrator's
    [agent_routing] table, which it does not read, agree by their
    literals: the agent selected for a prompt is the first agent of the
    table's list for the first category a marker word of which the prompt
    contains ("design", "strategy", "technical", "content", "evaluation"),
    and the first agent of the list for "general" when no marker word
    matches. *)
Theorem X13_select_agent_in_routing_table (str_lower : string -> string) (prompt : string) :
  (forall c,
     Orchestrator.matches (str_lower prompt) c = true ->
     (forall c', (Orchestrator.rank c' < Orchestrator.rank c)%nat ->
                 Orchestrator.matches (str_lower prompt) c' = false) ->
     exists agents,
       PyDict.get (routing_pattern c) OrchestratorRewrite.agent_routing = Some agents
       /\ List.head agents = Some (Orchestrator.select_agent str_lower prompt))
  /\ ((forall c, Orchestrator.matches (str_lower prompt) c = false) ->
      exists agents,
        PyDict.get "general" OrchestratorRewrite.agent_routing = Some agents
        /\ List.head agents = Some (Orchestrator.select_agent str_lower prompt)).
Proof.
  split.
  - intros c Hmatch Hfirst.
    rewrite (OrchestratorFacts.select_agent_first_match str_lower prompt c Hmatch Hfirst).
    destruct c; eexists; split; reflexivity.
  - intros Hnone.
    rewrite (OrchestratorFacts.select_agent_no_match str_lower prompt Hnone).
    eexists. split; reflexivity.
Qed.

(** ** The prompt service: failures and reports *)

Module ServiceFacts.

(** An [except Exception] whose handler always raises the wrapped
    exception: whatever is raised is a wrapped one. *)
Lemma try_except_wraps {A} (m : M A) (wrap : py_exn -> py_exn) (e : py_exn) :
  result_of (try_except m any_exception (fun e0 => raise (wrap e0))) = Raise e ->
  exists e0, result_of m = Raise e0 /\ e = wrap e0.
Proof.
  destruct m as [t [a | e0]]; cbn; [discriminate |].
  intros [= <-]. eauto.
Qed.

Lemma SFcompare_some (a b : spec_float) :
  a <> S754_nan -> b <> S754_nan -> SFcompare a b <> None.
Proof.
  destruct a as [sa | sa | | sa ma ea], b as [sb | sb | | sb mb eb]; simpl;
    intros Ha Hb; try congruence;
    repeat match goal with
           | |- context [if ?s then _ else _] => destruct s
           | |- context [match ?c with Eq => _ | Lt => _ | Gt => _ end] => destruct c
           end; discriminate.
Qed.

(** Away from NaN, [c < t] is the negation of [c >= t]. *)
Lemma float_lt_negb_ge (c threshold : spec_float) :
  c <> S754_nan -> threshold <> S754_nan ->
  PromptOrchestratorMore.float_lt c threshold
  = negb (PromptOrchestrator.float_ge c threshold).
Proof.
  intros Hc Ht. unfold PromptOrchestratorMore.float_lt, PromptOrchestrator.float_ge,
    SFltb, SFleb.
  rewrite (FloatFacts.SFcompare_swap c threshold).
  pose proof (SFcompare_some c threshold Hc Ht) as Hsome.
  destruct (SFcompare c threshold) as [[ | | ] |]; simpl; congruence.
Qed.

Lemma in_firstn {A} (n : nat) (l : list A) (a : A) : In a (firstn n l) -> In a l.
Proof.
  revert l. induction n as [| n IH]; intros [| b l]; cbn; try tauto.
  intros [-> | Hin]; [now left | right; now apply IH].
Qed.

End ServiceFacts.

(** X14. The failures of the [/route] endpoint, on PromptMaster results
    whose fields have the types the endpoint reads them at. It fails in two
    cases only, each time with an [HTTPException] of status 500 whose
    detail starts with "Agent routing failed: ": when PromptMaster raises,
    and when its result reports an error, whose own 500 is caught by the
    endpoint's handler and wrapped again, status included. In particular
    taking the first suggested agent never fails. *)
Theorem X14_route_agent_failures
  (format_2f : spec_float -> string)
  (prompt_master : string -> result PromptOrchestrator.analysis)
  (req : PromptOrchestrator.AgentRouteRequest) (e : py_exn) :
  result_of (PromptOrchestrator.route_agent format_2f prompt_master req) = Raise e <->
  (exists e0,
     prompt_master (PromptOrchestrator.prompt req) = Raise e0
     /\ e = HTTPException 500 ("Agent routing failed: " +:+ exn_str e0))
  \/ (exists result detail,
        prompt_master (PromptOrchestrator.prompt req) = Return result
        /\ PromptOrchestrator.an_error result = Some detail
        /\ e = HTTPException 500
                 ("Agent routing failed: " +:+ exn_str (HTTPException 500 detail))).
Proof.
  unfold PromptOrchestrator.route_agent, lift.
  destruct (prompt_master (PromptOrchestrator.prompt req)) as [result | e0] eqn:Hrun.
  - cbn [bind]. destruct (PromptOrchestrator.an_error result) as [detail |] eqn:Herr.
    + cbn. split.
      * intros [= <-]. right. eauto.
      * intros [(e1 & [=] & _) | (result' & detail' & [= <-] & Hdetail & ->)].
        congruence.
    + destruct (PromptOrchestrator.suggested_agents_of result) as [| first rest];
        [| destruct (PromptOrchestrator.float_ge _ _)];
        cbn; (split; [discriminate |]);
        intros [(e1 & [=] & _) | (result' & detail' & [= <-] & Hdetail & _)];
        congruence.
  - cbn. split.
    + intros [= <-]. left. eauto.
    + intros [(e1 & [= <-] & ->) | (result' & detail' & [=] & _)]. reflexivity.
Qed.

(** X15. What [/route] reports and what it does can differ: with a
    confidence at or above the threshold but no suggested agent, the agent
    and the alternatives are the fallback ones (the pattern's default, and
    the fixed pair), while the reasoning reads "High confidence routing to
    specialized agents.". The report follows the confidence alone. *)
Theorem X15_route_reasoning_follows_confidence_alone
  (format_2f : spec_float -> string)
  (prompt_master : string -> result PromptOrchestrator.analysis)
  (req : PromptOrchestrator.AgentRouteRequest) (result : PromptOrchestrator.analysis) :
  prompt_master (PromptOrchestrator.prompt req) = Return result ->
  PromptOrchestrator.an_error result = None ->
  PromptOrchestrator.suggested_agents_of result = [] ->
  PromptOrchestrator.float_ge (PromptOrchestrator.confidence_of result)
    (PromptOrchestrator.confidence_threshold req) = true ->
  PromptOrchestrator.route_agent format_2f prompt_master req
  = ([], Return
           {| PromptOrchestrator.recommended_agent :=
                default "evaluator"
                  (PyDict.get (PromptOrchestrator.pattern_type_of result)
                     PromptOrchestrator.pattern_defaults);
              PromptOrchestrator.confidence := PromptOrchestrator.confidence_of result;
              PromptOrchestrator.alternatives := ["vp_design"; "creative_director"];
              PromptOrchestrator.reasoning :=
                ("Pattern '" +:+ PromptOrchestrator.pattern_type_of result
                 +:+ "' detected with "
                 +:+ format_2f (PromptOrchestrator.confidence_of result)
                 +:+ " confidence. ")
                +:+ "High confidence routing to specialized agents." |}).
Proof.
  intros Hrun Herr Hsug Hge. unfold PromptOrchestrator.route_agent, lift.
  rewrite Hrun. cbn [bind]. rewrite Herr, Hsug, Hge. reflexivity.
Qed.

Lemma X15_route_reasoning_follows_confidence_alone_witness :
  PromptOrchestrator.route_agent (fun _ => "0.90")
    (fun _ =>
       Return {| PromptOrchestrator.an_error := None;
                 PromptOrchestrator.an_shared_state :=
                   Some {| PromptOrchestrator.ss_suggested_agents := Some [];
                           PromptOrchestrator.ss_pattern_type := Some "content_focused" |};
                 PromptOrchestrator.an_confidence :=
                   Some (S754_finite false 8106479329266893 (-53)) |})
    (PromptOrchestrator.default_request "Write the release notes")
  = ([], Return
           {| PromptOrchestrator.recommended_agent := "content_designer";
              PromptOrchestrator.confidence := S754_finite false 8106479329266893 (-53);
              PromptOrchestrator.alternatives := ["vp_design"; "creative_director"];
              PromptOrchestrator.reasoning :=
                "Pattern 'content_focused' detected with 0.90 confidence. "
                +:+ "High confidence routing to specialized agents." |}).
Proof.
  exact (X15_route_reasoning_follows_confidence_alone (fun _ => "0.90")
           (fun _ =>
              Return {| PromptOrchestrator.an_error := None;
                        PromptOrchestrator.an_shared_state :=
                          Some {| PromptOrchestrator.ss_suggested_agents := Some [];
                                  PromptOrchestrator.ss_pattern_type :=
                                    Some "content_focused" |};
                        PromptOrchestrator.an_confidence :=
                          Some (S754_finite false 8106479329266893 (-53)) |})
           (PromptOrchestrator.default_request "Write the release notes")
           _ eq_refl eq_refl eq_refl eq_refl).
Defined.

(** X16. The shape of every answer of [/route]: the confidence is the
    analysis's; the recommended agent is one of the suggested agents or one
    of the five agents of the table of pattern defaults; there are at most
    two alternatives, each a suggested agent or one of the fixed pair. *)
Theorem X16_route_answer_shape
  (format_2f : spec_float -> string)
  (prompt_master : string -> result PromptOrchestrator.analysis)
  (req : PromptOrchestrator.AgentRouteRequest) (response : PromptOrchestrator.AgentRouteResponse)
  (t : list event) :
  PromptOrchestrator.route_agent format_2f prompt_master req = (t, Return response) ->
  exists result,
    prompt_master (PromptOrchestrator.prompt req) = Return result
    /\ PromptOrchestrator.confidence response = PromptOrchestrator.confidence_of result
    /\ (In (PromptOrchestrator.recommended_agent response)
          (PromptOrchestrator.suggested_agents_of result)
        \/ In (PromptOrchestrator.recommended_agent response)
             (List.map snd PromptOrchestrator.pattern_defaults))
    /\ (length (PromptOrchestrator.alternatives response) <= 2)%nat
    /\ (forall name,
          In name (PromptOrchestrator.alternatives response) ->
          In name (PromptOrchestrator.suggested_agents_of result)
          \/ In name ["vp_design"; "creative_director"]).
Proof.
  unfold PromptOrchestrator.route_agent, lift.
  destruct (prompt_master (PromptOrchestrator.prompt req)) as [result | e0] eqn:Hrun;
    [| discriminate].
  cbn [bind]. destruct (PromptOrchestrator.an_error result) as [detail |]; [discriminate |].
  assert (Hdefault : In (default "evaluator"
                           (PyDict.get (PromptOrchestrator.pattern_type_of result)
                              PromptOrchestrator.pattern_defaults))
                       (List.map snd PromptOrchestrator.pattern_defaults)).
  { unfold PromptOrchestrator.pattern_defaults. cbn [PyDict.get].
    repeat match goal with
           | |- context [String.eqb ?a ?b] => destruct (String.eqb a b)
           end; cbn; auto 10. }
  destruct (PromptOrchestrator.suggested_agents_of result) as [| first rest] eqn:Hsug.
  - cbn. intros [= <- <-]. exists result. cbn. repeat split; auto.
  - destruct (PromptOrchestrator.float_ge _ _); cbn; intros [= <- <-]; exists result;
      rewrite Hsug; cbn.
    + split; [reflexivity |]. split; [reflexivity |]. split; [left; apply List.in_eq |]. split.
      * unfold PromptOrchestrator.slice_1_3. cbn [skipn].
        rewrite List.length_firstn. lia.
      * intros name Hin. left. apply List.in_cons.
        unfold PromptOrchestrator.slice_1_3 in Hin. cbn [skipn] in Hin.
        now apply (ServiceFacts.in_firstn 2).
    + repeat split; auto.
Qed.

Lemma X16_route_answer_shape_witness :
  exists result,
    (fun _ : string =>
       Return {| PromptOrchestrator.an_error := None;
                 PromptOrchestrator.an_shared_state :=
                   Some {| PromptOrchestrator.ss_suggested_agents :=
                             Some ["a"; "b"; "c"; "d"];
                           PromptOrchestrator.ss_pattern_type := None |};
                 PromptOrchestrator.an_confidence :=
                   Some (S754_finite false 8106479329266893 (-53)) |})
      "Plan the quarter"
    = Return result
    /\ (length ["b"; "c"] <= 2)%nat.
Proof.
  destruct (X16_route_answer_shape (fun _ => "0.90")
              (fun _ =>
                 Return {| PromptOrchestrator.an_error := None;
                           PromptOrchestrator.an_shared_state :=
                             Some {| PromptOrchestrator.ss_suggested_agents :=
                                       Some ["a"; "b"; "c"; "d"];
                                     PromptOrchestrator.ss_pattern_type := None |};
                           PromptOrchestrator.an_confidence :=
                             Some (S754_finite false 8106479329266893 (-53)) |})
              (PromptOrchestrator.default_request "Plan the quarter")
              _ [] eq_refl) as (result & Hrun & _ & _ & Hlen & _).
  exists result. split; [exact Hrun | exact Hlen].
Defined.

(** X17. The [/rewrite] endpoint, on PromptMaster results whose fields
    have the types of the response model. Every failure is an [HTTPException] of
    status 500 whose detail starts with "Prompt rewriting failed: ", raised
    when PromptMaster raises or when its result reports an error (whose own
    500 is wrapped again). Otherwise the answer echoes the request's prompt
    as [original_prompt], and its [rewritten_prompt] is the one of the
    shared state, or the request's prompt when the shared state holds none:
    without a rewrite the endpoint is the identity on the prompt. *)
Theorem X17_rewrite_prompt_endpoint
  (prompt_master : string -> option (list (string * pyval))
                   -> result PromptOrchestratorMore.rewrite_analysis)
  (elapsed : spec_float) (req : PromptOrchestratorMore.PromptRequest) :
  trace_of (PromptOrchestratorMore.rewrite_prompt prompt_master elapsed req) = []
  /\ (forall e,
        result_of (PromptOrchestratorMore.rewrite_prompt prompt_master elapsed req) = Raise e <->
        (exists e0,
           prompt_master (PromptOrchestratorMore.pq_prompt req)
             (PromptOrchestratorMore.pq_context req) = Raise e0
           /\ e = HTTPException 500 ("Prompt rewriting failed: " +:+ exn_str e0))
        \/ (exists result detail,
              prompt_master (PromptOrchestratorMore.pq_prompt req)
                (PromptOrchestratorMore.pq_context req) = Return result
              /\ PromptOrchestratorMore.ra_error result = Some detail
              /\ e = HTTPException 500
                       ("Prompt rewriting failed: " +:+ exn_str (HTTPException 500 detail))))
  /\ (forall response,
        result_of (PromptOrchestratorMore.rewrite_prompt prompt_master elapsed req)
        = Return response ->
        PromptOrchestratorMore.original_prompt response = PromptOrchestratorMore.pq_prompt req
        /\ exists result,
             prompt_master (PromptOrchestratorMore.pq_prompt req)
               (PromptOrchestratorMore.pq_context req) = Return result
             /\ (forall state rewritten,
                   PromptOrchestratorMore.ra_shared_state result = Some state ->
                   PromptOrchestratorMore.rs_rewritten_prompt state = Some rewritten ->
                   PromptOrchestratorMore.rewritten_prompt response = rewritten)
             /\ (PromptOrchestratorMore.ra_shared_state result = None
                 \/ (exists state,
                       PromptOrchestratorMore.ra_shared_state result = Some state
                       /\ PromptOrchestratorMore.rs_rewritten_prompt state = None) ->
                 PromptOrchestratorMore.rewritten_prompt response
                 = PromptOrchestratorMore.pq_prompt req)).
Proof.
  unfold PromptOrchestratorMore.rewrite_prompt, lift.
  destruct (prompt_master (PromptOrchestratorMore.pq_prompt req)
              (PromptOrchestratorMore.pq_context req)) as [result | e0] eqn:Hrun.
  - cbn [bind]. destruct (PromptOrchestratorMore.ra_error result) as [detail |] eqn:Herr.
    + cbn. split; [reflexivity |]. split; [| discriminate]. intros e. split.
      * intros [= <-]. right. eauto.
      * intros [(e1 & [=] & _) | (result' & detail' & [= <-] & Hdetail & ->)].
        congruence.
    + cbn. split; [reflexivity |]. split.
      * intros e. split; [discriminate |].
        intros [(e1 & [=] & _) | (result' & detail' & [= <-] & Hdetail & _)]. congruence.
      * intros response [= <-]. cbn. split; [reflexivity |].
        exists result. split; [reflexivity |]. split.
        -- intros state rewritten Hstate Hrewritten.
           rewrite Hstate. cbn. now rewrite Hrewritten.
        -- intros [Hstate | (state & Hstate & Hrewritten)]; rewrite Hstate; cbn;
             [reflexivity | now rewrite Hrewritten].
  - cbn. split; [reflexivity |]. split; [| discriminate]. intros e. split.
    + intros [= <-]. left. eauto.
    + intros [(e1 & [= <-] & ->) | (result' & detail' & [=] & _)]. reflexivity.
Qed.

(** X18. [/analyze] and [/route] agree on the fallback. When both see the
    same confidence, which is a number, and the same suggested agents, of
    which there is at least one: an answer of [/analyze] with
    [fallback_needed] true goes with a [/route] answer (at the default
    threshold 0.7) from the fallback table, and one with [fallback_needed]
    false with a [/route] answer that recommends the first suggested
    agent. *)
Theorem X18_analyze_agrees_with_route
  (format_2f : spec_float -> string)
  (prompt_master : string -> result PromptOrchestrator.analysis)
  (analyze_pattern : string -> result (string * spec_float * list string))
  (get_memory_insights : string -> result PromptOrchestratorMore.insights_t)
  (req : PromptOrchestratorMore.PromptRequest)
  (result : PromptOrchestrator.analysis)
  (pattern : string) (confidence : spec_float) (first : string) (rest : list string)
  (insights : PromptOrchestratorMore.insights_t) :
  analyze_pattern (PromptOrchestratorMore.pq_prompt req)
  = Return (pattern, confidence, first :: rest) ->
  get_memory_insights (PromptOrchestratorMore.pq_prompt req) = Return insights ->
  prompt_master (PromptOrchestratorMore.pq_prompt req) = Return result ->
  PromptOrchestrator.an_error result = None ->
  PromptOrchestrator.confidence_of result = confidence ->
  PromptOrchestrator.suggested_agents_of result = first :: rest ->
  confidence <> S754_nan ->
  exists analysed routed,
    PromptOrchestratorMore.analyze_prompt analyze_pattern get_memory_insights req
    = ([], Return analysed)
    /\ PromptOrchestrator.route_agent format_2f prompt_master
         (PromptOrchestrator.default_request (PromptOrchestratorMore.pq_prompt req))
       = ([], Return routed)
    /\ (PromptOrchestratorMore.az_fallback_needed analysed = true ->
        PromptOrchestrator.recommended_agent routed
        = default "evaluator"
            (PyDict.get (PromptOrchestrator.pattern_type_of result)
               PromptOrchestrator.pattern_defaults)
        /\ PromptOrchestrator.alternatives routed = ["vp_design"; "creative_director"])
    /\ (PromptOrchestratorMore.az_fallback_needed analysed = false ->
        PromptOrchestrator.recommended_agent routed = first
        /\ PromptOrchestrator.alternatives routed = firstn 2 rest).
Proof.
  intros Hpattern Hinsights Hrun Herr Hconf Hsug Hnan.
  unfold PromptOrchestratorMore.analyze_prompt, lift.
  rewrite Hpattern. cbn [bind]. rewrite Hinsights. cbn [bind try_except ret app fst snd].
  rewrite (ServiceFacts.float_lt_negb_ge confidence PromptOrchestrator.float_0_7 Hnan)
    by discriminate.
  destruct (PromptOrchestrator.float_ge confidence PromptOrchestrator.float_0_7) eqn:Hge.
  - destruct (RouteFacts.route_agent_confident format_2f prompt_master
                (PromptOrchestrator.default_request (PromptOrchestratorMore.pq_prompt req))
                result first rest Hrun Herr Hsug) as [reasoning Hroute].
    { now rewrite Hconf. }
    do 2 eexists. split; [reflexivity |]. split; [exact Hroute |].
    cbn. split; [discriminate | now split].
  - destruct (RouteFacts.route_agent_default format_2f prompt_master
                (PromptOrchestrator.default_request (PromptOrchestratorMore.pq_prompt req))
                result Hrun Herr) as [reasoning Hroute].
    { right. now rewrite Hconf. }
    do 2 eexists. split; [reflexivity |]. split; [exact Hroute |].
    cbn. split; [now split | discriminate].
Qed.

Lemma X18_analyze_agrees_with_route_witness :
  exists analysed routed,
    PromptOrchestratorMore.analyze_prompt
      (fun _ => Return ("design_focused", PromptOrchestrator.float_0_7,
                        ["vp_design"; "principal_designer"]))
      (fun _ => Return {| PromptOrchestratorMore.similar_prompts := [];
                          PromptOrchestratorMore.successful_patterns := [];
                          PromptOrchestratorMore.fallback_triggers := [] |})
      {| PromptOrchestratorMore.pq_prompt := "Sketch a login page";
         PromptOrchestratorMore.pq_context := None;
         PromptOrchestratorMore.pq_agent_preference := None;
         PromptOrchestratorMore.pq_use_memory := true;
         PromptOrchestratorMore.pq_use_fallback := true |}
    = ([], Return analysed)
    /\ PromptOrchestrator.route_agent (fun _ => "0.70")
         (fun _ =>
            Return {| PromptOrchestrator.an_error := None;
                      PromptOrchestrator.an_shared_state :=
                        Some {| PromptOrchestrator.ss_suggested_agents :=
                                  Some ["vp_design"; "principal_designer"];
                                PromptOrchestrator.ss_pattern_type := Some "design_focused" |};
                      PromptOrchestrator.an_confidence := Some PromptOrchestrator.float_0_7 |})
         (PromptOrchestrator.default_request "Sketch a login page")
       = ([], Return routed)
    /\ (PromptOrchestratorMore.az_fallback_needed analysed = false ->
        PromptOrchestrator.recommended_agent routed = "vp_design"
        /\ PromptOrchestrator.alternatives routed = ["principal_designer"]).
Proof.
  destruct (X18_analyze_agrees_with_route (fun _ => "0.70")
              (fun _ =>
                 Return {| PromptOrchestrator.an_error := None;
                           PromptOrchestrator.an_shared_state :=
                             Some {| PromptOrchestrator.ss_suggested_agents :=
                                       Some ["vp_design"; "principal_designer"];
                                     PromptOrchestrator.ss_pattern_type :=
                                       Some "design_focused" |};
                           PromptOrchestrator.an_confidence :=
                             Some PromptOrchestrator.float_0_7 |})
              (fun _ => Return ("design_focused", PromptOrchestrator.float_0_7,
                                ["vp_design"; "principal_designer"]))
              (fun _ => Return {| PromptOrchestratorMore.similar_prompts := [];
                                  PromptOrchestratorMore.successful_patterns := [];
                                  PromptOrchestratorMore.fallback_triggers := [] |})
              {| PromptOrchestratorMore.pq_prompt := "Sketch a login page";
                 PromptOrchestratorMore.pq_context := None;
                 PromptOrchestratorMore.pq_agent_preference := None;
                 PromptOrchestratorMore.pq_use_memory := true;
                 PromptOrchestratorMore.pq_use_fallback := true |}
              _ "design_focused" PromptOrchestrator.float_0_7
              "vp_design" ["principal_designer"] _
              eq_refl eq_refl eq_refl eq_refl eq_refl eq_refl)
    as (analysed & routed & Hanalyse & Hroute & _ & Hno).
  - discriminate.
  - exists analysed, routed. split; [exact Hanalyse |]. split; [exact Hroute | exact Hno].
Defined.

(** X19. [/patterns/update] never answers 400. A body without a [patterns]
    key leaves the pattern file untouched and fails with status 500, the
    400 "Invalid pattern structure" being caught by the endpoint's own
    handler and wrapped; every failure is a 500 whose detail starts with
    "Pattern update failed: ". And when [patterns] holds a value without a
    length (a number, [null]), the file has been overwritten with the body
    before the endpoint fails. *)
Theorem X19_update_patterns_failures
  (open_fails : option py_exn) (patterns : list (string * pyval)) :
  (forall e,
     snd (PromptOrchestratorMore.update_patterns open_fails patterns) = Raise e ->
     exists text, e = HTTPException 500 ("Pattern update failed: " +:+ text))
  /\ (PyDict.mem "patterns" patterns = false ->
      PromptOrchestratorMore.update_patterns open_fails patterns
      = (PromptOrchestratorMore.Untouched,
         Raise (HTTPException 500
                  ("Pattern update failed: "
                   +:+ exn_str (HTTPException 400 "Invalid pattern structure")))))
  /\ (forall v e,
        open_fails = None ->
        PyDict.get "patterns" patterns = Some v ->
        PromptOrchestratorMore.py_len v = Raise e ->
        PromptOrchestratorMore.update_patterns open_fails patterns
        = (PromptOrchestratorMore.Written patterns,
           Raise (HTTPException 500 ("Pattern update failed: " +:+ exn_str e))))
  /\ (forall response,
        snd (PromptOrchestratorMore.update_patterns open_fails patterns) = Return response ->
        fst (PromptOrchestratorMore.update_patterns open_fails patterns)
        = PromptOrchestratorMore.Written patterns).
Proof.
  unfold PromptOrchestratorMore.update_patterns, PyDict.mem.
  destruct (PyDict.get "patterns" patterns) as [v |] eqn:Hget; cbn [negb].
  - destruct open_fails as [e0 |].
    + cbn. repeat split; try discriminate.
      intros e [= <-]. eauto.
    + cbn [default from_option id].
      destruct (PromptOrchestratorMore.py_len v) as [count | e0] eqn:Hlen; cbn;
        repeat split; try discriminate;
        try (intros e [= <-]; eauto);
        intros v' e _ [= <-] Hlen'; congruence.
  - cbn. repeat split; try discriminate.
    intros e [= <-]. eauto.
Qed.

(** ** [run_agent] *)

Module RunFacts.
Import FusionApi.

Section WithEnvironment.
Variable float_repr : spec_float -> string.
Variable format_2f : pyval -> result string.
Variable http_post : string -> pyval -> http_outcome.
Variable agent_map : list (string * agent_handle).
Variable dispatcher : Dispatcher.t.

Lemma call_prompt_orchestrator_prints prompt context :
  exists t v,
    call_prompt_orchestrator http_post prompt context = (t, Return v)
    /\ forallb is_print t = true.
Proof.
  unfold call_prompt_orchestrator, post.
  destruct (http_post _ _) as [e | status_code json]; cbn; [eauto |].
  destruct (status_code =? 200); cbn; [| eauto].
  destruct json; cbn; eauto.
Qed.

(** The inner [try] of [run_agent] never lets an exception out, prints at
    most, and leaves in [final_input] the request's input or a non-empty
    [rewritten_prompt] of the service's answer. *)
Lemma rewrite_step_spec req :
  exists t final orchestrator_result,
    rewrite_step format_2f http_post req = (t, Return (final, orchestrator_result))
    /\ forallb is_print t = true
    /\ (final = VStr (input req)
        \/ exists r,
             orchestrator_result = Some r
             /\ py_get r "rewritten_prompt" VNone = Return final
             /\ py_truthy final = true)
    /\ (use_prompt_orchestrator req = false ->
        t = [] /\ final = VStr (input req) /\ orchestrator_result = None).
Proof.
  unfold rewrite_step, rewrite_failed.
  destruct (use_prompt_orchestrator req).
  2:{ do 3 eexists. split; [reflexivity |]. repeat split; auto. }
  destruct (call_prompt_orchestrator_prints (input req) None) as (t0 & r & -> & Hprints).
  rewrite bind_pure.
  destruct (py_get r "rewritten_prompt" VNone) as [rewritten | e] eqn:Hget.
  2:{ cbn. do 3 eexists. split; [reflexivity |].
      split; [rewrite forallb_app, Hprints; reflexivity |].
      split; [now left | discriminate]. }
  cbn [lift bind trace_of result_of fst snd].
  destruct (py_truthy rewritten) eqn:Htruthy.
  2:{ cbn. do 3 eexists. split; [reflexivity |].
      split; [rewrite forallb_app, Hprints; reflexivity |].
      split; [now left | discriminate]. }
  destruct (py_get r "confidence" (VInt 0)) as [conf | e]; cbn;
    [destruct (format_2f conf); cbn |];
    (do 3 eexists; split; [reflexivity |];
     split; [rewrite forallb_app, Hprints; reflexivity |];
     split; [right; eauto | discriminate]).
Qed.

(** [run_agent] once the agent is known to the service: the [try] block. *)
Lemma run_agent_known req :
  PyDict.mem (agent req) agent_map = true ->
  forall e,
    result_of (run_agent float_repr format_2f http_post agent_map dispatcher req) = Raise e ->
    exists e0 t,
      e = HTTPException 500 ("Agent execution failed: " +:+ exn_str e0)
      /\ trace_of (run_agent float_repr format_2f http_post agent_map dispatcher req)
         = t ++ error_recorded req e0.
Proof.
  intros Hmem e. unfold run_agent, error_recorded, when. rewrite Hmem. cbn [negb].
  match goal with
  | |- context [try_except ?m _ _] => destruct m as [t [a | e0]]
  end; [discriminate |].
  destruct (use_telemetry req); cbn; intros [= <-]; eauto.
Qed.



End WithEnvironment.

End RunFacts.

(** X20. The failures of [/run], the calls into [AgentMemory] and the
    telemetry logger included. An agent that is not in [agent_map] is
    answered 404 before anything else happens. Otherwise a failure is one
    of three: the exception [AgentMemory(agent)] raises, as it is, since
    the object is built before the [try] block (when the request asks for
    memory); an [HTTPException] of status 500 whose detail is "Agent
    execution failed: " and the text of the exception caught; or the
    exception the telemetry logger raises inside the handler while logging
    the error (when the request asks for telemetry). When those calls all
    return, with a memory object that counts as true, this is
    [FusionApi.run_agent]. *)
Theorem X20_run_agent_failures
  (float_repr : spec_float -> string) (format_2f : pyval -> result string)
  (http_post : string -> pyval -> FusionApi.http_outcome)
  (agent_map : list (string * agent_handle)) (dispatcher : Dispatcher.t)
  (new_memory : string -> result bool)
  (memory_append : string -> string -> pyval -> result unit)
  (log_event : string -> string -> pyval -> option string -> result unit)
  (req : FusionApi.RunRequest) :
  (PyDict.mem (FusionApi.agent req) agent_map = false ->
   RunEndpoint.run_agent float_repr format_2f http_post agent_map dispatcher
     new_memory memory_append log_event req
   = ([], Raise (HTTPException 404 ("Agent '" +:+ FusionApi.agent req +:+ "' not found"))))
  /\ (PyDict.mem (FusionApi.agent req) agent_map = true ->
      FusionApi.use_memory req = true ->
      forall e,
        new_memory (FusionApi.agent req) = Raise e ->
        RunEndpoint.run_agent float_repr format_2f http_post agent_map dispatcher
          new_memory memory_append log_event req
        = ([], Raise e))
  /\ (PyDict.mem (FusionApi.agent req) agent_map = true ->
      forall e,
        result_of (RunEndpoint.run_agent float_repr format_2f http_post agent_map dispatcher
                     new_memory memory_append log_event req) = Raise e ->
        (FusionApi.use_memory req = true /\ new_memory (FusionApi.agent req) = Raise e)
        \/ (exists e0, e = HTTPException 500 ("Agent execution failed: " +:+ exn_str e0))
        \/ (FusionApi.use_telemetry req = true
            /\ exists e0,
                 log_event (FusionApi.agent req) (FusionApi.input req)
                   (VStr ("Error: " +:+ exn_str e0)) (Some "error_handling") = Raise e))
  /\ ((forall agent, new_memory agent = Return true) ->
      (forall agent input output, memory_append agent input output = Return tt) ->
      (forall agent input output fallback,
         log_event agent input output fallback = Return tt) ->
      RunEndpoint.run_agent float_repr format_2f http_post agent_map dispatcher
        new_memory memory_append log_event req
      = FusionApi.run_agent float_repr format_2f http_post agent_map dispatcher req).
Proof.
  split; [| split; [| split]].
  - intros Hmem. unfold RunEndpoint.run_agent. now rewrite Hmem.
  - intros Hmem Hmemory e Hnew. unfold RunEndpoint.run_agent, lift.
    now rewrite Hmem, Hmemory, Hnew.
  - intros Hmem e. unfold RunEndpoint.run_agent. rewrite Hmem. cbn [negb].
    destruct (if FusionApi.use_memory req
              then lift (new_memory (FusionApi.agent req)) else ret false)
      as [t0 [memory | e1]] eqn:Hmemory.
    + rewrite bind_pure. cbn [result_of snd].
      match goal with
      | |- context [try_except ?m _ _] => destruct m as [t [answer | e0]]
      end; [discriminate |].
      cbn [try_except any_exception].
      destruct (FusionApi.use_telemetry req); [| cbn; intros [= <-]; right; left; eauto].
      destruct (log_event (FusionApi.agent req) (FusionApi.input req)
                  (VStr ("Error: " +:+ exn_str e0)) (Some "error_handling"))
        as [[] | e2] eqn:Hlog; cbn; intros [= <-]; right; [left | right]; eauto.
    + cbn. intros [= <-]. left.
      destruct (FusionApi.use_memory req); [| discriminate].
      unfold lift in Hmemory. split; [reflexivity | congruence].
  - intros Hnew Happend Hlog.
    unfold RunEndpoint.run_agent, FusionApi.run_agent, FusionApi.when.
    destruct (PyDict.mem (FusionApi.agent req) agent_map); cbn [negb]; [| reflexivity].
    assert (Hmemory : (if FusionApi.use_memory req
                       then lift (new_memory (FusionApi.agent req)) else ret false)
                      = ret (FusionApi.use_memory req)).
    { rewrite Hnew. now destruct (FusionApi.use_memory req). }
    rewrite Hmemory, bind_ret_l.
    destruct (FusionApi.rewrite_step format_2f http_post req)
      as [t1 [[final orchestrator_result] | e]].
    2:{ cbn. rewrite Hlog. now destruct (FusionApi.use_telemetry req). }
    rewrite !bind_pure. cbn [fst snd].
    destruct (Dispatcher.dispatch float_repr dispatcher (FusionApi.agent req) final None)
      as [t2 [output | e]].
    2:{ cbn. rewrite Hlog. now destruct (FusionApi.use_telemetry req). }
    rewrite !bind_pure, Happend, Hlog.
    destruct orchestrator_result as [r |].
    + destruct (py_truthy r).
      * destruct (FusionApi.orchestrator_metadata r) as [t3 [metadata | e]];
          destruct (FusionApi.use_memory req), (FusionApi.use_telemetry req); cbn;
            rewrite ?Hlog; reflexivity.
      * destruct (FusionApi.use_memory req), (FusionApi.use_telemetry req); reflexivity.
    + destruct (FusionApi.use_memory req), (FusionApi.use_telemetry req); reflexivity.
Qed.

(** X20 on a request for an agent of the service whose memory cannot be
    opened: the exception reaches the caller as it is, and nothing else
    has happened. *)
Lemma X20_run_agent_failures_witness :
  RunEndpoint.run_agent (fun _ => "") (fun _ => Return "0.50")
    (fun _ _ => FusionApi.HttpResponse 503 (Return VNone))
    [("evaluator", {| type_name := "EvaluatorAgent"; run_async := None; run := None;
                      call := Some (fun _ => Return (VStr "ok")) |})]
    {| Dispatcher.agents :=
         [("evaluator", {| type_name := "EvaluatorAgent"; run_async := None; run := None;
                           call := Some (fun _ => Return (VStr "ok")) |})] |}
    (fun _ => Raise (Exn (OtherException "PermissionError") "memory/evaluator.json"))
    (fun _ _ _ => Return tt) (fun _ _ _ _ => Return tt)
    {| FusionApi.agent := "evaluator"; FusionApi.input := "Judge this";
       FusionApi.use_memory := true; FusionApi.use_telemetry := true;
       FusionApi.use_prompt_orchestrator := false |}
  = ([], Raise (Exn (OtherException "PermissionError") "memory/evaluator.json")).
Proof.
  destruct (X20_run_agent_failures (fun _ => "") (fun _ => Return "0.50")
              (fun _ _ => FusionApi.HttpResponse 503 (Return VNone))
              [("evaluator", {| type_name := "EvaluatorAgent"; run_async := None;
                                run := None;
                                call := Some (fun _ => Return (VStr "ok")) |})]
              {| Dispatcher.agents :=
                   [("evaluator", {| type_name := "EvaluatorAgent"; run_async := None;
                                     run := None;
                                     call := Some (fun _ => Return (VStr "ok")) |})] |}
              (fun _ => Raise (Exn (OtherException "PermissionError") "memory/evaluator.json"))
              (fun _ _ _ => Return tt) (fun _ _ _ _ => Return tt)
              {| FusionApi.agent := "evaluator"; FusionApi.input := "Judge this";
                 FusionApi.use_memory := true; FusionApi.use_telemetry := true;
                 FusionApi.use_prompt_orchestrator := false |})
    as (_ & Hraw & _).
  exact (Hraw eq_refl eq_refl _ eq_refl).
Defined.





(** X23. The rewrite step of [/run] never fails and only prints. The input
    it hands on to the dispatcher is the request's input, or else the
    [rewritten_prompt] of the service's answer, which is then not empty;
    with the prompt orchestrator switched off it does nothing at all. *)
Theorem X23_rewrite_step_total
  (format_2f : pyval -> result string)
  (http_post : string -> pyval -> FusionApi.http_outcome)
  (req : FusionApi.RunRequest) :
  exists t final orchestrator_result,
    FusionApi.rewrite_step format_2f http_post req
    = (t, Return (final, orchestrator_result))
    /\ forallb is_print t = true
    /\ (final = VStr (FusionApi.input req)
        \/ exists r,
             orchestrator_result = Some r
             /\ py_get r "rewritten_prompt" VNone = Return final
             /\ py_truthy final = true)
    /\ (FusionApi.use_prompt_orchestrator req = false ->
        t = [] /\ final = VStr (FusionApi.input req) /\ orchestrator_result = None).
Proof. apply RunFacts.rewrite_step_spec. Qed.



(** ** The other endpoints of the service *)

Module EndpointFacts.

Lemma longer_differs (a : string) : a <> String "x" a.
Proof.
  intros Heq. apply (f_equal String.length) in Heq. cbn in Heq. lia.
Qed.

(** A trace that is quiet for every agent name holds no invocation. *)
Lemma quiet_no_invocation (t : list event) :
  (forall name, invokes_only name t) -> no_invocation t.
Proof.
  unfold invokes_only, no_invocation. induction t as [| ev t IH]; intros Hquiet;
    [reflexivity |].
  assert (Htail : forall name, Forall (fun ev =>
                                  match ev with
                                  | EInvoke agent _ _ => agent = name
                                  | EFanOut _ _ => False
                                  | _ => True
                                  end) t).
  { intros name. specialize (Hquiet name). now inversion Hquiet. }
  specialize (IH Htail). cbn.
  destruct ev as [| | agent cap input | | | |]; cbn; try exact IH.
  - pose proof (Hquiet (String "x" agent)) as Hx. inversion Hx as [| ? ? Hhead _]; subst.
    destruct (longer_differs agent Hhead).
  - pose proof (Hquiet "") as Hx. inversion Hx as [| ? ? Hhead _]; subst.
    destruct Hhead.
Qed.

Lemma filter_none {A} (p : A -> bool) (l : list A) :
  (forall a, In a l -> p a = false) -> List.filter p l = [].
Proof.
  induction l as [| a l IH]; intros Hall; [reflexivity |].
  cbn. rewrite (Hall a) by now left. apply IH. intros b Hin. apply Hall. now right.
Qed.

End EndpointFacts.

(** X25. The failures of [/prompt]. Every failure is an [HTTPException] of
    status 500 whose detail starts with "Prompt handling failed: ". In
    particular a preference for an agent that is not in [agent_map] is not
    answered 404: the 404 of [run_agent] is caught and wrapped into a 500,
    and no agent code was entered. *)
Theorem X25_handle_prompt_failures
  (float_repr : spec_float -> string) (format_2f : pyval -> result string)
  (http_post : string -> pyval -> FusionApi.http_outcome)
  (agent_map : list (string * agent_handle)) (dispatcher : Dispatcher.t)
  (req : FusionApi.PromptRequest) :
  (forall e,
     result_of (FusionApi.handle_prompt float_repr format_2f http_post agent_map
                  dispatcher req) = Raise e ->
     exists e0, e = HTTPException 500 ("Prompt handling failed: " +:+ exn_str e0))
  /\ (forall name,
        FusionApi.p_agent_preference req = Some name -> name <> "" ->
        PyDict.mem name agent_map = false ->
        exists t,
          FusionApi.handle_prompt float_repr format_2f http_post agent_map dispatcher req
          = (t, Raise (HTTPException 500
                         ("Prompt handling failed: "
                          +:+ exn_str (HTTPException 404
                                         ("Agent '" +:+ name +:+ "' not found")))))
          /\ no_invocation t).
Proof.
  split.
  - intros e Hraise. unfold FusionApi.handle_prompt in Hraise.
    apply (ServiceFacts.try_except_wraps _
             (fun e0 => HTTPException 500 ("Prompt handling failed: " +:+ exn_str e0)))
      in Hraise.
    destruct Hraise as (e0 & _ & ->). eauto.
  - intros name Hpref Hne Hmem.
    destruct (PromptFacts.select_final_agent_spec float_repr format_2f http_post agent_map req)
      as (t & rec & final & Hsel & Hfinal & _).
    specialize (Hfinal name Hpref Hne). subst final.
    exists t. split.
    + unfold FusionApi.handle_prompt. rewrite Hsel, bind_pure. cbn [fst snd].
      unfold FusionApi.run_agent, FusionApi.run_request_of. cbn [FusionApi.agent].
      rewrite Hmem. cbn. now rewrite !app_nil_r.
    + apply EndpointFacts.quiet_no_invocation. intros other.
      pose proof (PromptFacts.select_final_agent_quiet float_repr format_2f http_post
                    agent_map other req) as Hquiet.
      now rewrite Hsel in Hquiet.
Qed.

(** X26. [/run_parallel] on a request all of whose agents are in
    [agent_map], the empty list of agents included: the coordinator is
    called once, with the request's input and agents as they are, and
    nothing else happens; every failure is an [HTTPException] of status 500
    whose detail starts with "Parallel execution failed: "; and when the
    coordinator returns a mapping, the answer echoes the input and the
    agents and takes the other fields from the mapping, [None] for a
    missing one. *)
Theorem X26_run_parallel_agents_valid
  (float_repr : spec_float -> string)
  (run_parallel : string -> list string -> result pyval)
  (agent_map : list (string * agent_handle)) (req : FusionApi.ParallelRunRequest) :
  (forall name, In name (FusionApi.pr_agents req) -> PyDict.mem name agent_map = true) ->
  trace_of (FusionApi.run_parallel_agents float_repr run_parallel agent_map req)
  = [EFanOut (FusionApi.pr_input req) (FusionApi.pr_agents req)]
  /\ (forall e,
        result_of (FusionApi.run_parallel_agents float_repr run_parallel agent_map req)
        = Raise e ->
        exists e0, e = HTTPException 500 ("Parallel execution failed: " +:+ exn_str e0))
  /\ (forall entries,
        run_parallel (FusionApi.pr_input req) (FusionApi.pr_agents req)
        = Return (VDict entries) ->
        result_of (FusionApi.run_parallel_agents float_repr run_parallel agent_map req)
        = Return [("input", VStr (FusionApi.pr_input req));
                  ("agents", VList (List.map VStr (FusionApi.pr_agents req)));
                  ("top_result", default VNone (PyDict.get "top_result" entries));
                  ("all_results", default VNone (PyDict.get "all_results" entries));
                  ("evaluations", default VNone (PyDict.get "evaluations" entries));
                  ("execution_time", default VNone (PyDict.get "execution_time" entries));
                  ("agent_count", default VNone (PyDict.get "agent_count" entries))]).
Proof.
  intros Hvalid. unfold FusionApi.run_parallel_agents.
  rewrite (EndpointFacts.filter_none _ (FusionApi.pr_agents req))
    by (intros name Hin; now rewrite (Hvalid name Hin)).
  cbn [bool_decide negb]. rewrite bool_decide_eq_true_2 by reflexivity. cbn [negb].
  split; [| split].
  - destruct (run_parallel _ _) as [result | e0]; [| reflexivity].
    destruct result; reflexivity.
  - intros e Hraise.
    apply (ServiceFacts.try_except_wraps _
             (fun e0 => HTTPException 500 ("Parallel execution failed: " +:+ exn_str e0)))
      in Hraise.
    destruct Hraise as (e0 & _ & ->). eauto.
  - intros entries ->. cbn.
    destruct (PyDict.get "top_result" entries), (PyDict.get "all_results" entries),
      (PyDict.get "evaluations" entries), (PyDict.get "execution_time" entries),
      (PyDict.get "agent_count" entries); reflexivity.
Qed.

(** X26 on a request for two agents of the service. *)
Lemma X26_run_parallel_agents_valid_witness :
  FusionApi.run_parallel_agents (fun _ => "")
    (fun _ _ => Return (VDict [("top_result", VStr "draft B"); ("agent_count", VInt 2)]))
    [("evaluator", {| type_name := "EvaluatorAgent"; run_async := None;
                      run := None; call := None |});
     ("vp_design", {| type_name := "VpDesignAgent"; run_async := None;
                      run := None; call := None |});
     ("deck_narrator", {| type_name := "DeckNarratorAgent"; run_async := None;
                          run := None; call := None |})]
    {| FusionApi.pr_agents := ["vp_design"; "evaluator"];
       FusionApi.pr_input := "Compare the drafts";
       FusionApi.pr_use_evaluator := true |}
  = ([EFanOut "Compare the drafts" ["vp_design"; "evaluator"]],
     Return [("input", VStr "Compare the drafts");
             ("agents", VList [VStr "vp_design"; VStr "evaluator"]);
             ("top_result", VStr "draft B");
             ("all_results", VNone);
             ("evaluations", VNone);
             ("execution_time", VNone);
             ("agent_count", VInt 2)]).
Proof.
  destruct (X26_run_parallel_agents_valid (fun _ => "")
              (fun _ _ => Return (VDict [("top_result", VStr "draft B");
                                         ("agent_count", VInt 2)]))
              [("evaluator", {| type_name := "EvaluatorAgent"; run_async := None;
                                run := None; call := None |});
               ("vp_design", {| type_name := "VpDesignAgent"; run_async := None;
                                run := None; call := None |});
               ("deck_narrator", {| type_name := "DeckNarratorAgent"; run_async := None;
                                    run := None; call := None |})]
              {| FusionApi.pr_agents := ["vp_design"; "evaluator"];
                 FusionApi.pr_input := "Compare the drafts";
                 FusionApi.pr_use_evaluator := true |}) as (Htrace & _ & Hanswer).
  - intros name [<- | [<- | []]]; reflexivity.
  - specialize (Hanswer _ eq_refl).
    unfold trace_of in Htrace. unfold result_of in Hanswer.
    destruct (FusionApi.run_parallel_agents _ _ _ _) as [t r].
    cbn [fst snd] in Htrace, Hanswer. now rewrite Htrace, Hanswer.
Defined.

(** X27. [/telemetry/export] never answers 400: a format other than "json"
    and "csv" fails with status 500, the 400 "Unsupported format" being
    caught by the endpoint's own handler and wrapped, and the logger is not
    asked for anything; like every failure of the endpoint, its detail
    starts with "Export failed: ". *)
Theorem X27_export_telemetry_failures
  (telemetry_logger : FusionApi.telemetry_logger_t) (format : string) :
  (format <> "json" -> format <> "csv" ->
   forall other : FusionApi.telemetry_logger_t,
     FusionApi.export_telemetry other format
     = ([], Raise (HTTPException 500
                     ("Export failed: "
                      +:+ exn_str (HTTPException 400 "Unsupported format")))))
  /\ (forall e,
        result_of (FusionApi.export_telemetry telemetry_logger format) = Raise e ->
        exists e0, e = HTTPException 500 ("Export failed: " +:+ exn_str e0))
  /\ (format = "json" ->
      forall data,
        FusionApi.save telemetry_logger = Return data ->
        FusionApi.export_telemetry telemetry_logger format = ([], Return data)).
Proof.
  split; [| split].
  - intros Hjson Hcsv other. unfold FusionApi.export_telemetry.
    destruct (String.eqb_spec format "json"); [contradiction |].
    destruct (String.eqb_spec format "csv"); [contradiction |].
    reflexivity.
  - intros e Hraise. unfold FusionApi.export_telemetry in Hraise.
    apply (ServiceFacts.try_except_wraps _
             (fun e0 => HTTPException 500 ("Export failed: " +:+ exn_str e0)))
      in Hraise.
    destruct Hraise as (e0 & _ & ->). eauto.
  - intros -> data Hsave. unfold FusionApi.export_telemetry. cbn.
    unfold lift. now rewrite Hsave.
Qed.

(** ** Start-up of the service *)



(** ** The manifest as the service reads it *)

(** X29. [load_agent_manifest] turns a missing manifest file into the empty
    manifest and lets every other failure of reading it through; the
    manifest-driven loader [load_agents] turns the same missing file into
    an empty set of agents. With the empty manifest, [/agents] describes
    every agent of [agent_map] with the default metadata. *)
Theorem X29_missing_manifest
  (e : py_exn) (imp : importer) (agent_map : list (string * agent_handle)) :
  PyDict.wf agent_map ->
  (file_not_found e = true ->
   FusionApi.load_agent_manifest (ManifestFails e)
   = ([], Return {| md_agents := Some []; md_system_capabilities := Some (VDict []) |})
   /\ load_agents (ManifestFails e) imp "agent_manifest.json"
      = ([EPrint (missing_line "agent_manifest.json")], Return []))
  /\ (file_not_found e = false ->
      FusionApi.load_agent_manifest (ManifestFails e) = ([], Raise e)
      /\ load_agents (ManifestFails e) imp "agent_manifest.json" = ([], Raise e))
  /\ FusionApi.list_agents
       {| md_agents := Some []; md_system_capabilities := Some (VDict []) |} agent_map
     = ([], Return
              [("agents",
                VDict (List.map (fun entry => (fst entry, described [] (type_name (snd entry))))
                         agent_map));
               ("total_agents", VInt (Z.of_nat (length agent_map)));
               ("system_capabilities", VDict [])]).
Proof.
  intros Hwf. split; [| split].
  - intros Hmissing. unfold FusionApi.load_agent_manifest, load_agents. cbn.
    rewrite Hmissing. split; reflexivity.
  - intros Hother. unfold FusionApi.load_agent_manifest, load_agents. cbn.
    rewrite Hother. split; reflexivity.
  - unfold FusionApi.list_agents.
    rewrite (ListingFacts.describe_each_spec _
               (fun _ agent => described [] (type_name agent))); auto.
Qed.

Lemma X29_missing_manifest_witness :
  FusionApi.list_agents
    {| md_agents := Some []; md_system_capabilities := Some (VDict []) |}
    [("evaluator", {| type_name := "EvaluatorAgent"; run_async := None; run := None;
                      call := None |})]
  = ([], Return
           [("agents",
             VDict [("evaluator",
                     VDict [("role", VStr "Unknown");
                            ("capabilities", VList []);
                            ("confidence_threshold", VFloat FusionApi.float_0_8);
                            ("memory_enabled", VBool true);
                            ("telemetry_enabled", VBool true);
                            ("type", VStr "EvaluatorAgent");
                            ("available", VBool true)])]);
            ("total_agents", VInt 1);
            ("system_capabilities", VDict [])]).
Proof.
  destruct (X29_missing_manifest (Exn FileNotFoundError "agent_manifest.json")
              (fun _ => Raise (Exn ImportError "no module"))
              [("evaluator", {| type_name := "EvaluatorAgent"; run_async := None;
                                run := None; call := None |})])
    as (_ & _ & Hlist).
  - constructor; [intros [] | constructor].
  - exact Hlist.
Defined.

(** ** minimal_api.py *)

Module MinimalFacts.

Lemma any_in_more (words more : list string) (text : string) :
  (forall word, In word words -> In word more) ->
  Orchestrator.any_in words text = true -> Orchestrator.any_in more text = true.
Proof.
  unfold Orchestrator.any_in. intros Hincl Hany.
  apply List.existsb_exists in Hany as (word & Hin & Hword).
  apply List.existsb_exists. exists word. split; [now apply Hincl | exact Hword].
Qed.

End MinimalFacts.

(** X30. The two keyword routers send design prompts to different agents:
    every prompt that [Orchestrator.select_agent] routes to "vp_design" is
    routed by [select_best_agent] of the minimal API to
    "creative_director"; and the minimal API never answers "vp_design",
    its answer being one of seven fixed agents. *)
Theorem X30_minimal_api_routes_design_elsewhere
  (str_lower : string -> string) (prompt : string) :
  (Orchestrator.select_agent str_lower prompt = "vp_design" ->
   MinimalApi.select_best_agent str_lower prompt = "creative_director")
  /\ In (MinimalApi.select_best_agent str_lower prompt)
       ["creative_director"; "strategy_pilot"; "content_designer"; "product_navigator";
        "design_technologist"; "market_analyst"; "evaluator"]
  /\ MinimalApi.select_best_agent str_lower prompt <> "vp_design".
Proof.
  split; [| split].
  - unfold Orchestrator.select_agent. cbv zeta.
    destruct (Orchestrator.any_in ["design"; "ui"; "ux"; "interface"; "visual"]
                (str_lower prompt)) eqn:Hdesign.
    + intros _. unfold MinimalApi.select_best_agent. cbv zeta.
      rewrite (MinimalFacts.any_in_more ["design"; "ui"; "ux"; "interface"; "visual"] _
                 (str_lower prompt)); [reflexivity | | exact Hdesign].
      intros word Hin. cbn in Hin. cbn. tauto.
    + repeat match goal with
             | |- context [if ?b then _ else _] => destruct b
             end; discriminate.
  - unfold MinimalApi.select_best_agent. cbv zeta.
    repeat match goal with
           | |- context [if ?b then _ else _] => destruct b
           end; cbn; tauto.
  - unfold MinimalApi.select_best_agent. cbv zeta.
    repeat match goal with
           | |- context [if ?b then _ else _] => destruct b
           end; discriminate.
Qed.
